(** * Transactions-to-Notion uploader: a shallow embedding

    The development follows the JavaScript source function by function:
    [parseCSV], [uploadToNotion], [formatDateToISO] and
    [validateAndUploadTransactions] of [src/utils.js] (the first three are
    repeated word for word in [src/index.js]) and [main] of [src/index.js],
    together with the constants [ALLOWED_PAYMENT_METHODS], [ALLOWED_USERS]
    and [BANK_MAPPINGS].

    Modelling conventions.
    - A JavaScript string is a [string], the sequence of bytes of its
      UTF-8 form.  The only string operations the program applies are
      [toLowerCase], [startsWith], template concatenation, [split('T')[0]]
      and the reading of a number by [parseFloat]; [toLowerCase] is
      modelled on the ASCII letters, which are the only characters whose
      lower-case form is one of the letters of the three bank prefixes.
    - A property that may be [undefined] is an [option string]; the
      JavaScript object produced for one CSV line is a [gmap string string]
      (own properties only).
    - Effects are explicit: console output, file-system probes and calls to
      the remote sink are recorded as a chronological list of [Event]s, the
      remote sink and the clock live in an abstract world that is threaded
      through the uploader.
    - A JavaScript number is a binary64 value ([JSNumber]): [parseFloat]
      skips the white space of ECMAScript, reads the longest decimal
      literal and rounds it to the nearest binary64 value, ties to even,
      with overflow to an infinity and underflow to zero.
    - The CSV file is read through two streams: the file read stream and
      the parser it is piped into.  The events of both are part of the
      model, the ['error'] event of the read stream included. *)

From Stdlib Require Import ZArith Ascii String List Bool Lia QArith Qabs Qpower.
From stdpp Require Import base option list strings gmap pretty.

Local Open Scope string_scope.

(* ===================================================================== *)
(** * Part I: the embedding                                               *)
(* ===================================================================== *)

(** ** JavaScript string primitives *)

Module Js.

Definition isUpperAZ (c : ascii) : bool :=
  ((65 <=? N_of_ascii c) && (N_of_ascii c <=? 90))%N.

Definition lowerChar (c : ascii) : ascii :=
  if isUpperAZ c then ascii_of_N (N_of_ascii c + 32) else c.

(** [String.prototype.toLowerCase] *)
Fixpoint toLowerCase (s : string) : string :=
  match s with
  | EmptyString => EmptyString
  | String c s' => String (lowerChar c) (toLowerCase s')
  end.

(** [String.prototype.startsWith]: [startsWith s p] is [s.startsWith(p)]. *)
Fixpoint startsWith (s p : string) {struct p} : bool :=
  match p, s with
  | EmptyString, _ => true
  | String _ _, EmptyString => false
  | String b p', String a s' => if Ascii.eqb a b then startsWith s' p' else false
  end.

(** [Array.prototype.join] on an array of strings. *)
Fixpoint join (sep : string) (l : list string) : string :=
  match l with
  | [] => ""
  | [x] => x
  | x :: rest => x ++ sep ++ join sep rest
  end.

(** [Array.prototype.includes] against an optional (possibly [undefined])
    string: strict equality never identifies [undefined] with a string. *)
Definition includes (l : list string) (x : option string) : bool :=
  match x with
  | Some s => existsb (String.eqb s) l
  | None => false
  end.

(** Truthiness of a value that is a string or [undefined]: only the empty
    string and [undefined] are falsy. *)
Definition truthy (v : option string) : bool :=
  match v with
  | Some s => negb (String.eqb s "")
  | None => false
  end.

(** [a || b] *)
Definition or (a b : option string) : option string :=
  if truthy a then a else b.

(** [a || 'literal'], whose value is always a string. *)
Definition orElse (a : option string) (d : string) : string :=
  match a with
  | Some s => if String.eqb s "" then d else s
  | None => d
  end.

(** Template-literal rendering of a value that is a string or [undefined]. *)
Definition show (v : option string) : string :=
  match v with
  | Some s => s
  | None => "undefined"
  end.

(** [s.split(c)[0]]: the part of [s] before the first occurrence of [c]. *)
Fixpoint splitHead (c : ascii) (s : string) : string :=
  match s with
  | EmptyString => EmptyString
  | String a s' => if Ascii.eqb a c then EmptyString else String a (splitHead c s')
  end.

(** An [Error] object, observed through its [message]. *)
Record Error := mkError { message : string }.

End Js.

(** ** Dates: time values, [toISOString] and a date-only [Date.parse] *)

Module JsDate.

Local Open Scope Z_scope.

Definition msPerDay : Z := 86400000.

(** ECMAScript [Day(t)] and [TimeWithinDay(t)]. *)
Definition Day (t : Z) : Z := t / msPerDay.
Definition TimeWithinDay (t : Z) : Z := t mod msPerDay.

(** Position of a day inside its 400-year era, counted from 1 March. *)
Definition yearOfEra (doe : Z) : Z :=
  (doe - doe / 1460 + doe / 36524 - doe / 146096) / 365.
Definition dayOfYear (doe : Z) : Z :=
  let yoe := yearOfEra doe in doe - (365 * yoe + yoe / 4 - yoe / 100).
Definition monthIndex (doy : Z) : Z := (5 * doy + 2) / 153.

(** [MonthFromTime + 1] and [DateFromTime] for a day of an era. *)
Definition monthOfEraDay (doe : Z) : Z :=
  let mp := monthIndex (dayOfYear doe) in
  if mp <? 10 then mp + 3 else mp - 9.
Definition dateOfEraDay (doe : Z) : Z :=
  let doy := dayOfYear doe in
  doy - (153 * monthIndex doy + 2) / 5 + 1.

(** Proleptic Gregorian [(year, month, day)] of day number [d]
    (day 0 is 1970-01-01), months and days counted from 1. *)
Definition civilFromDays (d : Z) : Z * Z * Z :=
  let z := d + 719468 in
  let era := z / 146097 in
  let doe := z mod 146097 in
  let m := monthOfEraDay doe in
  let y := yearOfEra doe + era * 400 in
  (if m <=? 2 then y + 1 else y, m, dateOfEraDay doe).

(** [YearFromTime(t)], [MonthFromTime(t) + 1] and [DateFromTime(t)]. *)
Definition YearFromTime (t : Z) : Z := (civilFromDays (Day t)).1.1.
Definition MonthOfTime (t : Z) : Z := (civilFromDays (Day t)).1.2.
Definition DateFromTime (t : Z) : Z := (civilFromDays (Day t)).2.

(** ECMAScript [MakeDay] for months and days counted from 1. *)
Definition daysFromCivil (y m d : Z) : Z :=
  let y' := if m <=? 2 then y - 1 else y in
  let era := y' / 400 in
  let yoe := y' mod 400 in
  let doy := (153 * (if m <=? 2 then m + 9 else m - 3) + 2) / 5 + d - 1 in
  let doe := yoe * 365 + yoe / 4 - yoe / 100 + doy in
  era * 146097 + doe - 719468.

Definition digitChar (n : Z) : ascii := ascii_of_N (48 + Z.to_N (n mod 10)).

(** Fixed-width decimal rendering, most significant digit first. *)
Fixpoint digits (width : nat) (n : Z) : string :=
  match width with
  | O => EmptyString
  | S w => (digits w (n / 10) ++ String (digitChar n) EmptyString)%string
  end.

(** The year of an ISO timestamp: four digits for the years 0 to 9999,
    otherwise a sign and six digits (the expanded-year form). *)
Definition isoYear (y : Z) : string :=
  if (0 <=? y) && (y <=? 9999) then digits 4 y
  else ((if (y <? 0)%Z then "-" else "+") ++ digits 6 (Z.abs y))%string.

(** The calendar-date part of [toISOString]. *)
Definition isoDatePart (t : Z) : string :=
  let '(y, m, d) := civilFromDays (Day t) in
  (isoYear y ++ "-" ++ digits 2 m ++ "-" ++ digits 2 d)%string.

(** The time-of-day part of [toISOString], [HH:mm:ss.sss]. *)
Definition isoTimePart (t : Z) : string :=
  let ms := TimeWithinDay t in
  (digits 2 (ms / 3600000) ++ ":" ++ digits 2 (ms / 60000 mod 60) ++ ":" ++
   digits 2 (ms / 1000 mod 60) ++ "." ++ digits 3 (ms mod 1000))%string.

(** [Date.prototype.toISOString] of a valid time value. *)
Definition toISOString (t : Z) : string :=
  (isoDatePart t ++ "T" ++ isoTimePart t ++ "Z")%string.

(** [d.toISOString().split('T')[0]] *)
Definition isoDay (t : Z) : string := Js.splitHead "T"%char (toISOString t).

(** *** A date-only [Date.parse]

    [Date.parse] is abstract in the uploader below (forms other than the
    ECMAScript date-time format are implementation-defined).  For concrete
    runs the date-only forms of that format are provided here: [YYYY],
    [YYYY-MM] and [YYYY-MM-DD], with a four-digit year or a signed
    six-digit one, read as UTC midnight. *)

Definition digitVal (c : ascii) : option Z :=
  let n := N_of_ascii c in
  if ((48 <=? n) && (n <=? 57))%N then Some (Z.of_N n - 48) else None.

Fixpoint readDigits (n : nat) (acc : Z) (s : string) : option (Z * string) :=
  match n with
  | O => Some (acc, s)
  | S n' =>
      match s with
      | EmptyString => None
      | String c s' =>
          match digitVal c with
          | Some d => readDigits n' (10 * acc + d) s'
          | None => None
          end
      end
  end.

Definition readYear (s : string) : option (Z * string) :=
  match s with
  | String "+"%char s' => readDigits 6 0 s'
  | String "-"%char s' =>
      match readDigits 6 0 s' with
      | Some (y, r) => if y =? 0 then None else Some (- y, r)
      | None => None
      end
  | _ => readDigits 4 0 s
  end.

Definition readDashed (s : string) : option (Z * string) :=
  match s with
  | String "-"%char s' => readDigits 2 0 s'
  | _ => None
  end.

Definition isLeapYear (y : Z) : bool :=
  ((y mod 4 =? 0) && negb (y mod 100 =? 0)) || (y mod 400 =? 0).

Definition daysInMonth (y m : Z) : Z :=
  if m =? 2 then (if isLeapYear y then 29 else 28)
  else if (m =? 4) || (m =? 6) || (m =? 9) || (m =? 11) then 30 else 31.

(** ECMAScript [TimeClip]: time values beyond 8.64e15 ms are invalid. *)
Definition TimeClip (t : Z) : option Z :=
  if Z.abs t <=? 8640000000000000 then Some t else None.

Definition utcMidnight (y m d : Z) : option Z :=
  if (1 <=? m) && (m <=? 12) && (1 <=? d) && (d <=? daysInMonth y m)
  then TimeClip (daysFromCivil y m d * msPerDay) else None.

Definition parseDateOnly (s : string) : option Z :=
  match readYear s with
  | None => None
  | Some (y, EmptyString) => utcMidnight y 1 1
  | Some (y, r1) =>
      match readDashed r1 with
      | None => None
      | Some (m, EmptyString) => utcMidnight y m 1
      | Some (m, r2) =>
          match readDashed r2 with
          | Some (d, EmptyString) => utcMidnight y m d
          | _ => None
          end
      end
  end.

(** Recogniser of the strict form [YYYY-MM-DD]: four digits, a dash, a
    month 01..12, a dash, a day 01..31, and nothing else. *)
Definition isYYYYMMDD (s : string) : bool :=
  match readDigits 4 0 s with
  | Some (_, r1) =>
      match readDashed r1 with
      | Some (m, r2) =>
          match readDashed r2 with
          | Some (d, EmptyString) =>
              (1 <=? m) && (m <=? 12) && (1 <=? d) && (d <=? 31)
          | _ => false
          end
      | None => false
      end
  | None => false
  end.

End JsDate.

(** ** Numbers: [parseFloat] and [Math.abs] *)

Module JsNum.

(** A Number value as the program can obtain it from [parseFloat]: [NaN],
    an infinity, or the binary64 value
    [(-1)^negative * mantissa * 2^exponent].  A finite value other than
    zero is kept with an odd mantissa, zero as [Finite _ 0 0] (the sign is
    kept apart so that [-0] exists); every binary64 value has exactly one
    such form. *)
Inductive JSNumber :=
  | NaN
  | Infinity (negative : bool)
  | Finite (negative : bool) (mantissa : N) (exponent : Z).

(** [Math.abs] *)
Definition Math_abs (x : JSNumber) : JSNumber :=
  match x with
  | NaN => NaN
  | Infinity _ => Infinity false
  | Finite _ m e => Finite false m e
  end.


(** *** White space

    A string is held as the bytes of its UTF-8 form.  [StrWhiteSpaceChar]
    is made of the one-byte characters TAB, LF, VT, FF, CR and SP
    ([isWhiteSpace1]), of U+00A0, bytes C2 A0 ([isWhiteSpace2]), and of the
    three-byte characters U+1680, U+2000 to U+200A, U+2028, U+2029, U+202F,
    U+205F, U+3000 and U+FEFF ([isWhiteSpace3]). *)

Definition isWhiteSpace1 (c : ascii) : bool :=
  let n := N_of_ascii c in ((9 <=? n) && (n <=? 13) || (n =? 32))%N.

Definition isWhiteSpace2 (a b : ascii) : bool :=
  ((N_of_ascii a =? 194) && (N_of_ascii b =? 160))%N.

Definition isWhiteSpace3 (a b c : ascii) : bool :=
  let x := N_of_ascii a in
  let y := N_of_ascii b in
  let z := N_of_ascii c in
  ((x =? 225) && (y =? 154) && (z =? 128) ||
   (x =? 226) && (y =? 128) &&
     ((128 <=? z) && (z <=? 138) || (z =? 168) || (z =? 169) || (z =? 175)) ||
   (x =? 226) && (y =? 129) && (z =? 159) ||
   (x =? 227) && (y =? 128) && (z =? 128) ||
   (x =? 239) && (y =? 187) && (z =? 191))%N.

(** The text without its leading white space. *)
Fixpoint trimStart (s : string) : string :=
  match s with
  | EmptyString => EmptyString
  | String a s1 =>
      if isWhiteSpace1 a then trimStart s1 else
      match s1 with
      | EmptyString => s
      | String b s2 =>
          if isWhiteSpace2 a b then trimStart s2 else
          match s2 with
          | EmptyString => s
          | String c s3 => if isWhiteSpace3 a b c then trimStart s3 else s
          end
      end
  end.

(** *** The literal at the head of a text *)

(** What the longest prefix that is a [StrDecimalLiteral] says, before any
    rounding: nothing, an infinity, or the decimal
    [(-1)^negative * mantissa * 10^exponent]. *)
Inductive Literal :=
  | NotANumber
  | InfinityLiteral (negative : bool)
  | Decimal (negative : bool) (mantissa : N) (exponent : Z).

(** The longest run of decimal digits at the head of [s]: the number read
    so far, how many digits were consumed, and the remainder. *)
Fixpoint readRun (acc : N) (count : nat) (s : string) : N * nat * string :=
  match s with
  | String c s' =>
      let n := N_of_ascii c in
      if ((48 <=? n) && (n <=? 57))%N
      then readRun (10 * acc + (n - 48)) (S count) s'
      else (acc, count, s)
  | EmptyString => (acc, count, s)
  end.

(** An [ExponentPart] at the head of [s], when there is a complete one. *)
Definition readExponent (s : string) : Z :=
  match s with
  | String c s' =>
      if (Ascii.eqb c "e" || Ascii.eqb c "E")%char then
        match s' with
        | String "-"%char s'' =>
            let '(n, k, _) := readRun 0 0 s'' in
            if Nat.eqb k 0 then 0%Z else (- Z.of_N n)%Z
        | String "+"%char s'' =>
            let '(n, _, _) := readRun 0 0 s'' in Z.of_N n
        | _ => let '(n, _, _) := readRun 0 0 s' in Z.of_N n
        end
      else 0%Z
  | EmptyString => 0%Z
  end.

(** The unsigned part of a [StrDecimalLiteral] prefix. *)
Definition readUnsigned (neg : bool) (s : string) : Literal :=
  if Js.startsWith s "Infinity" then InfinityLiteral neg else
  let '(ip, ik, r1) := readRun 0 0 s in
  match r1 with
  | String "."%char r2 =>
      let '(m, fk, r3) := readRun ip 0 r2 in
      if Nat.eqb ik 0 && Nat.eqb fk 0 then NotANumber
      else Decimal neg m (readExponent r3 - Z.of_nat fk)
  | _ => if Nat.eqb ik 0 then NotANumber else Decimal neg ip (readExponent r1)
  end.

(** The literal [parseFloat] finds in a text. *)
Definition readLiteral (s : string) : Literal :=
  match trimStart s with
  | String "-"%char r => readUnsigned true r
  | String "+"%char r => readUnsigned false r
  | r => readUnsigned false r
  end.

(** *** Rounding to binary64

    The Number value of a decimal is the binary64 value nearest to it,
    ties going to the even mantissa; what reaches [2^1024] becomes an
    infinity and what falls below half of [2^-1074] becomes zero. *)

(** The fraction [a / (b * 2^e)]. *)
Definition scaled (a b e : Z) : Z * Z :=
  if (0 <=? e)%Z then (a, b * 2 ^ e)%Z else (a * 2 ^ (- e), b)%Z.

(** The integer nearest to [a / b], the even one of two that are equally
    near ([0 <= a], [0 < b]). *)
Definition roundHalfEven (a b : Z) : Z :=
  let q := (a / b)%Z in
  match (2 * (a mod b) ?= b)%Z with
  | Lt => q
  | Gt => (q + 1)%Z
  | Eq => if Z.even q then q else (q + 1)%Z
  end.

(** The [k] with [2^k <= a / b < 2^(k+1)] ([0 < a], [0 < b]). *)
Definition floorLog2 (a b : Z) : Z :=
  let k := (Z.log2 a - Z.log2 b)%Z in
  let '(x, y) := scaled a b k in
  if (x <? y)%Z then (k - 1)%Z else k.

(** [m * 2^e] with the factors 2 of [m] moved to the exponent. *)
Fixpoint oddMantissa (fuel : nat) (m e : Z) : Z * Z :=
  match fuel with
  | O => (m, e)
  | S fuel' => if Z.even m then oddMantissa fuel' (m / 2)%Z (e + 1)%Z else (m, e)
  end.

(** The binary64 value of [(-1)^neg * a / b] ([0 <= a], [0 < b]): 53
    significant bits, the last bit worth at least [2^-1074]. *)
Definition roundToDouble (neg : bool) (a b : Z) : JSNumber :=
  if (a =? 0)%Z then Finite neg 0 0 else
  let e := Z.max (floorLog2 a b - 52) (-1074) in
  let '(x, y) := scaled a b e in
  let m := roundHalfEven x y in
  if (m =? 0)%Z then Finite neg 0 0
  else if (1024 <=? Z.log2 m + e)%Z then Infinity neg
  else let '(m', e') := oddMantissa 53 m e in Finite neg (Z.to_N m') e'.

(** The Number value of a literal.  A decimal [m * 10^e] with [0 < m]
    and [309 <= e] is at least [10^309], beyond every finite value; with
    [e + log2 m + 1 <= -324] it is below [10^-324], less than half of
    [2^-1074]: these two are settled without computing the power. *)
Definition toNumber (l : Literal) : JSNumber :=
  match l with
  | NotANumber => NaN
  | InfinityLiteral neg => Infinity neg
  | Decimal neg m e =>
      let a := Z.of_N m in
      if (a =? 0)%Z then Finite neg 0 0
      else if (309 <=? e)%Z then Infinity neg
      else if (e + Z.log2 a + 1 <=? -324)%Z then Finite neg 0 0
      else if (0 <=? e)%Z then roundToDouble neg (a * 10 ^ e) 1
      else roundToDouble neg a (10 ^ (- e))
  end.

(** [parseFloat] applied to a string. *)
Definition parseFloat (s : string) : JSNumber := toNumber (readLiteral s).

End JsNum.

(** ** Constants of the program *)

Definition ALLOWED_PAYMENT_METHODS : list string :=
  ["Amex Platinum"; "Apple Card"; "Chase Freedom"; "Chase Sapphire"; "Chase Southwest"].

Definition ALLOWED_USERS : list string := ["Alli"; "Justin"].

(** The keys of [BANK_MAPPINGS]. *)
Inductive BankId := chase | amex | apple.

(** The bank key as it is interpolated into a message. *)
Definition bankKey (b : BankId) : string :=
  match b with chase => "chase" | amex => "amex" | apple => "apple" end.

Module Mapping.
(** One entry of [BANK_MAPPINGS]: the CSV column names of a bank. *)
Record t := mk { transactionDate : string; description : string; amount : string }.
End Mapping.

Definition BANK_MAPPINGS (b : BankId) : Mapping.t :=
  match b with
  | chase => Mapping.mk "Transaction Date" "Description" "Amount"
  | amex => Mapping.mk "Date" "Description" "Amount"
  | apple => Mapping.mk "Transaction Date" "Merchant" "Amount (USD)"
  end.

(** ** Data *)

(** The object csv-parser emits for one CSV line. *)
Abbreviation RawRow := (gmap string string).

Module Tx.
(** A normalized transaction.  [parseCSV] always fills the four text
    properties; [uploadToNotion] also accepts objects in which some of
    them are [undefined], hence the options. *)
Record t := mk {
  description : option string;
  amount : option string;
  date : option string;
  originalData : RawRow;
  paymentMethod : option string
}.
End Tx.

(** The argument of [notionClient.pages.create]. *)
Record PageRequest := mkPageRequest {
  parent_database_id : string;
  Date_start : string;
  Expense_content : string;
  Total_Amount : JsNum.JSNumber;
  Status_name : string;
  Payment_Method_name : string
}.

(** What the program does to the outside, in chronological order. *)
Inductive Event :=
  | console_log (line : string)
  | console_log_object (notionApiKey notionDatabaseId : option string)
  | console_log_uploaded (amount : JsNum.JSNumber) (description date label : string)
  | console_log_dry_run (index : nat) (description : string)
      (amount : JsNum.JSNumber) (date : string)
  | console_warn (line detail : string)
  | console_error (line : string)
  | fs_access_probe (path : string)
  | new_Client (auth : option string)
  | createReadStream (path : string)
  | pages_create_call (request : PageRequest)
  | uncaught_exception (error : Js.Error).

(** A promise as its consumer observes it: pending, fulfilled, rejected,
    or left pending for good because an uncaught exception ended the
    process. *)
Inductive Promise (A : Type) : Type :=
  | Pending
  | Resolved (a : A)
  | Rejected (e : Js.Error)
  | Aborted (e : Js.Error).
Arguments Pending {A}.
Arguments Resolved {A} a.
Arguments Rejected {A} e.
Arguments Aborted {A} e.

(** ** [parseCSV] *)

(** The events of [createReadStream(filePath).pipe(csv())]: ['data'],
    ['end'] and ['error'] of the stream returned by [pipe], on which
    [parseCSV] registers its three handlers, and ['error'] of the file
    read stream itself, which [pipe] does not pass on and for which no
    handler is registered. *)
Inductive StreamEvent :=
  | on_data (data : RawRow)
  | on_end
  | on_error (error : Js.Error)
  | source_error (error : Js.Error).

(** An event together with the clock reading at its delivery. *)
Record Delivery := deliver { at_time : Z; event : StreamEvent }.

(** The [if]/[else if] chain at the head of [parseCSV]. *)
Definition parseCSV_bank (paymentMethod : string) : option BankId :=
  if Js.startsWith (Js.toLowerCase paymentMethod) "chase" then Some chase
  else if Js.startsWith (Js.toLowerCase paymentMethod) "amex" then Some amex
  else if Js.startsWith (Js.toLowerCase paymentMethod) "apple" then Some apple
  else None.

Definition unsupportedPaymentMethod (paymentMethod : string) : Js.Error :=
  Js.mkError ("Unsupported payment method: " ++ paymentMethod ++
              ". Cannot determine bank type.").

(** The body of the ['data'] handler: the normalized transaction built from
    one row, [now] being what [new Date()] reads at that moment. *)
Definition parseCSV_normalize (fieldMappings : Mapping.t) (paymentMethod : string)
    (now : Z) (data : RawRow) : Tx.t :=
  {| Tx.description :=
       Some (Js.orElse (data !! Mapping.description fieldMappings) "Unknown");
     Tx.amount := Some (Js.orElse (data !! Mapping.amount fieldMappings) "0");
     Tx.date :=
       Some (Js.orElse (data !! Mapping.transactionDate fieldMappings)
                       (JsDate.isoDay now));
     Tx.originalData := data;
     Tx.paymentMethod := Some paymentMethod |}.

(** How the promise of [parseCSV] has been settled so far.  [resolve] is
    given the [results] array itself, so a fulfilled promise holds that
    array and not a copy of it.  [AbortedBy e]: the promise was still
    pending when the uncaught ['error'] event [e] of the read stream ended
    the process. *)
Inductive Settlement :=
  | Unsettled
  | FulfilledWithResults
  | RejectedWith (e : Js.Error)
  | AbortedBy (e : Js.Error).

Record ParseState := mkParseState {
  results : list Tx.t;
  settlement : Settlement
}.

Definition settle (now next : Settlement) : Settlement :=
  match now with
  | Unsettled => next
  | _ => now
  end.

(** One handler invocation. *)
Definition parseCSV_handle (fieldMappings : Mapping.t) (paymentMethod : string)
    (st : ParseState) (d : Delivery) : ParseState :=
  match event d with
  | on_data data =>
      {| results := results st ++
                    [parseCSV_normalize fieldMappings paymentMethod (at_time d) data];
         settlement := settlement st |}
  | on_end =>
      {| results := results st;
         settlement := settle (settlement st) FulfilledWithResults |}
  | on_error error =>
      {| results := results st;
         settlement := settle (settlement st) (RejectedWith error) |}
  | source_error error =>
      (* an ['error'] event without a listener is thrown by the emitter:
         the exception is uncaught and ends the process *)
      {| results := results st;
         settlement := settle (settlement st) (AbortedBy error) |}
  end.

Definition promiseOf (st : ParseState) : Promise (list Tx.t) :=
  match settlement st with
  | Unsettled => Pending
  | FulfilledWithResults => Resolved (results st)
  | RejectedWith e => Rejected e
  | AbortedBy e => Aborted e
  end.

(** What the three handlers make of the events of a stream: the promise
    as it stands after them. *)
Definition parseCSV_consume (fieldMappings : Mapping.t) (paymentMethod : string)
    (stream : list Delivery) : Promise (list Tx.t) :=
  promiseOf (fold_left (parseCSV_handle fieldMappings paymentMethod) stream
                       (mkParseState [] Unsettled)).

(** ** Effects of the asynchronous functions

    An [async] function is run to completion against an abstract world
    that holds the clock, the environment variables, the file system and
    the remote sink.  An [await] of an external operation lets the world
    move on. *)

Inductive Completion (A : Type) : Type :=
  | Normal (a : A)          (* the function returned *)
  | Throw (e : Js.Error)    (* an exception propagates *)
  | Exit (code : Z)         (* [process.exit(code)] *)
  | Never.                  (* an awaited promise is never settled *)
Arguments Normal {A} a.
Arguments Throw {A} e.
Arguments Exit {A} code.
Arguments Never {A}.

(** The outcome of one [pages.create] call. *)
Inductive CreateOutcome :=
  | Created (id : string)
  | Raised (e : Js.Error).

(** [process.env], restricted to the variables the program reads. *)
Record Env := mkEnv {
  NOTION_API_KEY : option string;
  NOTION_DATABASE_ID : option string;
  WHO_AM_I : option string
}.

(** The [options] object produced by the command-line parser. *)
Record Options := mkOptions {
  csvFilePath : option string;
  paymentMethod : option string;
  notionApiKey : option string;
  notionDatabaseId : option string;
  whoAmI : option string;
  dryRun : bool
}.

Declare Scope eff_scope.

Section Program.

Context {World : Type}.

(** [new Date().getTime()] *)
Variable Date_now : World -> Z.
(** [new Date(s).getTime()], [None] standing for [NaN]. *)
Variable Date_parse : string -> option Z.
(** [process.env] *)
Variable process_env : World -> Env.
(** [fs.access(path)]: whether the promise is fulfilled. *)
Variable fs_access : string -> World -> bool * World.
(** The events of [createReadStream(path).pipe(csv())]: those of the
    parser's stream and the ['error'] of the read stream. *)
Variable csv_stream : string -> World -> list Delivery * World.
(** [notionClient.pages.create(request)] *)
Variable pages_create : PageRequest -> World -> CreateOutcome * World.

Definition Eff (A : Type) : Type := World -> Completion A * World * list Event.

Definition ret {A} (a : A) : Eff A := fun w => (Normal a, w, []).

(** A result reached after the events [t1] have already taken place. *)
Definition after {A} (t1 : list Event) (r : Completion A * World * list Event)
    : Completion A * World * list Event :=
  let '(c, w, t2) := r in (c, w, (t1 ++ t2)%list).

Definition bind {A B} (m : Eff A) (k : A -> Eff B) : Eff B := fun w =>
  match m w with
  | (Normal a, w1, t1) => after t1 (k a w1)
  | (Throw e, w1, t1) => (Throw e, w1, t1)
  | (Exit n, w1, t1) => (Exit n, w1, t1)
  | (Never, w1, t1) => (Never, w1, t1)
  end.

Definition emit (ev : Event) : Eff unit := fun w => (Normal tt, w, [ev]).
Definition throw {A} (e : Js.Error) : Eff A := fun w => (Throw e, w, []).
Definition process_exit {A} (code : Z) : Eff A := fun w => (Exit code, w, []).

(** [try { m } catch (error) { h error }] *)
Definition tryCatch {A} (m : Eff A) (h : Js.Error -> Eff A) : Eff A := fun w =>
  match m w with
  | (Throw e, w1, t1) => after t1 (h e w1)
  | r => r
  end.

(** [for (const x of l) { body x }] *)
Fixpoint forOf {A} (l : list A) (body : A -> Eff unit) : Eff unit :=
  match l with
  | [] => ret tt
  | x :: rest => bind (body x) (fun _ => forOf rest body)
  end.

(** [l.forEach((x, index) => body index x)], indices counted from [i]. *)
Fixpoint forEachFrom {A} (i : nat) (l : list A) (body : nat -> A -> Eff unit)
    : Eff unit :=
  match l with
  | [] => ret tt
  | x :: rest => bind (body i x) (fun _ => forEachFrom (S i) rest body)
  end.

(** [await p] for an already observed promise. *)
Definition await {A} (p : Promise A) : Eff A := fun w =>
  match p with
  | Pending => (Never, w, [])
  | Resolved a => (Normal a, w, [])
  | Rejected e => (Throw e, w, [])
  | Aborted e => (Exit 1, w, [uncaught_exception e])
  end.

Definition new_Date : Eff Z := fun w => (Normal (Date_now w), w, []).
Definition read_env : Eff Env := fun w => (Normal (process_env w), w, []).

(** [await fs.access(path)]; the rejection value is never inspected. *)
Definition await_fs_access (path : option string) : Eff unit := fun w =>
  match path with
  | None => (Throw (Js.mkError "The path argument must be of type string"), w, [])
  | Some p =>
      let '(ok, w') := fs_access p w in
      (if ok then Normal tt else Throw (Js.mkError ("ENOENT: " ++ p)), w',
       [fs_access_probe p])
  end.

(** [await notionClient.pages.create(request)] *)
Definition await_pages_create (request : PageRequest) : Eff string := fun w =>
  let '(o, w') := pages_create request w in
  (match o with Created id => Normal id | Raised e => Throw e end, w',
   [pages_create_call request]).

(** [await p] for a promise that a call produces. *)
Definition awaiting {A} (call : World -> Promise A * World * list Event) : Eff A :=
  fun w =>
    let '(p, w1, t1) := call w in after t1 (await p w1).

(** [parseCSV(filePath, paymentMethod)]: the promise it returns, as it
    stands once the CSV stream has delivered its events. *)
Definition parseCSV (filePath : string) (paymentMethod : option string)
    : World -> Promise (list Tx.t) * World * list Event := fun w =>
  match paymentMethod with
  | None =>
      (Rejected (Js.mkError "Cannot read properties of undefined (reading 'toLowerCase')"),
       w, [])
  | Some label =>
      match parseCSV_bank label with
      | None => (Rejected (unsupportedPaymentMethod label), w, [])
      | Some bank =>
          let fieldMappings := BANK_MAPPINGS bank in
          let '(stream, w') := csv_stream filePath w in
          (parseCSV_consume fieldMappings label stream, w',
           [console_log ("Using " ++ bankKey bank ++
                         " field mappings for payment method: " ++ label);
            createReadStream filePath])
      end
  end.

Notation "x <- m ;; k" := (bind m (fun x => k))
  (at level 100, m at next level, k at level 200, right associativity) : eff_scope.
Notation "m ;; k" := (bind m (fun _ => k))
  (at level 100, k at level 200, right associativity) : eff_scope.
Local Open Scope eff_scope.

(** ** [formatDateToISO] *)

Definition dquote : string := String (ascii_of_nat 34) EmptyString.
Definition newline : string := String (ascii_of_nat 10) EmptyString.

Definition formatDateToISO (dateString : option string) : Eff (option string) :=
  if negb (Js.truthy dateString) then ret None
  else
    tryCatch
      (match Date_parse (Js.show dateString) with
       | None => throw (Js.mkError ("Invalid date: " ++ Js.show dateString))
       | Some t => ret (Some (JsDate.isoDay t))
       end)
      (fun error =>
         emit (console_warn
                 ("Date parsing error for " ++ dquote ++ Js.show dateString ++
                  dquote ++ ":")
                 (Js.message error)) ;;
         ret None).

(** ** [uploadToNotion] *)

(** [Math.abs(parseFloat(transaction.amount || 0))] *)
Definition amountNumber (amount : option string) : JsNum.JSNumber :=
  JsNum.Math_abs (JsNum.parseFloat (Js.orElse amount "0")).

(** The object literal passed to [pages.create], [start] being the value
    computed for the date. *)
Definition requestWith (databaseId whoAmIPrefix : string) (transaction : Tx.t)
    (start : string) : PageRequest :=
  {| parent_database_id := databaseId;
     Date_start := start;
     Expense_content := Js.orElse (Tx.description transaction) "Unknown Transaction";
     Total_Amount := amountNumber (Tx.amount transaction);
     Status_name := "Requires Audit";
     Payment_Method_name :=
       whoAmIPrefix ++ Js.orElse (Tx.paymentMethod transaction) "Unknown Card" |}.

(** The evaluation of that object literal, in source order: only the date
    may touch the console and the clock. *)
Definition pageRequest (databaseId whoAmIPrefix : string) (transaction : Tx.t)
    : Eff PageRequest :=
  formatted <- formatDateToISO (Tx.date transaction) ;;
  start <- (if Js.truthy formatted then ret (Js.show formatted)
            else now <- new_Date ;; ret (JsDate.isoDay now)) ;;
  ret (requestWith databaseId whoAmIPrefix transaction start).

(** The body of the [for] loop. *)
Definition uploadOne (databaseId whoAmIPrefix : string) (transaction : Tx.t)
    : Eff unit :=
  tryCatch
    (request <- pageRequest databaseId whoAmIPrefix transaction ;;
     _ <- await_pages_create request ;;
     emit (console_log_uploaded
             (amountNumber (Tx.amount transaction))
             (Js.orElse (Tx.description transaction) "Unknown")
             (Js.orElse (Tx.date transaction) "No date")
             (whoAmIPrefix ++ Js.show (Tx.paymentMethod transaction))))
    (fun error =>
       emit (console_error ("Failed to upload transaction: " ++ Js.message error))).

Definition uploadToNotion (databaseId : string) (transactions : list Tx.t)
    (whoAmI : string) : Eff unit :=
  emit (console_log "Uploading transactions to Notion...") ;;
  let whoAmIPrefix := whoAmI ++ "'s " in
  forOf transactions (uploadOne databaseId whoAmIPrefix).

(** ** [validateAndUploadTransactions] *)

Definition listing (l : list string) : string := Js.join ", " l.

Definition validateAndUploadTransactions (options : Options) : Eff unit :=
  emit (console_log "just entered MAIN") ;;
  tryCatch (await_fs_access (csvFilePath options))
    (fun _ => throw (Js.mkError ("CSV file not found at path: " ++
                                 Js.show (csvFilePath options)))) ;;
  env <- read_env ;;
  let notionApiKey := Js.or (notionApiKey options) (NOTION_API_KEY env) in
  let notionDatabaseId := Js.or (notionDatabaseId options) (NOTION_DATABASE_ID env) in
  emit (console_log "DEBUG START") ;;
  emit (console_log_object notionApiKey notionDatabaseId) ;;
  emit (console_log "DEBUG END") ;;
  let whoAmI := Js.or (whoAmI options) (WHO_AM_I env) in
  (if negb (Js.truthy notionApiKey) then
     throw (Js.mkError "Notion API key is required. Provide it via --notion-api-key option or NOTION_API_KEY env var.")
   else ret tt) ;;
  (if negb (Js.truthy notionDatabaseId) then
     throw (Js.mkError "Notion database ID is required. Provide it via --notion-database-id option or NOTION_DATABASE_ID env var.")
   else ret tt) ;;
  (if negb (Js.truthy whoAmI) then
     throw (Js.mkError "WHO_AM_I is required. Provide it via --who-am-i option or WHO_AM_I env var.")
   else ret tt) ;;
  (if negb (Js.includes ALLOWED_USERS whoAmI) then
     throw (Js.mkError ("--who-am-i must be one of: " ++ listing ALLOWED_USERS))
   else ret tt) ;;
  (if negb (Js.includes ALLOWED_PAYMENT_METHODS (paymentMethod options)) then
     throw (Js.mkError ("--payment-method must be one of: " ++
                        listing ALLOWED_PAYMENT_METHODS))
   else ret tt) ;;
  emit (new_Client notionApiKey) ;;
  transactions <- awaiting (parseCSV (Js.show (csvFilePath options))
                                    (paymentMethod options)) ;;
  (if Nat.eqb (length transactions) 0 then
     emit (console_log ("No transactions found with payment method: " ++
                        Js.show (paymentMethod options))) ;;
     process_exit 0
   else ret tt) ;;
  emit (console_log ("Found " ++ pretty (length transactions) ++
                     " transactions with payment method: " ++
                     Js.show (paymentMethod options))) ;;
  if dryRun options then
    emit (console_log "🔍 DRY RUN: The following transactions would be uploaded:") ;;
    emit (console_log "------------------------------------------------") ;;
    forEachFrom 0 transactions (fun index transaction =>
      emit (console_log_dry_run (index + 1)
              (Js.orElse (Tx.description transaction) "Unknown")
              (amountNumber (Tx.amount transaction))
              (Js.orElse (Tx.date transaction) "No date"))) ;;
    emit (console_log "------------------------------------------------") ;;
    emit (console_log ("📊 Total: " ++ pretty (length transactions) ++ " transactions"))
  else
    uploadToNotion (Js.show notionDatabaseId) transactions (Js.show whoAmI) ;;
    emit (console_log (newline ++ "🎉 Successfully uploaded " ++
                       pretty (length transactions) ++ " transactions to Notion! 🎉")).

(** ** [main] of [src/index.js]

    The command-line entry point performs the same checks; a failing
    check is printed on the console and ends the process with status 1,
    and so does any exception of the later steps. *)

Definition main (options : Options) : Eff unit :=
  emit (console_log "just entered MAIN") ;;
  tryCatch
    (tryCatch (await_fs_access (csvFilePath options))
       (fun _ =>
          emit (console_error ("Error: CSV file not found at path: " ++
                               Js.show (csvFilePath options))) ;;
          process_exit 1) ;;
     env <- read_env ;;
     let notionApiKey := Js.or (notionApiKey options) (NOTION_API_KEY env) in
     let notionDatabaseId := Js.or (notionDatabaseId options) (NOTION_DATABASE_ID env) in
     emit (console_log "DEBUG START") ;;
     emit (console_log_object notionApiKey notionDatabaseId) ;;
     emit (console_log "DEBUG END") ;;
     let whoAmI := Js.or (whoAmI options) (WHO_AM_I env) in
     (if negb (Js.truthy notionApiKey) then
        emit (console_error "Error: Notion API key is required. Provide it via --notion-api-key option or NOTION_API_KEY env var.") ;;
        process_exit 1
      else ret tt) ;;
     (if negb (Js.truthy notionDatabaseId) then
        emit (console_error "Error: Notion database ID is required. Provide it via --notion-database-id option or NOTION_DATABASE_ID env var.") ;;
        process_exit 1
      else ret tt) ;;
     (if negb (Js.truthy whoAmI) then
        emit (console_error "Error: WHO_AM_I is required. Provide it via --who-am-i option or WHO_AM_I env var.") ;;
        process_exit 1
      else ret tt) ;;
     (if negb (Js.includes ALLOWED_USERS whoAmI) then
        emit (console_error ("Error: --who-am-i must be one of: " ++
                             listing ALLOWED_USERS)) ;;
        process_exit 1
      else ret tt) ;;
     (if negb (Js.includes ALLOWED_PAYMENT_METHODS (paymentMethod options)) then
        emit (console_error ("Error: --payment-method must be one of: " ++
                             listing ALLOWED_PAYMENT_METHODS)) ;;
        process_exit 1
      else ret tt) ;;
     emit (new_Client notionApiKey) ;;
     transactions <- awaiting (parseCSV (Js.show (csvFilePath options))
                                        (paymentMethod options)) ;;
     (if Nat.eqb (length transactions) 0 then
        emit (console_log ("No transactions found with payment method: " ++
                           Js.show (paymentMethod options))) ;;
        process_exit 0
      else ret tt) ;;
     emit (console_log ("Found " ++ pretty (length transactions) ++
                        " transactions with payment method: " ++
                        Js.show (paymentMethod options))) ;;
     if dryRun options then
       emit (console_log "🔍 DRY RUN: The following transactions would be uploaded:") ;;
       emit (console_log "------------------------------------------------") ;;
       forEachFrom 0 transactions (fun index transaction =>
         emit (console_log_dry_run (index + 1)
                 (Js.orElse (Tx.description transaction) "Unknown")
                 (amountNumber (Tx.amount transaction))
                 (Js.orElse (Tx.date transaction) "No date"))) ;;
       emit (console_log "------------------------------------------------") ;;
       emit (console_log ("📊 Total: " ++ pretty (length transactions) ++ " transactions"))
     else
       uploadToNotion (Js.show notionDatabaseId) transactions (Js.show whoAmI) ;;
       emit (console_log (newline ++ "🎉 Successfully uploaded " ++
                          pretty (length transactions) ++ " transactions to Notion! 🎉")))
    (fun error =>
       emit (console_error ("Error: " ++ Js.message error)) ;;
       process_exit 1).

End Program.

Arguments Eff World A : clear implicits.

(** ** Vocabulary of the properties *)

(** Two characters are equal when case is ignored: they are the same, or
    one is the capital of the other. *)
Definition sameLetter (a b : ascii) : Prop :=
  a = b
  \/ (Js.isUpperAZ a = true /\ b = ascii_of_N (N_of_ascii a + 32))
  \/ (Js.isUpperAZ b = true /\ a = ascii_of_N (N_of_ascii b + 32)).

(** [label] starts with [prefix] when case is ignored. *)
Definition ciStartsWith (label prefix : string) : Prop :=
  exists head rest,
    label = head ++ rest /\
    Forall2 sameLetter (list_ascii_of_string head) (list_ascii_of_string prefix).

(** A text without capitals, such as the three bank prefixes. *)
Definition noCapital (p : string) : Prop :=
  Forall (fun c => Js.isUpperAZ c = false) (list_ascii_of_string p).

(** The stream events of a run of CSV lines, each with its delivery time. *)
Definition dataEvents (rows : list (Z * RawRow)) : list Delivery :=
  map (fun r => deliver r.1 (on_data r.2)) rows.

(** The transactions expected of a run of CSV lines: one per line, in the
    order of the lines. *)
Definition normalizedRows (fieldMappings : Mapping.t) (label : string)
    (rows : list (Z * RawRow)) : list Tx.t :=
  map (fun r => parseCSV_normalize fieldMappings label r.1 r.2) rows.

(** The requests a trace submitted to the remote sink, in order. *)
Definition attempts (trace : list Event) : list PageRequest :=
  omap (fun ev => match ev with pages_create_call r => Some r | _ => None end) trace.

(** [r] is the request built for [tx], for some value of the date. *)
Definition isRequestFor (databaseId whoAmI : string) (tx : Tx.t) (r : PageRequest) : Prop :=
  exists start, r = requestWith databaseId (whoAmI ++ "'s ") tx start.

(** The report that follows a call of the sink. *)
Definition reportOf (prefix : string) (tx : Tx.t) (o : CreateOutcome) : Event :=
  match o with
  | Created _ =>
      console_log_uploaded (amountNumber (Tx.amount tx))
        (Js.orElse (Tx.description tx) "Unknown")
        (Js.orElse (Tx.date tx) "No date")
        (prefix ++ Js.show (Tx.paymentMethod tx))
  | Raised e => console_error ("Failed to upload transaction: " ++ Js.message e)
  end.

(** The checks of the option validator, in the order the specification
    lists them. *)
Inductive Check :=
  | CsvReadable
  | ApiKeyPresent
  | DatabaseIdPresent
  | IdentityPresent
  | IdentityAllowed
  | PaymentMethodAllowed.

Definition precedence : list Check :=
  [CsvReadable; ApiKeyPresent; DatabaseIdPresent; IdentityPresent;
   IdentityAllowed; PaymentMethodAllowed].

(** Whether a check holds, given the options, the environment and whether
    the CSV path is readable. *)
Definition holds (readable : bool) (options : Options) (env : Env) (c : Check) : bool :=
  match c with
  | CsvReadable => readable
  | ApiKeyPresent => Js.truthy (notionApiKey options) || Js.truthy (NOTION_API_KEY env)
  | DatabaseIdPresent =>
      Js.truthy (notionDatabaseId options) || Js.truthy (NOTION_DATABASE_ID env)
  | IdentityPresent => Js.truthy (whoAmI options) || Js.truthy (WHO_AM_I env)
  | IdentityAllowed =>
      Js.includes ALLOWED_USERS (Js.or (whoAmI options) (WHO_AM_I env))
  | PaymentMethodAllowed => Js.includes ALLOWED_PAYMENT_METHODS (paymentMethod options)
  end.

(** The error a failing check is reported with. *)
Definition failure (options : Options) (c : Check) : Js.Error :=
  Js.mkError
    match c with
    | CsvReadable => "CSV file not found at path: " ++ Js.show (csvFilePath options)
    | ApiKeyPresent => "Notion API key is required. Provide it via --notion-api-key option or NOTION_API_KEY env var."
    | DatabaseIdPresent => "Notion database ID is required. Provide it via --notion-database-id option or NOTION_DATABASE_ID env var."
    | IdentityPresent => "WHO_AM_I is required. Provide it via --who-am-i option or WHO_AM_I env var."
    | IdentityAllowed => "--who-am-i must be one of: Alli, Justin"
    | PaymentMethodAllowed => "--payment-method must be one of: Amex Platinum, Apple Card, Chase Freedom, Chase Sapphire, Chase Southwest"
    end.

(** The first check of [precedence] that does not hold, if any. *)
Definition firstFailing (readable : bool) (options : Options) (env : Env) : option Check :=
  List.find (fun c => negb (holds readable options env c)) precedence.

(** The file-system probe of the validator: whether the CSV path is
    readable, the world after the probe, and the event it leaves. *)
Definition probe {World : Type} (fs_access : string -> World -> bool * World)
    (options : Options) (w : World) : bool * World * list Event :=
  match csvFilePath options with
  | Some p => ((fs_access p w).1, (fs_access p w).2, [fs_access_probe p])
  | None => (false, w, [])
  end.

(** The three debugging lines printed once the probe has succeeded. *)
Definition debugEvents (options : Options) (env : Env) : list Event :=
  [console_log "DEBUG START";
   console_log_object (Js.or (notionApiKey options) (NOTION_API_KEY env))
                      (Js.or (notionDatabaseId options) (NOTION_DATABASE_ID env));
   console_log "DEBUG END"].

(** What a run has printed and probed when it stops at a failing check. *)
Definition eventsUpTo (c : Check) (probed : list Event) (options : Options)
    (env : Env) : list Event :=
  match c with
  | CsvReadable => console_log "just entered MAIN" :: probed
  | _ => console_log "just entered MAIN" :: probed ++ debugEvents options env
  end.

(** ** A concrete world for running the program

    The clock is a counter of milliseconds, the sink stores the pages it
    accepts and declines every request whose title is [DECLINED], the file
    system holds one CSV file of four lines, the last of which has an
    empty description, and the environment names the identity only. *)

Module Demo.

Record World := mkWorld { clock : Z; pages : list PageRequest }.

Definition Date_now (w : World) : Z := clock w.

Definition process_env (w : World) : Env :=
  mkEnv None None (Some "Alli").

Definition fs_access (path : string) (w : World) : bool * World :=
  (String.eqb path "chase.csv", w).

Definition chaseRow (date description amount : string) : RawRow :=
  <["Transaction Date" := date]>
    (<["Description" := description]> (<["Amount" := amount]> ∅)).

Definition csv_stream (path : string) (w : World) : list Delivery * World :=
  ([deliver (clock w) (on_data (chaseRow "2023-01-15" "AMAZON.COM" "-50.99"));
    deliver (clock w + 1) (on_data (chaseRow "2023-01-16" "DECLINED" "-4.95"));
    deliver (clock w + 2) (on_data (chaseRow "01/17/2023" "NETFLIX" "abc"));
    deliver (clock w + 3) (on_data (chaseRow "" "" ""));
    deliver (clock w + 4) on_end],
   mkWorld (clock w + 5) (pages w)).

Definition pages_create (request : PageRequest) (w : World) : CreateOutcome * World :=
  if String.eqb (Expense_content request) "DECLINED"
  then (Raised (Js.mkError "validation_error"), mkWorld (clock w + 100) (pages w))
  else (Created (pretty (length (pages w))),
        mkWorld (clock w + 100) (pages w ++ [request])).

Definition options : Options :=
  mkOptions (Some "chase.csv") (Some "Chase Freedom") (Some "secret") (Some "db-1")
            None false.

Definition tx (description amount date : option string) : Tx.t :=
  Tx.mk description amount date ∅ (Some "Chase Freedom").

Definition amazon : Tx.t := tx (Some "AMAZON.COM") (Some "-50.99") (Some "2023-01-15").
Definition declined : Tx.t := tx (Some "DECLINED") (Some "-4.95") (Some "2023-01-16").
Definition netflix : Tx.t := tx (Some "NETFLIX") (Some "abc") (Some "01/17/2023").
Definition undated : Tx.t := tx (Some "STARBUCKS") (Some "-4.95") None.
Definition farFuture : Tx.t := tx (Some "LEASE") (Some "1") (Some "+010000-01-01").

(** The options of [options] without an API key. *)
Definition keyless : Options :=
  mkOptions (Some "chase.csv") (Some "Chase Freedom") None (Some "db-1") None false.

Definition run (o : Options) (w : World) : Completion unit * World * list Event :=
  validateAndUploadTransactions Date_now JsDate.parseDateOnly process_env fs_access
    csv_stream pages_create o w.

End Demo.


(** ** The steps that follow the parsing

    The last part of [validateAndUploadTransactions] and of [main], from
    the test on the number of transactions on, under a name of its own. *)

Section AfterParsing.

Context {World : Type}.
Variable Date_now : World -> Z.
Variable Date_parse : string -> option Z.
Variable pages_create : PageRequest -> World -> CreateOutcome * World.

Notation "x <- m ;; k" := (bind m (fun x => k))
  (at level 100, m at next level, k at level 200, right associativity) : eff_scope.
Notation "m ;; k" := (bind m (fun _ => k))
  (at level 100, k at level 200, right associativity) : eff_scope.
Local Open Scope eff_scope.

Definition processTransactions (options : Options)
    (notionDatabaseId whoAmI : option string) (transactions : list Tx.t)
    : Eff World unit :=
  (if Nat.eqb (length transactions) 0 then
     emit (console_log ("No transactions found with payment method: " ++
                        Js.show (paymentMethod options))) ;;
     process_exit 0
   else ret tt) ;;
  emit (console_log ("Found " ++ pretty (length transactions) ++
                     " transactions with payment method: " ++
                     Js.show (paymentMethod options))) ;;
  if dryRun options then
    emit (console_log "🔍 DRY RUN: The following transactions would be uploaded:") ;;
    emit (console_log "------------------------------------------------") ;;
    forEachFrom 0 transactions (fun index transaction =>
      emit (console_log_dry_run (index + 1)
              (Js.orElse (Tx.description transaction) "Unknown")
              (amountNumber (Tx.amount transaction))
              (Js.orElse (Tx.date transaction) "No date"))) ;;
    emit (console_log "------------------------------------------------") ;;
    emit (console_log ("📊 Total: " ++ pretty (length transactions) ++ " transactions"))
  else
    uploadToNotion Date_now Date_parse pages_create
      (Js.show notionDatabaseId) transactions (Js.show whoAmI) ;;
    emit (console_log (newline ++ "🎉 Successfully uploaded " ++
                       pretty (length transactions) ++ " transactions to Notion! 🎉")).

(** The outer [catch] of [main], applied to the result of its [try]
    block: an exception is printed after "Error: " and the process ends
    with status 1. *)
Definition catchAll (r : Completion unit * World * list Event)
    : Completion unit * World * list Event :=
  match r with
  | (Throw e, w, t) => (Exit 1, w, (t ++ [console_error ("Error: " ++ Js.message e)])%list)
  | _ => r
  end.

End AfterParsing.

(** ** Vocabulary of the further properties *)

(** The lines a dry run prints for the transactions, numbered from 1. *)
Definition dryRunLines (transactions : list Tx.t) : list Event :=
  imap (fun i tx =>
          console_log_dry_run (i + 1)
            (Js.orElse (Tx.description tx) "Unknown")
            (amountNumber (Tx.amount tx))
            (Js.orElse (Tx.date tx) "No date")) transactions.

(** A transaction whose description, amount and date are non-empty texts
    and whose payment method is [label]. *)
Definition filled (label : string) (tx : Tx.t) : Prop :=
  (exists d, Tx.description tx = Some d /\ d <> "") /\
  (exists a, Tx.amount tx = Some a /\ a <> "") /\
  (exists dt, Tx.date tx = Some dt /\ dt <> "") /\
  Tx.paymentMethod tx = Some label.

(** A decimal digit. *)
Definition isDigit (c : ascii) : bool :=
  ((48 <=? N_of_ascii c) && (N_of_ascii c <=? 57))%N.

(** A number without a negative sign: [NaN], plus infinity, or a decimal
    whose sign bit is clear. *)
Definition unsigned (x : JsNum.JSNumber) : Prop :=
  match x with
  | JsNum.NaN => True
  | JsNum.Infinity neg => neg = false
  | JsNum.Finite neg _ _ => neg = false
  end.

(** A text made of decimal digits only. *)
Definition allDigits (s : string) : Prop :=
  Forall (fun c => isDigit c = true) (list_ascii_of_string s).

(** The date text [parseCSV] stores for a row handled at time [now]. *)
Definition dateTextOfRow (fieldMappings : Mapping.t) (now : Z) (data : RawRow) : string :=
  Js.orElse (data !! Mapping.transactionDate fieldMappings) (JsDate.isoDay now).

(** The record expected for a row, the date of the record being [start]:
    title and number come from the mapped columns of the row, with the
    defaults of [parseCSV]. *)
Definition recordOfRow (databaseId prefix : string) (fieldMappings : Mapping.t)
    (label : string) (data : RawRow) (start : string) : PageRequest :=
  {| parent_database_id := databaseId;
     Date_start := start;
     Expense_content := Js.orElse (data !! Mapping.description fieldMappings) "Unknown";
     Total_Amount := amountNumber (data !! Mapping.amount fieldMappings);
     Status_name := "Requires Audit";
     Payment_Method_name := prefix ++ label |}.

(** The sink as the loop leaves it after the requests [rs], submitted one
    after the other. *)
Definition submitAll {World : Type}
    (pages_create : PageRequest -> World -> CreateOutcome * World)
    (rs : list PageRequest) (w : World) : World :=
  fold_left (fun w r => (pages_create r w).2) rs w.

(** ** Further inputs for the demonstration world *)

Module Scenes.

(** The demonstration options, as a dry run. *)
Definition dryOptions : Options :=
  mkOptions (Some "chase.csv") (Some "Chase Freedom") (Some "secret") (Some "db-1")
            None true.

(** The demonstration options with an identity that is not allowed. *)
Definition stranger : Options :=
  mkOptions (Some "chase.csv") (Some "Chase Freedom") (Some "secret") (Some "db-1")
            (Some "Mallory") false.

(** A CSV file without a line. *)
Definition empty_stream (path : string) (w : Demo.World) : list Delivery * Demo.World :=
  ([deliver (Demo.clock w) on_end], w).

(** A CSV stream that fails after its first line. *)
Definition broken_stream (path : string) (w : Demo.World) : list Delivery * Demo.World :=
  ([deliver (Demo.clock w)
      (on_data (Demo.chaseRow "2023-01-15" "AMAZON.COM" "-50.99"));
    deliver (Demo.clock w + 1) (on_error (Js.mkError "EIO: read error"));
    deliver (Demo.clock w + 2) on_end],
   w).

(** A path that names a directory: it is there, so the probe of the
    validator succeeds, but reading from it fails, which the file read
    stream tells by an ['error'] event of its own. *)
Definition directoryOptions : Options :=
  mkOptions (Some ".") (Some "Chase Freedom") (Some "secret") (Some "db-1") None false.

Definition fs_access_directory (path : string) (w : Demo.World) : bool * Demo.World :=
  (String.eqb path ".", w).

Definition directory_stream (path : string) (w : Demo.World)
    : list Delivery * Demo.World :=
  ([deliver (Demo.clock w)
      (source_error (Js.mkError "EISDIR: illegal operation on a directory, read"))],
   w).

(** [Date.parse] as a machine nine hours ahead of UTC has it, on the two
    forms the demonstration uses: the ISO date-only forms are read as UTC,
    [MM/DD/YYYY] as midnight local time. *)
Definition parseNineHoursAhead (s : string) : option Z :=
  match JsDate.parseDateOnly s with
  | Some t => Some t
  | None =>
      match JsDate.readDigits 2 0 s with
      | Some (m, String "/"%char r1) =>
          match JsDate.readDigits 2 0 r1 with
          | Some (d, String "/"%char r2) =>
              match JsDate.readDigits 4 0 r2 with
              | Some (y, EmptyString) =>
                  match JsDate.utcMidnight y m d with
                  | Some t => Some (t - 9 * 3600000)%Z
                  | None => None
                  end
              | _ => None
              end
          | _ => None
          end
      | _ => None
      end
  end.

(** The lines of the demonstration file, with the times of their delivery. *)
Definition rows : list (Z * RawRow) :=
  [(0%Z, Demo.chaseRow "2023-01-15" "AMAZON.COM" "-50.99");
   (1%Z, Demo.chaseRow "2023-01-16" "DECLINED" "-4.95");
   (2%Z, Demo.chaseRow "01/17/2023" "NETFLIX" "abc");
   (3%Z, Demo.chaseRow "" "" "")].

End Scenes.

(* ===================================================================== *)
(** * Part II: properties                                                 *)
(* ===================================================================== *)

(** Case analysis on the eight bits of a character. *)
Ltac ascii_cases c := destruct c as [[] [] [] [] [] [] [] []].

(** ** Case-insensitive prefixes and the bank chain *)

Lemma lowerChar_sameLetter (a b : ascii) :
  Js.isUpperAZ b = false -> (Js.lowerChar a = b <-> sameLetter a b).
Proof.
  intros Hb. unfold sameLetter, Js.lowerChar. split.
  - destruct (Js.isUpperAZ a) eqn:Ha; intros <-; [right; left | left]; auto.
  - intros [-> | [[Ha ->] | [Hb' _]]].
    + now rewrite Hb.
    + now rewrite Ha.
    + congruence.
Qed.

Lemma ciStartsWith_nil (s : string) : ciStartsWith s "".
Proof. exists "", s. split; [reflexivity | constructor]. Qed.

Lemma ciStartsWith_cons (a b : ascii) (s p : string) :
  ciStartsWith (String a s) (String b p) <-> sameLetter a b /\ ciStartsWith s p.
Proof.
  split.
  - intros (hd & rest & Heq & Hall). destruct hd as [|c hd]; cbn in Hall.
    + inversion Hall.
    + inversion Hall; subst. cbn in Heq. injection Heq as -> ->.
      split; [assumption | now exists hd, rest].
  - intros [Hab (hd & rest & -> & Hall)].
    exists (String a hd), rest. split; [reflexivity | now constructor].
Qed.

Lemma ciStartsWith_empty (b : ascii) (p : string) : ~ ciStartsWith "" (String b p).
Proof.
  intros (hd & rest & Heq & Hall). destruct hd; [inversion Hall | discriminate].
Qed.

(** [label.toLowerCase().startsWith(p)] decides the case-insensitive
    prefix relation for every prefix without capitals. *)
Lemma startsWith_toLowerCase (p : string) :
  noCapital p ->
  forall s, Js.startsWith (Js.toLowerCase s) p = true <-> ciStartsWith s p.
Proof.
  unfold noCapital. induction p as [|b p IH]; cbn; intros Hp s.
  - split; [intros _; apply ciStartsWith_nil | reflexivity].
  - inversion Hp as [|? ? Hb Hp']; subst. destruct s as [|a s]; cbn.
    + split; [discriminate | intros H; now apply ciStartsWith_empty in H].
    + rewrite ciStartsWith_cons, <- (IH Hp' s), <- (lowerChar_sameLetter a b Hb).
      destruct (Ascii.eqb_spec (Js.lowerChar a) b) as [-> | Hne].
      * tauto.
      * split; [discriminate | tauto].
Qed.

Lemma noCapital_chase : noCapital "chase".
Proof. repeat constructor. Qed.

Lemma noCapital_amex : noCapital "amex".
Proof. repeat constructor. Qed.

Lemma noCapital_apple : noCapital "apple".
Proof. repeat constructor. Qed.

(** A text that starts with a non-empty prefix starts with its first
    character. *)
Lemma startsWith_cons_inv (s p : string) (b : ascii) :
  Js.startsWith s (String b p) = true ->
  exists s', s = String b s' /\ Js.startsWith s' p = true.
Proof.
  destruct s as [|a s]; cbn; [discriminate |].
  destruct (Ascii.eqb_spec a b) as [-> | _]; [| discriminate].
  intros H. now exists s.
Qed.

Lemma bank_of_chase (label : string) :
  ciStartsWith label "chase" -> parseCSV_bank label = Some chase.
Proof.
  intros H. apply (startsWith_toLowerCase _ noCapital_chase) in H.
  unfold parseCSV_bank. now rewrite H.
Qed.

Lemma bank_of_amex (label : string) :
  ciStartsWith label "amex" -> parseCSV_bank label = Some amex.
Proof.
  intros H. apply (startsWith_toLowerCase _ noCapital_amex) in H.
  apply startsWith_cons_inv in H as (s1 & Hs & H1).
  unfold parseCSV_bank. rewrite Hs. cbn in *. now rewrite H1.
Qed.

Lemma bank_of_apple (label : string) :
  ciStartsWith label "apple" -> parseCSV_bank label = Some apple.
Proof.
  intros H. apply (startsWith_toLowerCase _ noCapital_apple) in H.
  apply startsWith_cons_inv in H as (s1 & Hs & H1).
  apply startsWith_cons_inv in H1 as (s2 & -> & H2).
  unfold parseCSV_bank. rewrite Hs. cbn in *. now rewrite H2.
Qed.

Lemma bank_of_other (label : string) :
  ~ ciStartsWith label "chase" -> ~ ciStartsWith label "amex" ->
  ~ ciStartsWith label "apple" -> parseCSV_bank label = None.
Proof.
  rewrite <- (startsWith_toLowerCase _ noCapital_chase),
          <- (startsWith_toLowerCase _ noCapital_amex),
          <- (startsWith_toLowerCase _ noCapital_apple).
  unfold parseCSV_bank. intros H1 H2 H3.
  destruct (Js.startsWith (Js.toLowerCase label) "chase"); [now elim H1 |].
  destruct (Js.startsWith (Js.toLowerCase label) "amex"); [now elim H2 |].
  destruct (Js.startsWith (Js.toLowerCase label) "apple"); [now elim H3 | reflexivity].
Qed.

Lemma bank_resolved (label : string) (bank : BankId) :
  parseCSV_bank label = Some bank -> ciStartsWith label (bankKey bank).
Proof.
  unfold parseCSV_bank.
  destruct (Js.startsWith _ "chase") eqn:H1;
    [| destruct (Js.startsWith _ "amex") eqn:H2;
       [| destruct (Js.startsWith _ "apple") eqn:H3]];
    intros [= <-]; cbn.
  - now apply (startsWith_toLowerCase _ noCapital_chase).
  - now apply (startsWith_toLowerCase _ noCapital_amex).
  - now apply (startsWith_toLowerCase _ noCapital_apple).
Qed.

(** ** Calendar dates and their ISO rendering *)

Section IsoDates.

Local Open Scope Z_scope.
Import JsDate.

Lemma dayOfYear_bounds (doe : Z) :
  0 <= doe < 146097 -> 0 <= dayOfYear doe <= 365.
Proof.
  intros H. unfold dayOfYear, yearOfEra. Z.div_mod_to_equations. lia.
Qed.

Lemma month_date_of_day (doy : Z) :
  0 <= doy <= 365 ->
  0 <= monthIndex doy <= 11 /\ 1 <= doy - (153 * monthIndex doy + 2) / 5 + 1 <= 31.
Proof.
  intros H. unfold monthIndex. Z.div_mod_to_equations. lia.
Qed.

Lemma yearOfEra_bounds (doe : Z) : 0 <= doe < 146097 -> 0 <= yearOfEra doe <= 399.
Proof. intros H. unfold yearOfEra. Z.div_mod_to_equations. lia. Qed.

(** The calendar date computed for a day number is a date of that day:
    [MakeDay] brings it back. *)
Lemma daysFromCivil_civilFromDays (d : Z) :
  daysFromCivil (civilFromDays d).1.1 (civilFromDays d).1.2 (civilFromDays d).2 = d.
Proof.
  unfold civilFromDays, daysFromCivil. cbn [fst snd].
  set (z := d + 719468). set (doe := z mod 146097). set (era := z / 146097).
  assert (Hz : z = 146097 * era + doe) by (apply Z.div_mod; lia).
  assert (Hdoe : 0 <= doe < 146097) by (apply Z.mod_pos_bound; lia).
  pose proof (yearOfEra_bounds doe Hdoe) as Hyoe.
  pose proof (dayOfYear_bounds doe Hdoe) as Hdoy.
  pose proof (month_date_of_day _ Hdoy) as [Hmp _].
  unfold monthOfEraDay, dateOfEraDay. cbn zeta.
  assert (Hdef : doe = 365 * yearOfEra doe + yearOfEra doe / 4 -
                       yearOfEra doe / 100 + dayOfYear doe)
    by (unfold dayOfYear; cbn zeta; lia).
  set (yoe := yearOfEra doe) in *. set (doy := dayOfYear doe) in *.
  set (mp := monthIndex doy) in *.
  set (m := if mp <? 10 then mp + 3 else mp - 9).
  assert (Hm : (if m <=? 2 then m + 9 else m - 3) = mp)
    by (subst m; destruct (Z.ltb_spec mp 10);
        [destruct (Z.leb_spec (mp + 3) 2) | destruct (Z.leb_spec (mp - 9) 2)]; lia).
  rewrite Hm.
  assert (Hy : (if m <=? 2
                then (if m <=? 2 then yoe + era * 400 + 1 else yoe + era * 400) - 1
                else (if m <=? 2 then yoe + era * 400 + 1 else yoe + era * 400)) =
               yoe + era * 400)
    by (destruct (m <=? 2); lia).
  rewrite Hy.
  replace ((yoe + era * 400) / 400) with era by (Z.div_mod_to_equations; lia).
  replace ((yoe + era * 400) mod 400) with yoe by (Z.div_mod_to_equations; lia).
  subst z. lia.
Qed.

(** Every time value has a month between 1 and 12 and a day between 1
    and 31. *)
Lemma month_date_bounds (t : Z) :
  1 <= MonthOfTime t <= 12 /\ 1 <= DateFromTime t <= 31.
Proof.
  unfold MonthOfTime, DateFromTime, civilFromDays. cbn [fst snd].
  set (doe := (Day t + 719468) mod 146097).
  assert (Hdoe : 0 <= doe < 146097) by (apply Z.mod_pos_bound; lia).
  pose proof (month_date_of_day _ (dayOfYear_bounds doe Hdoe)) as [Hm Hd].
  unfold monthOfEraDay, dateOfEraDay. cbn zeta.
  destruct (Z.ltb_spec (monthIndex (dayOfYear doe)) 10); lia.
Qed.

Lemma isoDatePart_eq (t : Z) :
  isoDatePart t =
    (isoYear (YearFromTime t) ++ "-" ++ digits 2 (MonthOfTime t) ++ "-" ++
     digits 2 (DateFromTime t))%string.
Proof.
  unfold isoDatePart, YearFromTime, MonthOfTime, DateFromTime.
  now destruct (civilFromDays (Day t)) as [[y m] d].
Qed.

Lemma digitChar_cases (n : Z) :
  exists k, (k < 10)%N /\ digitChar n = ascii_of_N (48 + k) /\ n mod 10 = Z.of_N k.
Proof.
  exists (Z.to_N (n mod 10)). pose proof (Z.mod_pos_bound n 10 ltac:(lia)).
  repeat split; lia.
Qed.

Lemma digitVal_digitChar (n : Z) : digitVal (digitChar n) = Some (n mod 10).
Proof.
  destruct (digitChar_cases n) as (k & Hk & -> & ->).
  assert (Hc : (k = 0 \/ k = 1 \/ k = 2 \/ k = 3 \/ k = 4 \/ k = 5 \/ k = 6 \/
                k = 7 \/ k = 8 \/ k = 9)%N) by lia.
  repeat (destruct Hc as [-> | Hc]; [reflexivity |]). now subst.
Qed.

Lemma digitChar_not_T (n : Z) : Ascii.eqb (digitChar n) "T" = false.
Proof.
  destruct (digitChar_cases n) as (k & Hk & -> & _).
  assert (Hc : (k = 0 \/ k = 1 \/ k = 2 \/ k = 3 \/ k = 4 \/ k = 5 \/ k = 6 \/
                k = 7 \/ k = 8 \/ k = 9)%N) by lia.
  repeat (destruct Hc as [-> | Hc]; [reflexivity |]). now subst.
Qed.

(** [split('T')[0]] of text that has no ['T'] before the separator. *)
Lemma splitHead_app (s r : string) :
  Forall (fun c => Ascii.eqb c "T" = false) (list_ascii_of_string s) ->
  Js.splitHead "T" (s ++ String "T" r) = s.
Proof.
  induction s as [|c s IH]; cbv [String.append]; fold String.append; cbn.
  - reflexivity.
  - intros H. inversion H as [|? ? Hc Hs]; subst. rewrite Hc. f_equal. now apply IH.
Qed.

Lemma noT_app (s r : string) :
  Forall (fun c => Ascii.eqb c "T" = false) (list_ascii_of_string s) ->
  Forall (fun c => Ascii.eqb c "T" = false) (list_ascii_of_string r) ->
  Forall (fun c => Ascii.eqb c "T" = false) (list_ascii_of_string (s ++ r)).
Proof.
  intros Hs Hr. induction s as [|c s IH]; cbv [String.append]; fold String.append.
  - assumption.
  - cbn in *. inversion Hs; subst. constructor; auto.
Qed.

Lemma noT_digits (w : nat) (n : Z) :
  Forall (fun c => Ascii.eqb c "T" = false) (list_ascii_of_string (digits w n)).
Proof.
  revert n. induction w as [|w IH]; intros n; cbn [digits]; [constructor |].
  apply noT_app; [apply IH |]. repeat constructor. apply digitChar_not_T.
Qed.

Lemma noT_isoYear (y : Z) :
  Forall (fun c => Ascii.eqb c "T" = false) (list_ascii_of_string (isoYear y)).
Proof.
  unfold isoYear. destruct ((0 <=? y) && (y <=? 9999)); [apply noT_digits |].
  apply noT_app; [| apply noT_digits]. destruct (y <? 0); now repeat constructor.
Qed.

(** [toISOString().split('T')[0]] is the calendar-date part. *)
Lemma isoDay_eq (t : Z) : isoDay t = isoDatePart t.
Proof.
  unfold isoDay, toISOString. apply splitHead_app.
  rewrite isoDatePart_eq.
  repeat (apply noT_app; [first [apply noT_isoYear | apply noT_digits
                                 | now repeat constructor] |]).
  apply noT_digits.
Qed.

Lemma two_digits_value (m : Z) :
  0 <= m < 100 -> 10 * (10 * 0 + (m / 10) mod 10) + m mod 10 = m.
Proof.
  intros Hm. assert (0 <= m / 10 < 10)
    by (split; [apply Z.div_pos | apply Z.div_lt_upper_bound]; lia).
  rewrite (Z.mod_small (m / 10) 10) by assumption.
  pose proof (Z.div_mod m 10 ltac:(lia)). lia.
Qed.

(** The date of a time value whose year has four digits is rendered in the
    strict form [YYYY-MM-DD]. *)
Lemma isoDay_strict (t : Z) :
  0 <= YearFromTime t <= 9999 -> isYYYYMMDD (isoDay t) = true.
Proof.
  intros Hy. rewrite isoDay_eq, isoDatePart_eq.
  destruct (month_date_bounds t) as [Hm Hd].
  unfold isoYear.
  replace ((0 <=? YearFromTime t) && (YearFromTime t <=? 9999)) with true
    by (symmetry; apply andb_true_iff; split; apply Z.leb_le; lia).
  cbv [digits String.append]. unfold isYYYYMMDD.
  do 3 (cbn [readDigits readDashed]; rewrite !digitVal_digitChar).
  cbn [readDigits readDashed]. rewrite !two_digits_value by lia.
  repeat (apply andb_true_iff; split); apply Z.leb_le; lia.
Qed.

(** The year of an era that a year of the era and a day of that year
    (counted from 1 March) fall in. *)
Lemma yearOfEra_of_parts (yoe doy : Z) :
  0 <= yoe < 400 ->
  0 <= doy <= 365 ->
  (doy = 365 -> (yoe + 1) mod 4 = 0 /\ ((yoe + 1) mod 100 <> 0 \/ yoe = 399)) ->
  yearOfEra (yoe * 365 + yoe / 4 - yoe / 100 + doy) = yoe.
Proof.
  intros Hy Hd Hl. unfold yearOfEra. Z.div_mod_to_equations. lia.
Qed.

Lemma month_of_parts (mp d : Z) :
  0 <= mp <= 11 ->
  1 <= d <= 31 ->
  (mp = 1 \/ mp = 3 \/ mp = 6 \/ mp = 8 -> d <= 30) ->
  (mp = 11 -> d <= 29) ->
  let doy := (153 * mp + 2) / 5 + d - 1 in
  0 <= doy <= 365 /\ monthIndex doy = mp /\ doy - (153 * mp + 2) / 5 + 1 = d.
Proof.
  intros Hmp Hd H30 H29. cbn zeta. unfold monthIndex.
  assert (Hc : mp = 0 \/ mp = 1 \/ mp = 2 \/ mp = 3 \/ mp = 4 \/ mp = 5 \/ mp = 6 \/
               mp = 7 \/ mp = 8 \/ mp = 9 \/ mp = 10 \/ mp = 11) by lia.
  repeat (destruct Hc as [-> | Hc]; [cbn; Z.div_mod_to_equations; lia |]).
  subst mp. cbn. Z.div_mod_to_equations. lia.
Qed.

Lemma civilFromDays_daysFromCivil (y m d : Z) :
  1 <= m <= 12 -> 1 <= d <= daysInMonth y m ->
  civilFromDays (daysFromCivil y m d) = (y, m, d).
Proof.
  intros Hm Hd. unfold daysFromCivil. cbn zeta.
  set (y' := if m <=? 2 then y - 1 else y).
  set (mp := if m <=? 2 then m + 9 else m - 3).
  set (yoe := y' mod 400). set (era := y' / 400).
  assert (Hy' : y' = 400 * era + yoe) by (apply Z.div_mod; lia).
  assert (Hyoe : 0 <= yoe < 400) by (apply Z.mod_pos_bound; lia).
  assert (Hmp : 0 <= mp <= 11 /\ m = (if mp <? 10 then mp + 3 else mp - 9) /\
                (m <=? 2) = negb (mp <? 10))
    by (subst mp; destruct (Z.leb_spec m 2);
        [destruct (Z.ltb_spec (m + 9) 10) | destruct (Z.ltb_spec (m - 3) 10)];
        repeat split; lia).
  destruct Hmp as (Hmp & Hmeq & Hle).
  assert (Hdm : 1 <= d <= 31 /\ (mp = 1 \/ mp = 3 \/ mp = 6 \/ mp = 8 -> d <= 30) /\
                (mp = 11 -> d <= 29 /\
                   (d = 29 -> (yoe + 1) mod 4 = 0 /\ ((yoe + 1) mod 100 <> 0 \/ yoe = 399)))).
  { unfold daysInMonth, isLeapYear in Hd. subst mp y'.
    destruct (Z.leb_spec m 2) as [Hm2|Hm2].
    - destruct (Z.eqb_spec m 2) as [->|Hne].
      + destruct (Z.eqb_spec (y mod 4) 0), (Z.eqb_spec (y mod 100) 0),
          (Z.eqb_spec (y mod 400) 0); cbn in Hd;
          (split; [lia |]); (split; [lia |]); intros _; (split; [lia |]); intros H29;
          try lia; Z.div_mod_to_equations; lia.
      + assert (m = 1) by lia. subst m. cbn in Hd. lia.
    - destruct (Z.eqb_spec m 2); [lia |].
      destruct (Z.eqb_spec m 4), (Z.eqb_spec m 6), (Z.eqb_spec m 9), (Z.eqb_spec m 11);
        cbn in Hd; lia. }
  destruct Hdm as (Hd31 & H30 & H29).
  destruct (month_of_parts mp d Hmp Hd31 H30 (fun H => proj1 (H29 H))) as (Hdoy & Hmi & Hdate).
  set (doy := (153 * mp + 2) / 5 + d - 1) in *.
  assert (Hleap : doy = 365 -> (yoe + 1) mod 4 = 0 /\ ((yoe + 1) mod 100 <> 0 \/ yoe = 399)).
  { intros H365. assert (mp = 11 /\ d = 29) as [H11 Hd29].
    { subst doy. assert (Hc : mp = 0 \/ mp = 1 \/ mp = 2 \/ mp = 3 \/ mp = 4 \/ mp = 5 \/
               mp = 6 \/ mp = 7 \/ mp = 8 \/ mp = 9 \/ mp = 10 \/ mp = 11) by lia.
      clear Hmi Hdate Hmeq Hle.
      repeat (destruct Hc as [Hc' | Hc];
              [rewrite Hc' in *; cbn in H365; specialize (H30 ltac:(lia)) || idtac;
               Z.div_mod_to_equations; lia |]).
      rewrite Hc in *. cbn in H365. split; [reflexivity |].
      Z.div_mod_to_equations; lia. }
    exact (proj2 (H29 H11) Hd29). }
  pose proof (yearOfEra_of_parts yoe doy Hyoe Hdoy Hleap) as Hyear.
  set (doe := yoe * 365 + yoe / 4 - yoe / 100 + doy) in *.
  assert (Hdoe : 0 <= doe < 146097).
  { subst doe. destruct (Z.eq_dec doy 365) as [H365|H365];
      [destruct (Hleap H365) |]; Z.div_mod_to_equations; lia. }
  unfold civilFromDays. cbn zeta.
  replace (era * 146097 + doe - 719468 + 719468) with (doe + era * 146097) by lia.
  rewrite Z.mod_add, Z.div_add by lia.
  rewrite (Z.mod_small doe) by lia. rewrite (Z.div_small doe) by lia.
  unfold monthOfEraDay, dateOfEraDay, dayOfYear. cbn zeta. rewrite Hyear.
  replace (doe - (365 * yoe + yoe / 4 - yoe / 100)) with doy by (subst doe; lia).
  rewrite Hmi, Hdate, <- Hmeq, Hle.
  f_equal. f_equal. subst y'. destruct (Z.ltb_spec mp 10); cbn [negb] in *.
  - rewrite Hle in Hy'. lia.
  - rewrite Hle in Hy'. lia.
Qed.

Lemma digitVal_inv (c : ascii) (d : Z) :
  digitVal c = Some d -> 0 <= d <= 9 /\ c = digitChar d.
Proof.
  intros H. ascii_cases c; vm_compute in H; try discriminate H;
    injection H as <-; split; (lia || reflexivity).
Qed.

Lemma readDigits_S_inv (n : nat) (acc : Z) (s : string) (v : Z) (r : string) :
  readDigits (S n) acc s = Some (v, r) ->
  exists c s' d, s = String c s' /\ digitVal c = Some d /\
                 readDigits n (10 * acc + d) s' = Some (v, r).
Proof.
  cbn [readDigits]. destruct s as [|c s']; [discriminate |].
  destruct (digitVal c) as [d|] eqn:Hd; [| discriminate].
  intros H. now exists c, s', d.
Qed.

Lemma readDashed_inv (s : string) (v : Z) (r : string) :
  readDashed s = Some (v, r) ->
  exists s', s = String "-" s' /\ readDigits 2 0 s' = Some (v, r).
Proof.
  destruct s as [|c s']; [discriminate |].
  ascii_cases c; try discriminate. intros H. now exists s'.
Qed.

Lemma readYear_digit (c : ascii) (d : Z) (s : string) :
  digitVal c = Some d -> readYear (String c s) = readDigits 4 0 (String c s).
Proof.
  intros H. ascii_cases c; vm_compute in H; try discriminate H; reflexivity.
Qed.

Lemma digitChar_eq (n d : Z) : n mod 10 = d -> digitChar n = digitChar d.
Proof.
  intros <-. unfold digitChar. now rewrite Z.mod_mod by lia.
Qed.

(** A date in the strict form [YYYY-MM-DD] that the date-only reading
    accepts is rendered back as the same text. *)
Lemma isoDay_parseDateOnly (s : string) (t : Z) :
  isYYYYMMDD s = true -> parseDateOnly s = Some t -> isoDay t = s.
Proof.
  unfold isYYYYMMDD. intros Hs Hp.
  destruct (readDigits 4 0 s) as [[y r1]|] eqn:Hy; [| discriminate].
  destruct (readDashed r1) as [[m r2]|] eqn:Hm; [| discriminate].
  destruct (readDashed r2) as [[d r3]|] eqn:Hd; [| discriminate].
  destruct r3; [| discriminate]. clear Hs.
  pose proof Hy as Hy0.
  apply readDigits_S_inv in Hy as (c1 & s1 & d1 & -> & Hc1 & Hy).
  rewrite (readYear_digit c1 d1 s1 Hc1) in Hp || (unfold parseDateOnly in Hp;
    rewrite (readYear_digit c1 d1 s1 Hc1) in Hp).
  rewrite Hy0 in Hp. clear Hy0.
  apply readDigits_S_inv in Hy as (c2 & s2 & d2 & -> & Hc2 & Hy).
  apply readDigits_S_inv in Hy as (c3 & s3 & d3 & -> & Hc3 & Hy).
  apply readDigits_S_inv in Hy as (c4 & s4 & d4 & -> & Hc4 & Hy).
  cbn [readDigits] in Hy. injection Hy as <- <-.
  pose proof Hm as Hm0.
  apply readDashed_inv in Hm as (s5 & -> & Hm).
  rewrite Hm0 in Hp. clear Hm0.
  apply readDigits_S_inv in Hm as (c5 & s6 & d5 & -> & Hc5 & Hm).
  apply readDigits_S_inv in Hm as (c6 & s7 & d6 & -> & Hc6 & Hm).
  cbn [readDigits] in Hm. injection Hm as <- <-.
  pose proof Hd as Hd0.
  apply readDashed_inv in Hd as (s8 & -> & Hd).
  rewrite Hd0 in Hp. clear Hd0.
  apply readDigits_S_inv in Hd as (c7 & s9 & d7 & -> & Hc7 & Hd).
  apply readDigits_S_inv in Hd as (c8 & s10 & d8 & -> & Hc8 & Hd).
  cbn [readDigits] in Hd. injection Hd as <- ->.
  apply digitVal_inv in Hc1 as [B1 ->], Hc2 as [B2 ->], Hc3 as [B3 ->], Hc4 as [B4 ->],
    Hc5 as [B5 ->], Hc6 as [B6 ->], Hc7 as [B7 ->], Hc8 as [B8 ->].
  unfold utcMidnight in Hp.
  set (y := 10 * (10 * (10 * (10 * 0 + d1) + d2) + d3) + d4) in *.
  set (m := 10 * (10 * 0 + d5) + d6) in *.
  set (d := 10 * (10 * 0 + d7) + d8) in *.
  destruct ((1 <=? m) && (m <=? 12) && (1 <=? d) && (d <=? daysInMonth y m)) eqn:Hv;
    [| discriminate].
  apply andb_true_iff in Hv as [Hv Hdd]. apply andb_true_iff in Hv as [Hv Hd1].
  apply andb_true_iff in Hv as [Hm1 Hm12].
  apply Z.leb_le in Hdd, Hd1, Hm1, Hm12.
  unfold TimeClip in Hp. destruct (Z.abs _ <=? _); [| discriminate].
  injection Hp as <-.
  rewrite isoDay_eq. unfold isoDatePart, Day. rewrite Z.div_mul by (unfold msPerDay; lia).
  rewrite civilFromDays_daysFromCivil by lia.
  unfold isoYear.
  replace ((0 <=? y) && (y <=? 9999)) with true
    by (symmetry; apply andb_true_iff; split; apply Z.leb_le; subst y; lia).
  cbv [digits String.append].
  rewrite (digitChar_eq (y / 10 / 10 / 10) d1), (digitChar_eq (y / 10 / 10) d2),
    (digitChar_eq (y / 10) d3), (digitChar_eq y d4), (digitChar_eq (m / 10) d5),
    (digitChar_eq m d6), (digitChar_eq (d / 10) d7), (digitChar_eq d d8);
    [reflexivity | ..]; subst y m d; Z.div_mod_to_equations; lia.
Qed.

(** The date part of the midnight that starts a calendar date. *)
Lemma isoDay_midnight (y m d : Z) :
  0 <= y <= 9999 -> 1 <= m <= 12 -> 1 <= d <= daysInMonth y m ->
  isoDay (daysFromCivil y m d * msPerDay) =
    (digits 4 y ++ "-" ++ digits 2 m ++ "-" ++ digits 2 d)%string.
Proof.
  intros Hy Hm Hd. rewrite isoDay_eq. unfold isoDatePart, Day.
  rewrite Z.div_mul by (unfold msPerDay; lia).
  rewrite civilFromDays_daysFromCivil by assumption.
  unfold isoYear.
  now replace ((0 <=? y) && (y <=? 9999)) with true
    by (symmetry; apply andb_true_iff; split; apply Z.leb_le; lia).
Qed.

End IsoDates.

(** Renderings and readings on known values. *)
Example toISOString_examples :
  JsDate.toISOString 0 = "1970-01-01T00:00:00.000Z" /\
  JsDate.toISOString 1709251199999 = "2024-02-29T23:59:59.999Z" /\
  JsDate.isoDay (-1) = "1969-12-31" /\
  JsDate.isoDay 253402300800000 = "+010000-01-01" /\
  JsDate.isoDay (-62167219200001) = "-000001-12-31".
Proof. repeat split; vm_compute; reflexivity. Qed.

Example parseDateOnly_examples :
  JsDate.parseDateOnly "2023-01-15" = Some 1673740800000%Z /\
  JsDate.parseDateOnly "2023-02-29" = None /\
  JsDate.parseDateOnly "2024-02-29" = Some 1709164800000%Z /\
  JsDate.parseDateOnly "01/15/2023" = None.
Proof. repeat split; vm_compute; reflexivity. Qed.

(** The literals found at the head of some texts. *)
Example readLiteral_examples :
  map JsNum.readLiteral ["-50.99"; "  75.32abc"; "abc"; "$5"; "."; "-.5e2"; "5.e3";
                         "1e"; "-0"; "-Infinityx"; ""; "1,234.5"] =
    [JsNum.Decimal true 5099 (-2); JsNum.Decimal false 7532 (-2); JsNum.NotANumber;
     JsNum.NotANumber; JsNum.NotANumber; JsNum.Decimal true 5 1; JsNum.Decimal false 5 3;
     JsNum.Decimal false 1 0; JsNum.Decimal true 0 0; JsNum.InfinityLiteral true;
     JsNum.NotANumber; JsNum.Decimal false 1 0].
Proof. vm_compute. reflexivity. Qed.

(** White space of more than one byte is skipped like a blank: a
    no-break space, a byte order mark and a line separator before "5". *)
Example trimStart_examples :
  map (fun bytes => JsNum.parseFloat (string_of_list_ascii (map ascii_of_nat bytes) ++ "5"))
      [[194; 160]; [239; 187; 191]; [226; 128; 168; 32; 9]; [226; 128; 139]; [194]] =
    [JsNum.Finite false 5 0; JsNum.Finite false 5 0; JsNum.Finite false 5 0;
     JsNum.NaN; JsNum.NaN].
Proof. vm_compute. reflexivity. Qed.

(** Number values on known texts: 50.99 and 0.1 are not binary fractions
    and are rounded; 2^53 + 1 is rounded to 2^53; the largest finite
    value, the text halfway to 2^1024 and 1e400; the smallest value above
    zero, and half of it. *)
Example parseFloat_examples :
  map JsNum.parseFloat
      ["-50.99"; "  75.32abc"; "0.1"; "abc"; "-.5e2"; "5.e3"; "-0"; "-Infinityx";
       "9007199254740993"; "1.7976931348623157e308"; "1.7976931348623159e308"; "1e400";
       "5e-324"; "2.4703282292062327e-324"] =
    [JsNum.Finite true 7176204531238175 (-47); JsNum.Finite false 1325043452865413 (-44);
     JsNum.Finite false 3602879701896397 (-55); JsNum.NaN; JsNum.Finite true 25 1;
     JsNum.Finite false 625 3; JsNum.Finite true 0 0; JsNum.Infinity true;
     JsNum.Finite false 1 53; JsNum.Finite false 9007199254740991 971;
     JsNum.Infinity false; JsNum.Infinity false;
     JsNum.Finite false 1 (-1074); JsNum.Finite false 0 0].
Proof. vm_compute. reflexivity. Qed.

(** ** Rounding to binary64 *)

Section Rounding.

Local Open Scope Z_scope.

(** [roundHalfEven a b] is an integer nearest to [a / b]: the two differ by
    at most one half, and at exactly one half the integer is even. *)
Lemma roundHalfEven_nearest (a b : Z) :
  0 < b ->
  Z.abs (2 * (a - JsNum.roundHalfEven a b * b)) <= b /\
  (Z.abs (2 * (a - JsNum.roundHalfEven a b * b)) = b ->
   Z.even (JsNum.roundHalfEven a b) = true).
Proof.
  intros Hb. unfold JsNum.roundHalfEven.
  pose proof (Z.div_mod a b ltac:(lia)) as Hdiv.
  pose proof (Z.mod_pos_bound a b Hb) as Hmod.
  destruct (Z.compare_spec (2 * (a mod b)) b) as [Heq | Hlt | Hgt].
  - destruct (Z.even (a / b)) eqn:Hev.
    + split; [nia | intros _; exact Hev].
    + split; [nia |]. intros _. rewrite Z.even_add, Hev. reflexivity.
  - split; [nia | nia].
  - split; [nia | nia].
Qed.

(** [floorLog2 a b] is the binade of [a / b]. *)
Lemma floorLog2_spec (a b : Z) :
  0 < a -> 0 < b ->
  (JsNum.scaled a b (JsNum.floorLog2 a b)).2 <= (JsNum.scaled a b (JsNum.floorLog2 a b)).1
    < 2 * (JsNum.scaled a b (JsNum.floorLog2 a b)).2.
Proof.
  intros Ha Hb. unfold JsNum.floorLog2.
  pose proof (Z.log2_spec a Ha) as [La Ua]. pose proof (Z.log2_spec b Hb) as [Lb Ub].
  pose proof (Z.log2_nonneg a) as Na. pose proof (Z.log2_nonneg b) as Nb.
  rewrite Z.pow_succ_r in Ua, Ub by assumption.
  set (k := Z.log2 a - Z.log2 b).
  assert (Hk : Z.log2 a = Z.log2 b + k) by (subst k; lia). clearbody k.
  set (A := 2 ^ Z.log2 a) in *. set (B := 2 ^ Z.log2 b) in *.
  assert (HB : 0 < B) by (apply Z.pow_pos_nonneg; lia).
  assert (HA : 0 < A) by (apply Z.pow_pos_nonneg; lia).
  destruct (JsNum.scaled a b k) as [x y] eqn:Hxy. unfold JsNum.scaled in Hxy.
  destruct (Z.leb_spec 0 k) as [Hk0 | Hk0]; injection Hxy as <- <-.
  - assert (Hpow : A = B * 2 ^ k) by (subst A B; rewrite Hk, Z.pow_add_r by lia; ring).
    destruct (Z.ltb_spec a (b * 2 ^ k)) as [Hlt | Hge]; unfold JsNum.scaled.
    + destruct (Z.leb_spec 0 (k - 1)) as [Hk1 | Hk1]; cbn [fst snd].
      * assert (Hk2 : 2 ^ k = 2 * 2 ^ (k - 1))
          by (rewrite <- Z.pow_succ_r by lia; f_equal; lia).
        set (P := 2 ^ (k - 1)) in *.
        assert (0 < P) by (apply Z.pow_pos_nonneg; lia).
        assert (b * P < 2 * B * P) by (apply Z.mul_lt_mono_pos_r; lia).
        rewrite Hk2 in Hlt, Hpow. lia.
      * assert (k = 0) by lia. subst k. cbn in *. lia.
    + destruct (Z.leb_spec 0 k); [| lia]. cbn [fst snd].
      set (P := 2 ^ k) in *.
      assert (0 < P) by (apply Z.pow_pos_nonneg; lia).
      assert (B * P <= b * P) by (apply Z.mul_le_mono_pos_r; lia).
      lia.
  - assert (Hpow : B = A * 2 ^ (- k))
      by (subst A B; rewrite <- Z.pow_add_r by lia; f_equal; lia).
    destruct (Z.ltb_spec (a * 2 ^ (- k)) b) as [Hlt | Hge]; unfold JsNum.scaled.
    + destruct (Z.leb_spec 0 (k - 1)); [lia |]. cbn [fst snd].
      assert (Hk2 : 2 ^ (- (k - 1)) = 2 * 2 ^ (- k))
        by (rewrite <- Z.pow_succ_r by lia; f_equal; lia).
      rewrite Hk2. set (P := 2 ^ (- k)) in *.
      assert (0 < P) by (apply Z.pow_pos_nonneg; lia).
      assert (A * P <= a * P) by (apply Z.mul_le_mono_pos_r; lia).
      lia.
    + destruct (Z.leb_spec 0 k); [lia |]. cbn [fst snd].
      set (P := 2 ^ (- k)) in *.
      assert (0 < P) by (apply Z.pow_pos_nonneg; lia).
      assert (a * P < 2 * A * P) by (apply Z.mul_lt_mono_pos_r; lia).
      lia.
Qed.

(** Moving the factors 2 of the mantissa to the exponent keeps the value. *)
Lemma oddMantissa_value (fuel : nat) (m e : Z) :
  0 <= m ->
  e <= (JsNum.oddMantissa fuel m e).2 /\
  0 <= (JsNum.oddMantissa fuel m e).1 /\
  m = (JsNum.oddMantissa fuel m e).1 * 2 ^ ((JsNum.oddMantissa fuel m e).2 - e).
Proof.
  revert m e. induction fuel as [|fuel IH]; intros m e Hm; cbn [JsNum.oddMantissa].
  - cbn [fst snd]. rewrite Z.sub_diag. cbn. lia.
  - destruct (Z.even m) eqn:Hev; cbn [fst snd].
    + assert (Hhalf : 0 <= m / 2) by (apply Z.div_pos; lia).
      destruct (IH (m / 2) (e + 1) Hhalf) as (He & Hpos & Hval).
      set (r := JsNum.oddMantissa fuel (m / 2) (e + 1)) in *.
      split; [lia |]. split; [assumption |].
      replace (r.2 - e) with (Z.succ (r.2 - (e + 1))) by lia.
      rewrite Z.pow_succ_r by lia.
      apply Z.even_spec in Hev as [h ->].
      rewrite Z.mul_comm, Z.div_mul in Hval by lia. lia.
    + rewrite Z.sub_diag. cbn. lia.
Qed.

(** A finite value other than zero returned by [roundToDouble] is
    [M * 2^E], where [E] is the exponent of the last of the 53 bits of
    the binade of [a / b] (not below -1074) and [M] is the integer nearest
    to [a / b / 2^E], ties to even. *)
Lemma roundToDouble_nearest (neg neg' : bool) (a b : Z) (m : N) (e : Z) :
  0 < a -> 0 < b ->
  JsNum.roundToDouble neg a b = JsNum.Finite neg' m e ->
  m <> 0%N ->
  let E := Z.max (JsNum.floorLog2 a b - 52) (-1074) in
  let M := JsNum.roundHalfEven (JsNum.scaled a b E).1 (JsNum.scaled a b E).2 in
  neg' = neg /\ E <= e /\ M = Z.of_N m * 2 ^ (e - E) /\
  Z.abs (2 * ((JsNum.scaled a b E).1 - M * (JsNum.scaled a b E).2))
    <= (JsNum.scaled a b E).2.
Proof.
  intros Ha Hb Hr Hm. cbv zeta. unfold JsNum.roundToDouble in Hr.
  destruct (Z.eqb_spec a 0) as [-> | _]; [lia |].
  set (E := Z.max (JsNum.floorLog2 a b - 52) (-1074)) in *.
  destruct (JsNum.scaled a b E) as [x y] eqn:Hxy. cbn [fst snd].
  assert (Hy : 0 < y).
  { unfold JsNum.scaled in Hxy.
    destruct (Z.leb_spec 0 E); injection Hxy as <- <-; [| lia].
    apply Z.mul_pos_pos; [lia | apply Z.pow_pos_nonneg; lia]. }
  set (M := JsNum.roundHalfEven x y) in *.
  destruct (Z.eqb_spec M 0) as [H0 | H0]; [now injection Hr as <- <- <- |].
  destruct (1024 <=? Z.log2 M + E); [discriminate |].
  assert (HM : 0 <= M).
  { subst M. unfold JsNum.roundHalfEven.
    assert (Hx : 0 <= x).
    { unfold JsNum.scaled in Hxy.
      destruct (Z.leb_spec 0 E); injection Hxy as <- <-; [lia |].
      apply Z.mul_nonneg_nonneg; [lia | apply Z.pow_nonneg; lia]. }
    pose proof (Z.div_pos x y Hx Hy).
    destruct (2 * (x mod y) ?= y); [destruct (Z.even (x / y)) | |]; lia. }
  pose proof (oddMantissa_value 53 M E HM) as (He & Hpos & Hval).
  destruct (JsNum.oddMantissa 53 M E) as [m' e'] eqn:Hodd. cbn [fst snd] in *.
  injection Hr as <- <- <-.
  split; [reflexivity |]. split; [assumption |]. split.
  - now rewrite Z2N.id by assumption.
  - apply (roundHalfEven_nearest x y Hy).
Qed.

End Rounding.

(** The scenario of the specification: one Chase line, normalized and
    turned into a record for "Alli". *)
Example scenario_chase_freedom :
  parseCSV_normalize (BANK_MAPPINGS chase) "Chase Freedom" 0
    (Demo.chaseRow "2023-01-15" "AMAZON.COM" "-50.99") =
    Tx.mk (Some "AMAZON.COM") (Some "-50.99") (Some "2023-01-15")
          (Demo.chaseRow "2023-01-15" "AMAZON.COM" "-50.99") (Some "Chase Freedom") /\
  requestWith "db-1" "Alli's "
    (parseCSV_normalize (BANK_MAPPINGS chase) "Chase Freedom" 0
       (Demo.chaseRow "2023-01-15" "AMAZON.COM" "-50.99")) "2023-01-15" =
    mkPageRequest "db-1" "2023-01-15" "AMAZON.COM"
                  (JsNum.Finite false 7176204531238175 (-47))
                  "Requires Audit" "Alli's Chase Freedom".
Proof. split; vm_compute; reflexivity. Qed.

(** ** The row normalizer *)

Lemma orElse_falsy (v : option string) (d : string) :
  v = None \/ v = Some "" -> Js.orElse v d = d.
Proof. now intros [-> | ->]. Qed.

Lemma orElse_truthy (s d : string) : s <> "" -> Js.orElse (Some s) d = s.
Proof.
  intros Hs. unfold Js.orElse. now destruct (String.eqb_spec s "").
Qed.

Lemma truthy_false (v : option string) :
  Js.truthy v = false <-> v = None \/ v = Some "".
Proof.
  destruct v as [s|]; cbn; [| now intuition].
  destruct (String.eqb_spec s ""); cbn; split; intros; try discriminate; subst; auto.
  destruct H as [H | H]; [discriminate | now injection H].
Qed.

Lemma truthy_true (v : option string) :
  Js.truthy v = true <-> exists s, v = Some s /\ s <> "".
Proof.
  destruct v as [s|]; cbn.
  - destruct (String.eqb_spec s ""); cbn; split; intros H; try discriminate; eauto.
    destruct H as (s' & [= <-] & Hs). contradiction.
  - split; [discriminate | now intros (s' & [=] & _)].
Qed.

(** C2. Whatever the row and the mapping, a mapped description column
    that is absent or empty yields the description "Unknown", an absent or
    empty amount column yields the amount "0", and an absent or empty date
    column yields the date part of the ISO rendering of the current time,
    which has the form YYYY-MM-DD as long as the clock shows a year of four
    digits. *)
Theorem C2_missing_column_defaults (data : RawRow) (fieldMappings : Mapping.t)
    (label : string) (now : Z) :
  (data !! Mapping.description fieldMappings = None \/
   data !! Mapping.description fieldMappings = Some "" ->
     Tx.description (parseCSV_normalize fieldMappings label now data) = Some "Unknown") /\
  (data !! Mapping.amount fieldMappings = None \/
   data !! Mapping.amount fieldMappings = Some "" ->
     Tx.amount (parseCSV_normalize fieldMappings label now data) = Some "0") /\
  (data !! Mapping.transactionDate fieldMappings = None \/
   data !! Mapping.transactionDate fieldMappings = Some "" ->
     Tx.date (parseCSV_normalize fieldMappings label now data) =
       Some (JsDate.isoDay now) /\
     ((0 <= JsDate.YearFromTime now <= 9999)%Z ->
        JsDate.isYYYYMMDD (JsDate.isoDay now) = true)).
Proof.
  unfold parseCSV_normalize; cbn. repeat split.
  - intros H. now rewrite orElse_falsy.
  - intros H. now rewrite orElse_falsy.
  - now rewrite orElse_falsy.
  - apply isoDay_strict.
Qed.

(** A run of C2: an empty row, handled on 15 January 2023. *)
Lemma C2_missing_column_defaults_witness :
  (∅ : RawRow) !! "Description" = None /\
  (0 <= JsDate.YearFromTime 1673740800000 <= 9999)%Z /\
  parseCSV_normalize (BANK_MAPPINGS chase) "Chase Freedom" 1673740800000 ∅ =
    Tx.mk (Some "Unknown") (Some "0") (Some "2023-01-15") ∅ (Some "Chase Freedom") /\
  JsDate.isYYYYMMDD (JsDate.isoDay 1673740800000) = true.
Proof.
  destruct (C2_missing_column_defaults ∅ (BANK_MAPPINGS chase) "Chase Freedom"
              1673740800000) as (_ & _ & Hdate).
  assert (Hy : (0 <= JsDate.YearFromTime 1673740800000 <= 9999)%Z)
    by (vm_compute; split; discriminate).
  split; [reflexivity |]. split; [exact Hy |]. split; [reflexivity |].
  exact (proj2 (Hdate (or_introl eq_refl)) Hy).
Defined.

(** C3, as the program has it.  The row itself is always kept as
    [originalData] and the label given by the caller is always the
    [paymentMethod]; a mapped column that is present with a non-empty
    value is copied as it stands into description, amount or date, and no
    default takes its place; a column that is present but empty is
    replaced by its default (see [C3_counterexample]). *)
Theorem C3_present_columns_copied (data : RawRow) (fieldMappings : Mapping.t)
    (label : string) (now : Z) :
  Tx.originalData (parseCSV_normalize fieldMappings label now data) = data /\
  Tx.paymentMethod (parseCSV_normalize fieldMappings label now data) = Some label /\
  (forall v, data !! Mapping.description fieldMappings = Some v -> v <> "" ->
     Tx.description (parseCSV_normalize fieldMappings label now data) = Some v) /\
  (forall v, data !! Mapping.amount fieldMappings = Some v -> v <> "" ->
     Tx.amount (parseCSV_normalize fieldMappings label now data) = Some v) /\
  (forall v, data !! Mapping.transactionDate fieldMappings = Some v -> v <> "" ->
     Tx.date (parseCSV_normalize fieldMappings label now data) = Some v) /\
  (data !! Mapping.description fieldMappings = Some "" ->
     Tx.description (parseCSV_normalize fieldMappings label now data) = Some "Unknown") /\
  (data !! Mapping.amount fieldMappings = Some "" ->
     Tx.amount (parseCSV_normalize fieldMappings label now data) = Some "0") /\
  (data !! Mapping.transactionDate fieldMappings = Some "" ->
     Tx.date (parseCSV_normalize fieldMappings label now data) =
       Some (JsDate.isoDay now)).
Proof.
  unfold parseCSV_normalize; cbn.
  repeat split; try (intros v -> Hv; now rewrite orElse_truthy); now intros ->.
Qed.

(** A run of C3 on the first line of the demonstration file. *)
Lemma C3_present_columns_copied_witness :
  Demo.chaseRow "2023-01-15" "AMAZON.COM" "-50.99" !! "Description" = Some "AMAZON.COM" /\
  "AMAZON.COM" <> "" /\
  Tx.description
    (parseCSV_normalize (BANK_MAPPINGS chase) "Chase Freedom" 0
       (Demo.chaseRow "2023-01-15" "AMAZON.COM" "-50.99")) = Some "AMAZON.COM".
Proof.
  destruct (C3_present_columns_copied
              (Demo.chaseRow "2023-01-15" "AMAZON.COM" "-50.99")
              (BANK_MAPPINGS chase) "Chase Freedom" 0) as (_ & _ & Hd & _).
  split; [reflexivity |]. split; [discriminate |].
  apply Hd; [reflexivity | discriminate].
Defined.

(** C3 as it was stated fails on a row whose three mapped columns are all
    present, the description being empty: the description of the
    transaction is the default "Unknown", not the value of the column. *)
Lemma C3_counterexample :
  is_Some (Demo.chaseRow "2023-01-15" "" "-50.99" !! Mapping.description (BANK_MAPPINGS chase)) /\
  is_Some (Demo.chaseRow "2023-01-15" "" "-50.99" !! Mapping.amount (BANK_MAPPINGS chase)) /\
  is_Some (Demo.chaseRow "2023-01-15" "" "-50.99" !! Mapping.transactionDate (BANK_MAPPINGS chase)) /\
  Tx.description
    (parseCSV_normalize (BANK_MAPPINGS chase) "Chase Freedom" 0
       (Demo.chaseRow "2023-01-15" "" "-50.99")) = Some "Unknown" /\
  Tx.description
    (parseCSV_normalize (BANK_MAPPINGS chase) "Chase Freedom" 0
       (Demo.chaseRow "2023-01-15" "" "-50.99")) <>
  Demo.chaseRow "2023-01-15" "" "-50.99" !! Mapping.description (BANK_MAPPINGS chase).
Proof.
  repeat split; try (eexists; reflexivity). vm_compute. discriminate.
Qed.

Section ParseCSV.

Context {World : Type}.
Variable csv_stream : string -> World -> list Delivery * World.

(** What [parseCSV] does once [bank] has been selected: it announces the
    mapping, opens the file and hands the rows to the handlers. *)
Lemma parseCSV_selected (filePath label : string) (bank : BankId) (w : World) :
  parseCSV_bank label = Some bank ->
  parseCSV csv_stream filePath (Some label) w =
    (parseCSV_consume (BANK_MAPPINGS bank) label (csv_stream filePath w).1,
     (csv_stream filePath w).2,
     [console_log ("Using " ++ bankKey bank ++
                   " field mappings for payment method: " ++ label);
      createReadStream filePath]).
Proof.
  intros H. unfold parseCSV. rewrite H. now destruct (csv_stream filePath w).
Qed.

(** C1. A label that starts, case ignored, with "chase", "amex" or "apple"
    makes [parseCSV] select the bank [chase], [amex] or [apple] and go on
    with that bank's column mapping; a label that starts with none of the
    three makes [parseCSV] reject with the error whose message is
    "Unsupported payment method: <label>. Cannot determine bank type.",
    which names the label exactly as it was given. *)
Theorem C1_bank_resolution (filePath label : string) (w : World) :
  (ciStartsWith label "chase" ->
     parseCSV_bank label = Some chase /\
     (parseCSV csv_stream filePath (Some label) w).1.1 =
       parseCSV_consume (BANK_MAPPINGS chase) label (csv_stream filePath w).1) /\
  (ciStartsWith label "amex" ->
     parseCSV_bank label = Some amex /\
     (parseCSV csv_stream filePath (Some label) w).1.1 =
       parseCSV_consume (BANK_MAPPINGS amex) label (csv_stream filePath w).1) /\
  (ciStartsWith label "apple" ->
     parseCSV_bank label = Some apple /\
     (parseCSV csv_stream filePath (Some label) w).1.1 =
       parseCSV_consume (BANK_MAPPINGS apple) label (csv_stream filePath w).1) /\
  (~ ciStartsWith label "chase" -> ~ ciStartsWith label "amex" ->
   ~ ciStartsWith label "apple" ->
     parseCSV_bank label = None /\
     (parseCSV csv_stream filePath (Some label) w).1.1 =
       Rejected (Js.mkError ("Unsupported payment method: " ++ label ++
                             ". Cannot determine bank type."))).
Proof.
  repeat split.
  - now apply bank_of_chase.
  - now rewrite (parseCSV_selected _ _ chase) by now apply bank_of_chase.
  - now apply bank_of_amex.
  - now rewrite (parseCSV_selected _ _ amex) by now apply bank_of_amex.
  - now apply bank_of_apple.
  - now rewrite (parseCSV_selected _ _ apple) by now apply bank_of_apple.
  - now apply bank_of_other.
  - unfold parseCSV. now rewrite bank_of_other.
Qed.

(** C7. A label that starts with none of the bank prefixes makes
    [parseCSV] reject at once: the world is left as it was (the CSV stream
    is never asked for), the trace is empty, so no [createReadStream] took
    place for any path, and the message of the rejection contains
    "Unsupported payment method: " followed by the label itself. *)
Theorem C7_rejects_before_opening (filePath label : string) (w : World) :
  ~ ciStartsWith label "chase" -> ~ ciStartsWith label "amex" ->
  ~ ciStartsWith label "apple" ->
  exists e,
    parseCSV csv_stream filePath (Some label) w = (Rejected e, w, []) /\
    (forall path, createReadStream path ∉ (parseCSV csv_stream filePath (Some label) w).2) /\
    exists before after,
      Js.message e = before ++ ("Unsupported payment method: " ++ label) ++ after.
Proof.
  intros H1 H2 H3. pose proof (bank_of_other label H1 H2 H3) as Hb.
  exists (unsupportedPaymentMethod label). unfold parseCSV. rewrite Hb. cbn.
  split; [reflexivity |]. split.
  - intros path Hin. now apply elem_of_nil in Hin.
  - now exists "", ". Cannot determine bank type.".
Qed.

(** The handlers append one transaction per row, in order, and leave the
    promise as it is. *)
Lemma handle_rows (fieldMappings : Mapping.t) (label : string)
    (rows : list (Z * RawRow)) (st : ParseState) :
  fold_left (parseCSV_handle fieldMappings label) (dataEvents rows) st =
    {| results := results st ++
                  map (fun r => parseCSV_normalize fieldMappings label r.1 r.2) rows;
       settlement := settlement st |}.
Proof.
  revert st. induction rows as [|r rows IH]; intros st; cbn.
  - rewrite app_nil_r. now destruct st.
  - rewrite IH. cbn. now rewrite <- app_assoc.
Qed.

(** Once the promise is rejected, no later event changes that. *)
Lemma handle_rejected (fieldMappings : Mapping.t) (label : string) (e : Js.Error)
    (stream : list Delivery) (st : ParseState) :
  settlement st = RejectedWith e ->
  settlement (fold_left (parseCSV_handle fieldMappings label) stream st) = RejectedWith e.
Proof.
  revert st. induction stream as [|d stream IH]; intros st Hst; cbn; [assumption |].
  apply IH. unfold parseCSV_handle. destruct (event d); cbn; now rewrite ?Hst.
Qed.

(** Once the bank is resolved, what [parseCSV] returns is decided by the
    events of the stream its handlers are registered on: while only rows
    have been delivered the promise stays pending; when the end of input
    follows the rows, it is resolved with exactly one transaction per row,
    in the order of the rows, each built from its own row (nothing
    filtered, nothing merged); when an ['error'] event of that stream
    follows the rows, it is rejected with that error, which carries none
    of the transactions built so far, whatever is delivered afterwards. *)
Theorem csv_events_decide_outcome (filePath label : string) (bank : BankId) (w w' : World)
    (rows : list (Z * RawRow)) :
  parseCSV_bank label = Some bank ->
  (csv_stream filePath w = (dataEvents rows, w') ->
     (parseCSV csv_stream filePath (Some label) w).1.1 = Pending) /\
  (forall t, csv_stream filePath w = ((dataEvents rows ++ [deliver t on_end])%list, w') ->
     (parseCSV csv_stream filePath (Some label) w).1.1 =
       Resolved (normalizedRows (BANK_MAPPINGS bank) label rows)) /\
  length (normalizedRows (BANK_MAPPINGS bank) label rows) = length rows /\
  map Tx.originalData (normalizedRows (BANK_MAPPINGS bank) label rows) = map snd rows /\
  (forall t e rest,
     csv_stream filePath w = ((dataEvents rows ++ deliver t (on_error e) :: rest)%list, w') ->
     (parseCSV csv_stream filePath (Some label) w).1.1 = Rejected e).
Proof.
  intros Hb. unfold normalizedRows. repeat split.
  - intros Hs. rewrite (parseCSV_selected _ _ bank), Hs by assumption. cbn.
    unfold parseCSV_consume. now rewrite handle_rows.
  - intros t Hs. rewrite (parseCSV_selected _ _ bank), Hs by assumption. cbn.
    unfold parseCSV_consume. now rewrite fold_left_app, handle_rows.
  - now rewrite length_map.
  - rewrite map_map. now apply map_ext.
  - intros t e rest Hs. rewrite (parseCSV_selected _ _ bank), Hs by assumption. cbn.
    unfold parseCSV_consume, promiseOf.
    rewrite fold_left_app, handle_rows. cbn.
    now rewrite (handle_rejected _ _ e).
Qed.

(** Once an uncaught error has ended the process, no later event changes
    that. *)
Lemma handle_aborted (fieldMappings : Mapping.t) (label : string) (e : Js.Error)
    (stream : list Delivery) (st : ParseState) :
  settlement st = AbortedBy e ->
  settlement (fold_left (parseCSV_handle fieldMappings label) stream st) = AbortedBy e.
Proof.
  revert st. induction stream as [|d stream IH]; intros st Hst; cbn; [assumption |].
  apply IH. unfold parseCSV_handle. destruct (event d); cbn; now rewrite ?Hst.
Qed.

(** C9 does not hold of every error of the row source.  [parseCSV]
    registers its ['error'] handler on the stream returned by [pipe] only;
    an error of the file read stream (the path is a directory, the disk
    fails) is not passed on by [pipe] and finds no handler.  When such an
    error follows the rows, the promise is not rejected, with that error or
    any other: it is left pending, the error is thrown as an uncaught
    exception, and whoever awaits the promise ends with the process, at
    status 1, without having seen the error. *)
Theorem C9_read_error_not_rejected (filePath label : string) (bank : BankId)
    (w w' : World) (rows : list (Z * RawRow)) (t : Z) (e : Js.Error)
    (rest : list Delivery) :
  parseCSV_bank label = Some bank ->
  csv_stream filePath w =
    ((dataEvents rows ++ deliver t (source_error e) :: rest)%list, w') ->
  (parseCSV csv_stream filePath (Some label) w).1.1 = Aborted e /\
  (forall e', (parseCSV csv_stream filePath (Some label) w).1.1 <> Rejected e') /\
  awaiting (parseCSV csv_stream filePath (Some label)) w =
    (Exit 1, w',
     [console_log ("Using " ++ bankKey bank ++
                   " field mappings for payment method: " ++ label);
      createReadStream filePath;
      uncaught_exception e]).
Proof.
  intros Hb Hs.
  assert (Hp : parseCSV csv_stream filePath (Some label) w =
               (Aborted e, w',
                [console_log ("Using " ++ bankKey bank ++
                              " field mappings for payment method: " ++ label);
                 createReadStream filePath])).
  { rewrite (parseCSV_selected _ _ bank), Hs by assumption. cbn [fst snd].
    f_equal. f_equal. unfold parseCSV_consume, promiseOf.
    rewrite fold_left_app, handle_rows. cbn [fold_left].
    now rewrite (handle_aborted _ _ e). }
  split; [now rewrite Hp |]. split; [rewrite Hp; discriminate |].
  unfold awaiting. now rewrite Hp.
Qed.

End ParseCSV.

(** A run of C1: "Chase Freedom" selects [chase], "Unsupported Card" is
    rejected by name. *)
Lemma C1_bank_resolution_witness :
  ciStartsWith "Chase Freedom" "chase" /\
  parseCSV_bank "Chase Freedom" = Some chase /\
  ~ ciStartsWith "Unsupported Card" "apple" /\
  (parseCSV Demo.csv_stream "chase.csv" (Some "Unsupported Card")
            (Demo.mkWorld 0 [])).1.1 =
    Rejected (Js.mkError
      "Unsupported payment method: Unsupported Card. Cannot determine bank type.").
Proof.
  assert (Hc : ciStartsWith "Chase Freedom" "chase")
    by now apply (startsWith_toLowerCase _ noCapital_chase).
  assert (Hn : forall p, noCapital p ->
                 Js.startsWith (Js.toLowerCase "Unsupported Card") p = false ->
                 ~ ciStartsWith "Unsupported Card" p).
  { intros p Hp Hf H. apply (startsWith_toLowerCase _ Hp) in H. congruence. }
  pose proof (C1_bank_resolution Demo.csv_stream "chase.csv" "Chase Freedom"
                (Demo.mkWorld 0 [])) as (H1 & _).
  pose proof (C1_bank_resolution Demo.csv_stream "chase.csv" "Unsupported Card"
                (Demo.mkWorld 0 [])) as (_ & _ & _ & H4).
  split; [exact Hc |]. split; [exact (proj1 (H1 Hc)) |].
  split; [now apply Hn; [apply noCapital_apple |] |].
  apply H4; apply Hn; try reflexivity;
    [apply noCapital_chase | apply noCapital_amex | apply noCapital_apple].
Defined.

(** A run of C7 on the label "Unsupported Card". *)
Lemma C7_rejects_before_opening_witness :
  ~ ciStartsWith "Unsupported Card" "chase" /\
  ~ ciStartsWith "Unsupported Card" "amex" /\
  ~ ciStartsWith "Unsupported Card" "apple" /\
  exists e,
    parseCSV Demo.csv_stream "chase.csv" (Some "Unsupported Card") (Demo.mkWorld 0 []) =
      (Rejected e, Demo.mkWorld 0 [], []) /\
    exists before after,
      Js.message e = before ++ "Unsupported payment method: Unsupported Card" ++ after.
Proof.
  assert (Hn : forall p, noCapital p ->
                 Js.startsWith (Js.toLowerCase "Unsupported Card") p = false ->
                 ~ ciStartsWith "Unsupported Card" p).
  { intros p Hp Hf H. apply (startsWith_toLowerCase _ Hp) in H. congruence. }
  assert (H1 := Hn _ noCapital_chase eq_refl).
  assert (H2 := Hn _ noCapital_amex eq_refl).
  assert (H3 := Hn _ noCapital_apple eq_refl).
  repeat (split; [assumption |]).
  destruct (C7_rejects_before_opening Demo.csv_stream "chase.csv" "Unsupported Card"
              (Demo.mkWorld 0 []) H1 H2 H3) as (e & He & _ & Hm).
  exists e. split; [exact He | exact Hm].
Defined.

(** The four lines of the demonstration file, parsed. *)
Lemma csv_events_decide_outcome_witness :
  parseCSV_bank "Chase Freedom" = Some chase /\
  Demo.csv_stream "chase.csv" (Demo.mkWorld 0 []) =
    ((dataEvents [(0%Z, Demo.chaseRow "2023-01-15" "AMAZON.COM" "-50.99");
                  (1%Z, Demo.chaseRow "2023-01-16" "DECLINED" "-4.95");
                  (2%Z, Demo.chaseRow "01/17/2023" "NETFLIX" "abc");
                  (3%Z, Demo.chaseRow "" "" "")] ++ [deliver 4 on_end])%list,
     Demo.mkWorld 5 []) /\
  (parseCSV Demo.csv_stream "chase.csv" (Some "Chase Freedom") (Demo.mkWorld 0 [])).1.1 =
    Resolved
      (normalizedRows (BANK_MAPPINGS chase) "Chase Freedom"
           [(0%Z, Demo.chaseRow "2023-01-15" "AMAZON.COM" "-50.99");
            (1%Z, Demo.chaseRow "2023-01-16" "DECLINED" "-4.95");
            (2%Z, Demo.chaseRow "01/17/2023" "NETFLIX" "abc");
            (3%Z, Demo.chaseRow "" "" "")]).
Proof.
  split; [reflexivity |]. split; [reflexivity |].
  destruct (csv_events_decide_outcome Demo.csv_stream "chase.csv" "Chase Freedom" chase
              (Demo.mkWorld 0 []) (Demo.mkWorld 5 [])
              [(0%Z, Demo.chaseRow "2023-01-15" "AMAZON.COM" "-50.99");
               (1%Z, Demo.chaseRow "2023-01-16" "DECLINED" "-4.95");
               (2%Z, Demo.chaseRow "01/17/2023" "NETFLIX" "abc");
               (3%Z, Demo.chaseRow "" "" "")] eq_refl) as (_ & Hend & _).
  apply (Hend 4%Z). reflexivity.
Defined.

(** C9 on a path that names a directory: the validator's probe of the
    path succeeds, the read stream fails with EISDIR, and the promise of
    [parseCSV] is not rejected; [validateAndUploadTransactions] does not
    throw the error and [main] does not print it: the process ends on the
    uncaught exception. *)
Lemma C9_read_error_not_rejected_witness :
  (Scenes.fs_access_directory "." (Demo.mkWorld 0 [])).1 = true /\
  (parseCSV Scenes.directory_stream "." (Some "Chase Freedom") (Demo.mkWorld 0 [])).1.1 =
    Aborted (Js.mkError "EISDIR: illegal operation on a directory, read") /\
  validateAndUploadTransactions Demo.Date_now JsDate.parseDateOnly Demo.process_env
    Scenes.fs_access_directory Scenes.directory_stream Demo.pages_create
    Scenes.directoryOptions (Demo.mkWorld 0 []) =
    (Exit 1, Demo.mkWorld 0 [],
     [console_log "just entered MAIN"; fs_access_probe ".";
      console_log "DEBUG START"; console_log_object (Some "secret") (Some "db-1");
      console_log "DEBUG END"; new_Client (Some "secret");
      console_log "Using chase field mappings for payment method: Chase Freedom";
      createReadStream ".";
      uncaught_exception (Js.mkError "EISDIR: illegal operation on a directory, read")]) /\
  main Demo.Date_now JsDate.parseDateOnly Demo.process_env
    Scenes.fs_access_directory Scenes.directory_stream Demo.pages_create
    Scenes.directoryOptions (Demo.mkWorld 0 []) =
    validateAndUploadTransactions Demo.Date_now JsDate.parseDateOnly Demo.process_env
      Scenes.fs_access_directory Scenes.directory_stream Demo.pages_create
      Scenes.directoryOptions (Demo.mkWorld 0 []).
Proof.
  split; [reflexivity |]. split; [| split; reflexivity].
  exact (proj1 (C9_read_error_not_rejected Scenes.directory_stream "." "Chase Freedom"
                  chase (Demo.mkWorld 0 []) (Demo.mkWorld 0 []) [] 0%Z
                  (Js.mkError "EISDIR: illegal operation on a directory, read") []
                  eq_refl eq_refl)).
Defined.

(** ** The uploader *)

Lemma isoDay_nonempty (t : Z) : JsDate.isoDay t <> "".
Proof.
  rewrite isoDay_eq, isoDatePart_eq. unfold JsDate.isoYear.
  destruct (_ && _); [| destruct (_ <? _)%Z];
    cbv [JsDate.digits String.append]; discriminate.
Qed.


Section Upload.

Context {World : Type}.
Variable Date_now : World -> Z.
Variable Date_parse : string -> option Z.
Variable pages_create : PageRequest -> World -> CreateOutcome * World.

Lemma after_after {A} (a b : list Event) (r : Completion A * World * list Event) :
  after a (after b r) = after (a ++ b) r.
Proof. destruct r as [[c w] t]. cbn. now rewrite app_assoc. Qed.

Lemma after_nil {A} (r : Completion A * World * list Event) : after [] r = r.
Proof. now destruct r as [[c w] t]. Qed.

Lemma formatDateToISO_falsy (dateString : option string) (w : World) :
  dateString = None \/ dateString = Some "" ->
  formatDateToISO Date_parse dateString w = (Normal None, w, []).
Proof. now intros [-> | ->]. Qed.

Lemma formatDateToISO_invalid (s : string) (w : World) :
  s <> "" -> Date_parse s = None ->
  formatDateToISO Date_parse (Some s) w =
    (Normal None, w,
     [console_warn ("Date parsing error for " ++ dquote ++ s ++ dquote ++ ":")
                   ("Invalid date: " ++ s)]).
Proof.
  intros Hs Hp. unfold formatDateToISO, Js.truthy.
  destruct (String.eqb_spec s ""); [contradiction |]. cbn.
  unfold tryCatch. now rewrite Hp.
Qed.

Lemma formatDateToISO_valid (s : string) (t : Z) (w : World) :
  s <> "" -> Date_parse s = Some t ->
  formatDateToISO Date_parse (Some s) w = (Normal (Some (JsDate.isoDay t)), w, []).
Proof.
  intros Hs Hp. unfold formatDateToISO, Js.truthy.
  destruct (String.eqb_spec s ""); [contradiction |]. cbn.
  unfold tryCatch. now rewrite Hp.
Qed.

Lemma pageRequest_falsy (databaseId prefix : string) (tx : Tx.t) (w : World) :
  Tx.date tx = None \/ Tx.date tx = Some "" ->
  pageRequest Date_now Date_parse databaseId prefix tx w =
    (Normal (requestWith databaseId prefix tx (JsDate.isoDay (Date_now w))), w, []).
Proof.
  intros H. unfold pageRequest, bind. now rewrite formatDateToISO_falsy.
Qed.

Lemma pageRequest_invalid (databaseId prefix : string) (tx : Tx.t) (s : string)
    (w : World) :
  Tx.date tx = Some s -> s <> "" -> Date_parse s = None ->
  pageRequest Date_now Date_parse databaseId prefix tx w =
    (Normal (requestWith databaseId prefix tx (JsDate.isoDay (Date_now w))), w,
     [console_warn ("Date parsing error for " ++ dquote ++ s ++ dquote ++ ":")
                   ("Invalid date: " ++ s)]).
Proof.
  intros Hd Hs Hp. unfold pageRequest, bind.
  now rewrite Hd, formatDateToISO_invalid.
Qed.

Lemma pageRequest_valid (databaseId prefix : string) (tx : Tx.t) (s : string)
    (t : Z) (w : World) :
  Tx.date tx = Some s -> s <> "" -> Date_parse s = Some t ->
  pageRequest Date_now Date_parse databaseId prefix tx w =
    (Normal (requestWith databaseId prefix tx (JsDate.isoDay t)), w, []).
Proof.
  intros Hd Hs Hp. unfold pageRequest, bind.
  rewrite Hd, (formatDateToISO_valid s t) by assumption.
  unfold Js.truthy. now destruct (String.eqb_spec (JsDate.isoDay t) "") as [He | _];
    [apply isoDay_nonempty in He |].
Qed.

(** Building the request never fails, leaves the world alone and submits
    nothing. *)
Lemma pageRequest_total (databaseId prefix : string) (tx : Tx.t) (w : World) :
  exists start trace,
    pageRequest Date_now Date_parse databaseId prefix tx w =
      (Normal (requestWith databaseId prefix tx start), w, trace) /\
    attempts trace = [].
Proof.
  destruct (Tx.date tx) as [s|] eqn:Hd.
  - destruct (String.eqb_spec s "") as [-> | Hs].
    + eexists _, _. split; [apply pageRequest_falsy; auto | reflexivity].
    + destruct (Date_parse s) as [t|] eqn:Hp.
      * eexists _, _. split; [now apply (pageRequest_valid _ _ _ s t) | reflexivity].
      * eexists _, _. split; [now apply (pageRequest_invalid _ _ _ s) | reflexivity].
  - eexists _, _. split; [apply pageRequest_falsy; auto | reflexivity].
Qed.

(** One turn of the loop: the request is built and submitted, the outcome
    is reported, and the turn completes normally either way. *)
Lemma uploadOne_run (databaseId prefix : string) (tx : Tx.t) (w : World)
    (request : PageRequest) (trace : list Event) :
  pageRequest Date_now Date_parse databaseId prefix tx w = (Normal request, w, trace) ->
  uploadOne Date_now Date_parse pages_create databaseId prefix tx w =
    (Normal tt, (pages_create request w).2,
     (trace ++ [pages_create_call request;
                reportOf prefix tx (pages_create request w).1])%list).
Proof.
  intros H. unfold uploadOne, tryCatch, bind. rewrite H.
  unfold await_pages_create, emit. cbn.
  destruct (pages_create request w) as [[id | e] w']; cbn;
    now rewrite ?app_nil_r, <- ?app_assoc.
Qed.

Lemma forOf_app {A} (body : A -> Eff World unit) (pre rest : list A) (w w1 : World)
    (t1 : list Event) :
  forOf pre body w = (Normal tt, w1, t1) ->
  forOf (pre ++ rest) body w = after t1 (forOf rest body w1).
Proof.
  revert w t1. induction pre as [|x pre IH]; intros w t1; cbn [forOf app].
  - intros [= -> <-]. now rewrite after_nil.
  - unfold bind. destruct (body x w) as [[[[] | e | n |] wa] ta]; try discriminate.
    destruct (forOf pre body wa) as [[c wb] tb] eqn:Hpre. cbn.
    intros [= -> -> <-]. rewrite (IH wa tb Hpre). apply after_after.
Qed.

Lemma attempts_app (t1 t2 : list Event) :
  attempts (t1 ++ t2) = (attempts t1 ++ attempts t2)%list.
Proof. apply omap_app. Qed.

Lemma attempts_turn (prefix : string) (tx : Tx.t) (request : PageRequest)
    (o : CreateOutcome) :
  attempts [pages_create_call request; reportOf prefix tx o] = [request].
Proof. now destruct o. Qed.

(** The loop completes normally and submits one request per transaction,
    in order, whatever the sink answers. *)
Lemma upload_loop (databaseId whoAmI : string) (txs : list Tx.t) (w : World) :
  exists w' t,
    forOf txs (uploadOne Date_now Date_parse pages_create databaseId (whoAmI ++ "'s ")) w =
      (Normal tt, w', t) /\
    Forall2 (isRequestFor databaseId whoAmI) txs (attempts t).
Proof.
  revert w. induction txs as [|tx txs IH]; intros w; cbn [forOf].
  - exists w, []. split; [reflexivity | constructor].
  - destruct (pageRequest_total databaseId (whoAmI ++ "'s ") tx w)
      as (start & trace & Hreq & Hnone).
    unfold bind. rewrite (uploadOne_run _ _ _ _ _ _ Hreq).
    destruct (IH (pages_create (requestWith databaseId (whoAmI ++ "'s ") tx start) w).2)
      as (w' & t & Hrun & Hall).
    rewrite Hrun. eexists _, _. split; [reflexivity |].
    rewrite !attempts_app, Hnone, attempts_turn. cbn.
    constructor; [now exists start | assumption].
Qed.


(** C6. Let the loop have handled the transactions [pre], and let the
    sink raise [e] for the request of the next transaction [tx].  Then the
    failure is reported on the console and the loop goes on: the whole
    call still completes normally, what follows the report in the trace is
    the handling of the remaining transactions [post], which submits one
    request for each of them, in order; over the whole batch, one request
    per transaction has been submitted, in order. *)
Theorem C6_upload_continues (databaseId whoAmI : string) (pre post : list Tx.t)
    (tx : Tx.t) (w w1 w2 : World) (t1 tk : list Event) (request : PageRequest)
    (e : Js.Error) :
  uploadToNotion Date_now Date_parse pages_create databaseId pre whoAmI w =
    (Normal tt, w1, t1) ->
  pageRequest Date_now Date_parse databaseId (whoAmI ++ "'s ") tx w1 =
    (Normal request, w1, tk) ->
  pages_create request w1 = (Raised e, w2) ->
  exists w' t',
    forOf post (uploadOne Date_now Date_parse pages_create databaseId (whoAmI ++ "'s ")) w2 =
      (Normal tt, w', t') /\
    uploadToNotion Date_now Date_parse pages_create databaseId (pre ++ tx :: post) whoAmI w =
      (Normal tt, w',
       (t1 ++ tk ++
        [pages_create_call request;
         console_error ("Failed to upload transaction: " ++ Js.message e)] ++ t')%list) /\
    Forall2 (isRequestFor databaseId whoAmI) post (attempts t') /\
    Forall2 (isRequestFor databaseId whoAmI) (pre ++ tx :: post)
      (attempts (t1 ++ tk ++
                 [pages_create_call request;
                  console_error ("Failed to upload transaction: " ++ Js.message e)] ++
                 t')%list).
Proof.
  intros Hpre Hreq Hraise.
  destruct (upload_loop databaseId whoAmI post w2) as (w' & t' & Hpost & Hall).
  exists w', t'. split; [exact Hpost |].
  unfold uploadToNotion, bind, emit in Hpre |- *. cbn in Hpre |- *.
  destruct (forOf pre _ w) as [[c wa] ta] eqn:Hloop. cbn in Hpre.
  injection Hpre as -> -> <-.
  assert (Hrun :
    forOf (pre ++ tx :: post)
      (uploadOne Date_now Date_parse pages_create databaseId (whoAmI ++ "'s ")) w =
    (Normal tt, w',
     (ta ++ tk ++
      [pages_create_call request;
       console_error ("Failed to upload transaction: " ++ Js.message e)] ++ t')%list)).
  { rewrite (forOf_app _ _ _ _ _ _ Hloop). cbn [forOf]. unfold bind.
    rewrite (uploadOne_run _ _ _ _ _ _ Hreq), Hraise. cbn.
    rewrite Hpost. cbn. now rewrite <- !app_assoc. }
  split; [now rewrite Hrun |]. split; [exact Hall |].
  destruct (upload_loop databaseId whoAmI (pre ++ tx :: post) w) as (w'' & t'' & Hall' & HF).
  rewrite Hrun in Hall'. injection Hall' as <- <-. exact HF.
Qed.

(** C8, as the program has it.  Handling a transaction never fails.  When
    the date is absent or empty, the record carries the current date and
    nothing is logged; when the date text is not empty and cannot be read
    as a date, the record carries the current date and one warning is
    logged; when the text can be read, the record carries a date, of the
    strict form YYYY-MM-DD whenever the year has four digits, and nothing
    is logged.  That date is the date of the text, reformatted, whenever
    [Date.parse] reads the text as the midnight (UTC) that starts a
    calendar date of a four-digit year, which is how the ISO form
    YYYY-MM-DD is read: a text already in that form is uploaded as it is.
    Nothing is said here of the date uploaded for a text that is read as
    another instant. *)
Theorem C8_record_date (databaseId prefix : string) (tx : Tx.t) (w : World) :
  (exists w' trace,
     uploadOne Date_now Date_parse pages_create databaseId prefix tx w =
       (Normal tt, w', trace)) /\
  (Tx.date tx = None \/ Tx.date tx = Some "" ->
     pageRequest Date_now Date_parse databaseId prefix tx w =
       (Normal (requestWith databaseId prefix tx (JsDate.isoDay (Date_now w))), w, [])) /\
  (forall s, Tx.date tx = Some s -> s <> "" -> Date_parse s = None ->
     pageRequest Date_now Date_parse databaseId prefix tx w =
       (Normal (requestWith databaseId prefix tx (JsDate.isoDay (Date_now w))), w,
        [console_warn ("Date parsing error for " ++ dquote ++ s ++ dquote ++ ":")
                      ("Invalid date: " ++ s)])) /\
  (forall s t, Tx.date tx = Some s -> s <> "" -> Date_parse s = Some t ->
     exists start,
       pageRequest Date_now Date_parse databaseId prefix tx w =
         (Normal (requestWith databaseId prefix tx start), w, []) /\
       ((0 <= JsDate.YearFromTime t <= 9999)%Z -> JsDate.isYYYYMMDD start = true)) /\
  (forall s y m d, Tx.date tx = Some s -> s <> "" ->
     (0 <= y <= 9999)%Z -> (1 <= m <= 12)%Z -> (1 <= d <= JsDate.daysInMonth y m)%Z ->
     Date_parse s = Some (JsDate.daysFromCivil y m d * JsDate.msPerDay)%Z ->
     pageRequest Date_now Date_parse databaseId prefix tx w =
       (Normal (requestWith databaseId prefix tx
                  (JsDate.digits 4 y ++ "-" ++ JsDate.digits 2 m ++ "-" ++
                   JsDate.digits 2 d)), w, [])) /\
  (forall s t, Tx.date tx = Some s -> JsDate.isYYYYMMDD s = true ->
     JsDate.parseDateOnly s = Some t -> Date_parse s = Some t ->
     pageRequest Date_now Date_parse databaseId prefix tx w =
       (Normal (requestWith databaseId prefix tx s), w, [])).
Proof.
  split; [| split; [| split; [| split; [| split]]]].
  - destruct (pageRequest_total databaseId prefix tx w) as (start & trace & Hreq & _).
    eexists _, _. apply (uploadOne_run _ _ _ _ _ _ Hreq).
  - apply pageRequest_falsy.
  - intros s Hd Hs Hp. now apply (pageRequest_invalid _ _ _ s).
  - intros s t Hd Hs Hp. exists (JsDate.isoDay t).
    split; [now apply (pageRequest_valid _ _ _ s t) | apply isoDay_strict].
  - intros s y m d Hd Hs Hy Hm Hday Hp.
    rewrite (pageRequest_valid _ _ _ s _ w Hd Hs Hp).
    now rewrite isoDay_midnight.
  - intros s t Hd Hiso Hp Hparse.
    assert (Hs : s <> "") by (intros ->; discriminate Hiso).
    rewrite (pageRequest_valid _ _ _ s t w Hd Hs Hparse).
    now rewrite (isoDay_parseDateOnly s t Hiso Hp).
Qed.

End Upload.

(** ** The option validator *)

Lemma truthy_or (a b : option string) :
  Js.truthy (Js.or a b) = Js.truthy a || Js.truthy b.
Proof. unfold Js.or. now destruct (Js.truthy a) eqn:Ha. Qed.

(** Each allowed payment method resolves to a bank. *)
Lemma allowed_resolves (pm : option string) :
  Js.includes ALLOWED_PAYMENT_METHODS pm = true ->
  exists label bank, pm = Some label /\ parseCSV_bank label = Some bank.
Proof.
  destruct pm as [s|]; [| discriminate].
  cbn [Js.includes existsb ALLOWED_PAYMENT_METHODS].
  repeat match goal with
         | |- context [String.eqb s ?x] =>
             destruct (String.eqb_spec s x) as [-> | _];
             [intros _; eexists _, _; split; reflexivity |]
         end.
  cbn [orb]. discriminate.
Qed.

Section Validate.

Context {World : Type}.
Variable Date_now : World -> Z.
Variable Date_parse : string -> option Z.
Variable process_env : World -> Env.
Variable fs_access : string -> World -> bool * World.
Variable csv_stream : string -> World -> list Delivery * World.
Variable pages_create : PageRequest -> World -> CreateOutcome * World.

Lemma after_exists {A} (t : list Event) (r : Completion A * World * list Event) :
  exists c w' t', after t r = (c, w', (t ++ t')%list).
Proof. destruct r as [[c w'] t']. now exists c, w', t'. Qed.

Lemma bind_emit {B} (ev : Event) (k : unit -> Eff World B) (w : World) :
  bind (emit ev) k w = after [ev] (k tt w).
Proof. reflexivity. Qed.

Lemma bind_read_env {B} (k : Env -> Eff World B) (w : World) :
  bind (read_env process_env) k w = k (process_env w) w.
Proof. unfold bind, read_env. now destruct (k (process_env w) w) as [[c w'] t]. Qed.

(** A gate [if (failed) throw e] followed by the rest of the function. *)
Lemma bind_gate {B} (failed : bool) (e : Js.Error) (k : unit -> Eff World B) (w : World) :
  bind (if failed then throw e else ret tt) k w =
    if failed then (Throw e, w, []) else k tt w.
Proof.
  destruct failed; [reflexivity |].
  unfold bind, ret. now destruct (k tt w) as [[c w'] t].
Qed.

(** The probe of the CSV path, with its [catch], followed by the rest. *)
Lemma bind_probe {B} (path : option string) (e : Js.Error)
    (k : unit -> Eff World B) (w : World) :
  bind (tryCatch (await_fs_access fs_access path) (fun _ => throw e)) k w =
    match path with
    | Some p =>
        if (fs_access p w).1
        then after [fs_access_probe p] (k tt (fs_access p w).2)
        else (Throw e, (fs_access p w).2, [fs_access_probe p])
    | None => (Throw e, w, [])
    end.
Proof.
  unfold bind, tryCatch, await_fs_access, throw.
  destruct path as [p|]; [| reflexivity].
  now destruct (fs_access p w) as [[] w1].
Qed.

(** Whatever follows it, a computation leaves its own events first. *)
Lemma bind_trace {A B} (m : Eff World A) (k : A -> Eff World B) (w : World) :
  exists c w' t', bind m k w = (c, w', ((m w).2 ++ t')%list).
Proof.
  unfold bind. destruct (m w) as [[[a | e | n |] w1] t1]; cbn [snd].
  - apply after_exists.
  - exists (Throw e), w1, []. now rewrite app_nil_r.
  - exists (Exit n), w1, []. now rewrite app_nil_r.
  - exists Never, w1, []. now rewrite app_nil_r.
Qed.

Lemma awaiting_trace {A} (call : World -> Promise A * World * list Event) (w : World) :
  exists t, (awaiting call w).2 = ((call w).2 ++ t)%list /\ attempts t = [].
Proof.
  unfold awaiting. destruct (call w) as [[[| a | e | e] w1] t1]; cbn;
    eexists; split; reflexivity.
Qed.

Ltac stop_at Hp :=
  split; [intros c [= <-]; unfold failure; now rewrite ?Hp | discriminate].

Ltac pass_gate Hp :=
  rewrite bind_gate, ?truthy_or;
  match goal with |- context [negb ?b] => destruct b eqn:? end;
  cbn [negb]; [| stop_at Hp].

(** The run of the validator, check by check: it stops at the first check
    that fails, with that check's error; when none fails it creates the
    client and calls [parseCSV], which resolves the bank and opens the
    file. *)
Lemma validation_run (options : Options) (w : World) :
  (forall c,
     firstFailing (probe fs_access options w).1.1 options
                  (process_env (probe fs_access options w).1.2) = Some c ->
     validateAndUploadTransactions Date_now Date_parse process_env fs_access
       csv_stream pages_create options w =
       (Throw (failure options c), (probe fs_access options w).1.2,
        eventsUpTo c (probe fs_access options w).2 options
                   (process_env (probe fs_access options w).1.2))) /\
  (firstFailing (probe fs_access options w).1.1 options
                (process_env (probe fs_access options w).1.2) = None ->
   exists p label bank c w' t,
     csvFilePath options = Some p /\
     paymentMethod options = Some label /\
     parseCSV_bank label = Some bank /\
     validateAndUploadTransactions Date_now Date_parse process_env fs_access
       csv_stream pages_create options w =
       (c, w',
        (console_log "just entered MAIN" :: (probe fs_access options w).2 ++
         debugEvents options (process_env (probe fs_access options w).1.2) ++
         [new_Client (Js.or (notionApiKey options)
                            (NOTION_API_KEY (process_env (probe fs_access options w).1.2)));
          console_log ("Using " ++ bankKey bank ++
                       " field mappings for payment method: " ++ label);
          createReadStream p] ++ t)%list)).
Proof.
  unfold validateAndUploadTransactions.
  rewrite bind_emit, bind_probe.
  unfold probe, firstFailing, precedence, holds, eventsUpTo, debugEvents.
  destruct (csvFilePath options) as [p|] eqn:Hp; cbn [find negb fst snd];
    [| stop_at Hp].
  destruct (fs_access p w) as [ok w1]; cbn [fst snd].
  destruct ok; cbn [negb]; [| stop_at Hp].
  rewrite bind_read_env, !bind_emit, !after_after.
  do 5 pass_gate Hp.
  split; [discriminate | intros _].
  match goal with H : Js.includes ALLOWED_PAYMENT_METHODS _ = true |- _ =>
    destruct (allowed_resolves _ H) as (label & bank & Hpm & Hbank) end.
  rewrite bind_emit, after_after.
  match goal with |- context [bind ?m ?k w1] =>
    destruct (bind_trace m k w1) as (c & w' & t' & ->) end.
  match goal with |- context [(awaiting ?call w1).2] =>
    destruct (awaiting_trace call w1) as (t0 & -> & _) end.
  rewrite Hpm. cbn [Js.show].
  rewrite (parseCSV_selected csv_stream p label bank w1 Hbank). cbn [snd after].
  exists p, label, bank, c, w', (t0 ++ t')%list. repeat split. f_equal.
  cbn. now rewrite <- ?app_assoc.
Qed.

(** A gate of [main]: [if (failed) { console.error(line); process.exit(1) }]. *)
Lemma bind_exit_gate {B} (failed : bool) (line : string) (k : unit -> Eff World B)
    (w : World) :
  bind (if failed then bind (emit (console_error line)) (fun _ => process_exit 1)
        else ret tt) k w =
    if failed then (Exit 1, w, [console_error line]) else k tt w.
Proof.
  destruct failed; [reflexivity |].
  unfold bind, ret. now destruct (k tt w) as [[c w'] t].
Qed.

Lemma bind_exit_probe {B} (path : option string) (line : string)
    (k : unit -> Eff World B) (w : World) :
  bind (tryCatch (await_fs_access fs_access path)
          (fun _ => bind (emit (console_error line)) (fun _ => process_exit 1))) k w =
    match path with
    | Some p =>
        if (fs_access p w).1
        then after [fs_access_probe p] (k tt (fs_access p w).2)
        else (Exit 1, (fs_access p w).2, [fs_access_probe p; console_error line])
    | None => (Exit 1, w, [console_error line])
    end.
Proof.
  unfold bind, tryCatch, await_fs_access, process_exit, emit.
  destruct path as [p|]; [| reflexivity].
  now destruct (fs_access p w) as [[] w1].
Qed.

Lemma tryCatch_exit {A} (m : Eff World A) (h : Js.Error -> Eff World A) (w w' : World)
    (n : Z) (t : list Event) :
  m w = (Exit n, w', t) -> tryCatch m h w = (Exit n, w', t).
Proof. intros H. unfold tryCatch. now rewrite H. Qed.

(** The entry point of [src/index.js] stops at the same first failing
    check as the validator: it prints that check's message after "Error: "
    and ends the process with status 1. *)
Lemma main_validation_precedence (options : Options) (w : World) (c : Check) :
  firstFailing (probe fs_access options w).1.1 options
               (process_env (probe fs_access options w).1.2) = Some c ->
  main Date_now Date_parse process_env fs_access csv_stream pages_create options w =
    (Exit 1, (probe fs_access options w).1.2,
     (eventsUpTo c (probe fs_access options w).2 options
                 (process_env (probe fs_access options w).1.2) ++
      [console_error ("Error: " ++ Js.message (failure options c))])%list).
Proof.
  unfold main. rewrite bind_emit. intros Hc.
  match goal with |- after _ (tryCatch ?m ?h w) = _ =>
    enough (Hm : m w =
      (Exit 1, (probe fs_access options w).1.2,
       tl (eventsUpTo c (probe fs_access options w).2 options
                      (process_env (probe fs_access options w).1.2) ++
           [console_error ("Error: " ++ Js.message (failure options c))])%list))
      by (rewrite (tryCatch_exit _ _ _ _ _ _ Hm); now destruct c)
  end.
  revert Hc. rewrite bind_exit_probe.
  unfold probe, firstFailing, precedence, holds, eventsUpTo, debugEvents.
  destruct (csvFilePath options) as [p|] eqn:Hp; cbn [find negb fst snd];
    [| intros [= <-]; unfold failure; now rewrite Hp].
  destruct (fs_access p w) as [ok w1]; cbn [fst snd].
  destruct ok; cbn [negb]; [| intros [= <-]; unfold failure; now rewrite Hp].
  rewrite bind_read_env, !bind_emit, !after_after.
  do 5 (rewrite bind_exit_gate, ?truthy_or;
        match goal with |- context [negb ?b] => destruct b eqn:? end;
        cbn [negb]; [| now intros [= <-]]).
  discriminate.
Qed.

(** C4. The validator checks, in this order: that the CSV path is
    readable, that an API key is given, that a database id is given, that
    an identity is given, that the identity is one of "Alli" and "Justin",
    and that the payment method is one of the five allowed ones.  The call
    throws the error of the first check that fails, and at that point
    nothing more has happened than the entry line, the probe of the path
    and, past the probe, the three debugging lines: no client has been
    created and no file opened.  When no check fails the run goes on and
    creates the client. *)
Theorem C4_validation_precedence (options : Options) (w : World) :
  precedence = [CsvReadable; ApiKeyPresent; DatabaseIdPresent; IdentityPresent;
                IdentityAllowed; PaymentMethodAllowed] /\
  (forall c,
     firstFailing (probe fs_access options w).1.1 options
                  (process_env (probe fs_access options w).1.2) = Some c ->
     validateAndUploadTransactions Date_now Date_parse process_env fs_access
       csv_stream pages_create options w =
       (Throw (failure options c), (probe fs_access options w).1.2,
        eventsUpTo c (probe fs_access options w).2 options
                   (process_env (probe fs_access options w).1.2))) /\
  (firstFailing (probe fs_access options w).1.1 options
                (process_env (probe fs_access options w).1.2) = None ->
   exists c w' t,
     validateAndUploadTransactions Date_now Date_parse process_env fs_access
       csv_stream pages_create options w =
       (c, w',
        (console_log "just entered MAIN" :: (probe fs_access options w).2 ++
         debugEvents options (process_env (probe fs_access options w).1.2) ++
         [new_Client (Js.or (notionApiKey options)
                            (NOTION_API_KEY (process_env (probe fs_access options w).1.2)))] ++
         t)%list)).
Proof.
  split; [reflexivity |].
  destruct (validation_run options w) as [Hfail Hpass]. split; [exact Hfail |].
  intros Hnone. destruct (Hpass Hnone) as (p & label & bank & c & w' & t & _ & _ & _ & Hrun).
  eexists c, w', _. rewrite Hrun. reflexivity.
Qed.

(** C10. Each of the five allowed payment methods starts, case ignored,
    with "chase", "amex" or "apple".  Hence, when no check of the
    validator fails, the payment method is a label for which [parseCSV]
    resolves a bank: the call of [parseCSV] that follows goes on with that
    bank's mapping instead of rejecting, and the run opens the CSV
    file. *)
Theorem C10_allowed_methods_resolve (options : Options) (w : World) :
  Forall (fun pm => ciStartsWith pm "chase" \/ ciStartsWith pm "amex" \/
                    ciStartsWith pm "apple") ALLOWED_PAYMENT_METHODS /\
  (firstFailing (probe fs_access options w).1.1 options
                (process_env (probe fs_access options w).1.2) = None ->
   exists p label bank,
     csvFilePath options = Some p /\
     paymentMethod options = Some label /\
     parseCSV_bank label = Some bank /\
     (forall filePath w0,
        (parseCSV csv_stream filePath (paymentMethod options) w0).1.1 =
          parseCSV_consume (BANK_MAPPINGS bank) label (csv_stream filePath w0).1) /\
     createReadStream p ∈
       (validateAndUploadTransactions Date_now Date_parse process_env fs_access
          csv_stream pages_create options w).2).
Proof.
  split.
  - unfold ALLOWED_PAYMENT_METHODS.
    repeat (constructor;
            [first [left; now apply (startsWith_toLowerCase _ noCapital_chase)
                   | right; left; now apply (startsWith_toLowerCase _ noCapital_amex)
                   | right; right; now apply (startsWith_toLowerCase _ noCapital_apple)] |]).
    constructor.
  - intros Hnone.
    destruct (validation_run options w) as [_ Hpass].
    destruct (Hpass Hnone) as (p & label & bank & c & w' & t & Hp & Hpm & Hbank & Hrun).
    exists p, label, bank. repeat split; try assumption.
    + intros filePath w0. rewrite Hpm. now rewrite (parseCSV_selected _ _ _ bank).
    + rewrite Hrun. cbn [snd].
      apply elem_of_cons; right. apply elem_of_app; right.
      apply elem_of_app; right. apply elem_of_app; left.
      do 2 apply list_elem_of_further. apply list_elem_of_here.
Qed.

End Validate.

(** ** Runs in the demonstration world *)

(** A run of C4: without an API key the call stops at the second check,
    after the probe and the debugging lines. *)
Lemma C4_validation_precedence_witness :
  firstFailing (probe Demo.fs_access Demo.keyless (Demo.mkWorld 0 [])).1.1 Demo.keyless
    (Demo.process_env (probe Demo.fs_access Demo.keyless (Demo.mkWorld 0 [])).1.2) =
    Some ApiKeyPresent /\
  Demo.run Demo.keyless (Demo.mkWorld 0 []) =
    (Throw (Js.mkError "Notion API key is required. Provide it via --notion-api-key option or NOTION_API_KEY env var."),
     Demo.mkWorld 0 [],
     [console_log "just entered MAIN"; fs_access_probe "chase.csv";
      console_log "DEBUG START"; console_log_object None (Some "db-1");
      console_log "DEBUG END"]).
Proof.
  split; [reflexivity |].
  exact (proj1 (proj2 (C4_validation_precedence Demo.Date_now JsDate.parseDateOnly
                         Demo.process_env Demo.fs_access Demo.csv_stream
                         Demo.pages_create Demo.keyless (Demo.mkWorld 0 [])))
               ApiKeyPresent eq_refl).
Defined.

(** A run of C10: the demonstration options pass every check, and the run
    opens the CSV file. *)
Lemma C10_allowed_methods_resolve_witness :
  firstFailing (probe Demo.fs_access Demo.options (Demo.mkWorld 0 [])).1.1 Demo.options
    (Demo.process_env (probe Demo.fs_access Demo.options (Demo.mkWorld 0 [])).1.2) = None /\
  parseCSV_bank "Chase Freedom" = Some chase /\
  createReadStream "chase.csv" ∈ (Demo.run Demo.options (Demo.mkWorld 0 [])).2.
Proof.
  split; [reflexivity |]. split; [reflexivity |].
  destruct (proj2 (C10_allowed_methods_resolve Demo.Date_now JsDate.parseDateOnly
                     Demo.process_env Demo.fs_access Demo.csv_stream
                     Demo.pages_create Demo.options (Demo.mkWorld 0 [])) eq_refl)
    as (p & label & bank & [= <-] & _ & _ & _ & Hin).
  exact Hin.
Defined.



(** A run of C6: the sink declines the second of three transactions; the
    failure is reported and the third is still submitted. *)
Lemma C6_upload_continues_witness :
  uploadToNotion Demo.Date_now JsDate.parseDateOnly Demo.pages_create "db-1"
    [Demo.amazon] "Alli" (Demo.mkWorld 0 []) =
    (Normal tt,
     Demo.mkWorld 100 [requestWith "db-1" "Alli's " Demo.amazon "2023-01-15"],
     [console_log "Uploading transactions to Notion...";
      pages_create_call (requestWith "db-1" "Alli's " Demo.amazon "2023-01-15");
      reportOf "Alli's " Demo.amazon (Created "0")]) /\
  Demo.pages_create (requestWith "db-1" "Alli's " Demo.declined "2023-01-16")
    (Demo.mkWorld 100 [requestWith "db-1" "Alli's " Demo.amazon "2023-01-15"]) =
    (Raised (Js.mkError "validation_error"),
     Demo.mkWorld 200 [requestWith "db-1" "Alli's " Demo.amazon "2023-01-15"]) /\
  exists w' t',
    uploadToNotion Demo.Date_now JsDate.parseDateOnly Demo.pages_create "db-1"
      ([Demo.amazon] ++ Demo.declined :: [Demo.netflix]) "Alli" (Demo.mkWorld 0 []) =
      (Normal tt, w',
       ([console_log "Uploading transactions to Notion...";
         pages_create_call (requestWith "db-1" "Alli's " Demo.amazon "2023-01-15");
         reportOf "Alli's " Demo.amazon (Created "0")] ++ [] ++
        [pages_create_call (requestWith "db-1" "Alli's " Demo.declined "2023-01-16");
         console_error "Failed to upload transaction: validation_error"] ++ t')%list) /\
    Forall2 (isRequestFor "db-1" "Alli") [Demo.netflix] (attempts t').
Proof.
  assert (H1 : uploadToNotion Demo.Date_now JsDate.parseDateOnly Demo.pages_create "db-1"
                 [Demo.amazon] "Alli" (Demo.mkWorld 0 []) =
               (Normal tt,
                Demo.mkWorld 100 [requestWith "db-1" "Alli's " Demo.amazon "2023-01-15"],
                [console_log "Uploading transactions to Notion...";
                 pages_create_call (requestWith "db-1" "Alli's " Demo.amazon "2023-01-15");
                 reportOf "Alli's " Demo.amazon (Created "0")])) by reflexivity.
  assert (H3 : Demo.pages_create (requestWith "db-1" "Alli's " Demo.declined "2023-01-16")
                 (Demo.mkWorld 100 [requestWith "db-1" "Alli's " Demo.amazon "2023-01-15"]) =
               (Raised (Js.mkError "validation_error"),
                Demo.mkWorld 200 [requestWith "db-1" "Alli's " Demo.amazon "2023-01-15"]))
    by reflexivity.
  split; [exact H1 |]. split; [exact H3 |].
  destruct (C6_upload_continues Demo.Date_now JsDate.parseDateOnly Demo.pages_create
              "db-1" "Alli" [Demo.amazon] [Demo.netflix] Demo.declined
              _ _ _ _ [] _ _ H1 eq_refl H3) as (w' & t' & _ & Hrun & Hall & _).
  exists w', t'. split; [exact Hrun | exact Hall].
Defined.

(** A run of C8: the date "2023-01-15" is read as the midnight that
    starts 15 January 2023 and is uploaded as it is. *)
Lemma C8_record_date_witness :
  Tx.date Demo.amazon = Some "2023-01-15" /\
  JsDate.parseDateOnly "2023-01-15" =
    Some (JsDate.daysFromCivil 2023 1 15 * JsDate.msPerDay)%Z /\
  pageRequest Demo.Date_now JsDate.parseDateOnly "db-1" "Alli's " Demo.amazon
    (Demo.mkWorld 0 []) =
    (Normal (requestWith "db-1" "Alli's " Demo.amazon "2023-01-15"),
     Demo.mkWorld 0 [], []) /\
  JsDate.isYYYYMMDD "2023-01-15" = true.
Proof.
  destruct (C8_record_date Demo.Date_now JsDate.parseDateOnly Demo.pages_create
              "db-1" "Alli's " Demo.amazon (Demo.mkWorld 0 []))
    as (_ & _ & _ & _ & Hmidnight & _).
  split; [reflexivity |]. split; [reflexivity |]. split; [| reflexivity].
  exact (Hmidnight "2023-01-15" 2023%Z 1%Z 15%Z eq_refl ltac:(discriminate)
           ltac:(lia) ltac:(lia) ltac:(vm_compute; split; discriminate) eq_refl).
Defined.

(** C8 as it was stated fails twice.  A transaction without a date is
    given the current date, but no warning is logged for it; and the date
    text "+010000-01-01", which denotes 1 January of the year 10000, is
    uploaded as "+010000-01-01", which is not of the form YYYY-MM-DD. *)
Lemma C8_counterexample :
  (Tx.date Demo.undated = None /\
   exists w' request report,
     uploadOne Demo.Date_now JsDate.parseDateOnly Demo.pages_create "db-1" "Alli's "
       Demo.undated (Demo.mkWorld 1673740800000 []) =
       (Normal tt, w', [pages_create_call request; report]) /\
     Date_start request = "2023-01-15" /\
     report = reportOf "Alli's " Demo.undated (Created "0")) /\
  (JsDate.parseDateOnly "+010000-01-01" = Some 253402300800000%Z /\
   exists request,
     pageRequest Demo.Date_now JsDate.parseDateOnly "db-1" "Alli's " Demo.farFuture
       (Demo.mkWorld 0 []) = (Normal request, Demo.mkWorld 0 [], []) /\
     Date_start request = "+010000-01-01" /\
     JsDate.isYYYYMMDD (Date_start request) = false).
Proof.
  split.
  - split; [reflexivity |]. eexists _, _, _.
    split; [vm_compute; reflexivity |]. split; reflexivity.
  - split; [reflexivity |]. eexists.
    split; [vm_compute; reflexivity |]. split; reflexivity.
Qed.

(* ===================================================================== *)
(** * Part III: further properties of the program                         *)
(* ===================================================================== *)

(** ** From the rows to the records *)

Lemma orElse_nonempty (v : option string) (d : string) : d <> "" -> Js.orElse v d <> "".
Proof.
  intros Hd. unfold Js.orElse. destruct v as [s|]; [| assumption].
  now destruct (String.eqb_spec s "").
Qed.

Lemma filled_normalize (fieldMappings : Mapping.t) (label : string) (now : Z)
    (data : RawRow) :
  filled label (parseCSV_normalize fieldMappings label now data).
Proof.
  unfold filled, parseCSV_normalize; cbn. repeat split.
  - eexists. split; [reflexivity |]. unfold Js.orElse.
    destruct (data !! _) as [v|]; [| discriminate].
    now destruct (String.eqb_spec v "").
  - eexists. split; [reflexivity |]. unfold Js.orElse.
    destruct (data !! _) as [v|]; [| discriminate].
    now destruct (String.eqb_spec v "").
  - eexists. split; [reflexivity |]. unfold Js.orElse.
    destruct (data !! _) as [v|]; [| apply isoDay_nonempty].
    destruct (String.eqb_spec v ""); [apply isoDay_nonempty | assumption].
Qed.

(** The handlers keep every transaction collected so far filled. *)
Lemma handle_filled (fieldMappings : Mapping.t) (label : string)
    (stream : list Delivery) (st : ParseState) :
  Forall (filled label) (results st) ->
  Forall (filled label)
    (results (fold_left (parseCSV_handle fieldMappings label) stream st)).
Proof.
  revert st. induction stream as [|d stream IH]; intros st Hst; cbn [fold_left];
    [assumption |].
  apply IH. unfold parseCSV_handle. destruct (event d); simpl results; [| assumption ..].
  apply Forall_app. split; [assumption |].
  constructor; [apply filled_normalize | constructor].
Qed.

Section Parsed.

Context {World : Type}.
Variable csv_stream : string -> World -> list Delivery * World.

(** Whatever the CSV stream delivers, and in whatever order, the
    transactions [parseCSV] resolves with are all filled: description,
    amount and date are non-empty texts (a value of the row or a
    default), and the payment method is the label given by the caller. *)
Theorem parsed_transactions_filled (filePath label : string) (w : World)
    (txs : list Tx.t) :
  (parseCSV csv_stream filePath (Some label) w).1.1 = Resolved txs ->
  Forall (filled label) txs.
Proof.
  unfold parseCSV. destruct (parseCSV_bank label) as [bank|]; [| discriminate].
  destruct (csv_stream filePath w) as [stream w']. cbn [fst].
  unfold parseCSV_consume, promiseOf.
  pose proof (handle_filled (BANK_MAPPINGS bank) label stream (mkParseState [] Unsettled)
                (List.Forall_nil _)) as Hall.
  destruct (settlement _); try discriminate. now intros [= <-].
Qed.

End Parsed.

Lemma orElse_orElse (v : option string) (d d' : string) :
  d <> "" -> Js.orElse (Some (Js.orElse v d)) d' = Js.orElse v d.
Proof. intros Hd. apply orElse_truthy. now apply orElse_nonempty. Qed.

Section RowToRecord.

Context {World : Type}.
Variable Date_now : World -> Z.
Variable Date_parse : string -> option Z.

(** From a CSV row to its record.  For a transaction built by [parseCSV]
    under a non-empty label, the uploader's own defaults ("Unknown
    Transaction", "Unknown Card", 0 for a missing amount) never apply: the
    title is the row's description or "Unknown", the number is that of the
    row's amount column, the payment method is the prefix followed by the
    label.  The stored date text is never empty, so it is always handed to
    the date parser: when it can be read the record carries the calendar
    date of the instant it denotes, otherwise a warning is logged and the
    record carries the current date. *)
Theorem row_to_record (databaseId prefix label : string) (fieldMappings : Mapping.t)
    (now : Z) (data : RawRow) (w : World) :
  label <> "" ->
  (forall t, Date_parse (dateTextOfRow fieldMappings now data) = Some t ->
     pageRequest Date_now Date_parse databaseId prefix
       (parseCSV_normalize fieldMappings label now data) w =
       (Normal (recordOfRow databaseId prefix fieldMappings label data (JsDate.isoDay t)),
        w, [])) /\
  (Date_parse (dateTextOfRow fieldMappings now data) = None ->
     pageRequest Date_now Date_parse databaseId prefix
       (parseCSV_normalize fieldMappings label now data) w =
       (Normal (recordOfRow databaseId prefix fieldMappings label data
                  (JsDate.isoDay (Date_now w))),
        w,
        [console_warn ("Date parsing error for " ++ dquote ++
                       dateTextOfRow fieldMappings now data ++ dquote ++ ":")
                      ("Invalid date: " ++ dateTextOfRow fieldMappings now data)])).
Proof.
  intros Hlabel.
  assert (Hdt : dateTextOfRow fieldMappings now data <> "").
  { unfold dateTextOfRow, Js.orElse. destruct (data !! _) as [v|]; [| apply isoDay_nonempty].
    destruct (String.eqb_spec v ""); [apply isoDay_nonempty | assumption]. }
  assert (Hreq : forall start,
            requestWith databaseId prefix
              (parseCSV_normalize fieldMappings label now data) start =
            recordOfRow databaseId prefix fieldMappings label data start).
  { intros start. unfold requestWith, recordOfRow, parseCSV_normalize, amountNumber.
    cbn [Tx.description Tx.amount Tx.paymentMethod].
    rewrite !orElse_orElse by discriminate. now rewrite orElse_truthy. }
  split.
  - intros t Hp.
    rewrite (pageRequest_valid Date_now Date_parse databaseId prefix
               (parseCSV_normalize fieldMappings label now data)
               (dateTextOfRow fieldMappings now data) t w eq_refl Hdt Hp).
    now rewrite Hreq.
  - intros Hp.
    rewrite (pageRequest_invalid Date_now Date_parse databaseId prefix
               (parseCSV_normalize fieldMappings label now data)
               (dateTextOfRow fieldMappings now data) w eq_refl Hdt Hp).
    now rewrite Hreq.
Qed.

End RowToRecord.

(** ** The batch submitted by [uploadToNotion] *)

Lemma append_nonempty_r (a b : string) : b <> "" -> (a ++ b)%string <> "".
Proof.
  intros Hb. destruct a as [|c a]; cbv [String.append]; fold String.append;
    [assumption | discriminate].
Qed.

Lemma attempts_log (line : string) (t : list Event) :
  attempts (console_log line :: t) = attempts t.
Proof. reflexivity. Qed.

Lemma Math_abs_unsigned (x : JsNum.JSNumber) : unsigned (JsNum.Math_abs x).
Proof. now destruct x. Qed.

Section Batch.

Context {World : Type}.
Variable Date_now : World -> Z.
Variable Date_parse : string -> option Z.
Variable pages_create : PageRequest -> World -> CreateOutcome * World.

(** The date of a request is always the calendar date of some instant:
    of the one the date text denotes, or of the current one. *)
Lemma pageRequest_dated (databaseId prefix : string) (tx : Tx.t) (w : World) :
  exists t trace,
    pageRequest Date_now Date_parse databaseId prefix tx w =
      (Normal (requestWith databaseId prefix tx (JsDate.isoDay t)), w, trace) /\
    attempts trace = [].
Proof.
  destruct (Tx.date tx) as [s|] eqn:Hd.
  - destruct (String.eqb_spec s "") as [-> | Hs].
    + exists (Date_now w), []. split; [apply pageRequest_falsy; auto | reflexivity].
    + destruct (Date_parse s) as [t|] eqn:Hp.
      * exists t, []. split; [now apply (pageRequest_valid _ _ _ _ _ s t) | reflexivity].
      * eexists (Date_now w), _.
        split; [now apply (pageRequest_invalid _ _ _ _ _ s) | reflexivity].
  - exists (Date_now w), []. split; [apply pageRequest_falsy; auto | reflexivity].
Qed.

(** The loop, turn by turn: it completes normally, each transaction gives
    one request carrying the date of some instant, and the world it leaves
    is the one the sink leaves after these requests, one after the other. *)
Lemma upload_loop_dated (databaseId prefix : string) (txs : list Tx.t) (w : World) :
  exists w' t,
    forOf txs (uploadOne Date_now Date_parse pages_create databaseId prefix) w =
      (Normal tt, w', t) /\
    Forall2 (fun tx r => exists i, r = requestWith databaseId prefix tx (JsDate.isoDay i))
            txs (attempts t) /\
    w' = submitAll pages_create (attempts t) w.
Proof.
  revert w. induction txs as [|tx txs IH]; intros w; cbn [forOf].
  - exists w, []. repeat split. constructor.
  - destruct (pageRequest_dated databaseId prefix tx w) as (i & trace & Hreq & Hnone).
    unfold bind. rewrite (uploadOne_run Date_now Date_parse pages_create _ _ _ _ _ _ Hreq).
    destruct (IH (pages_create (requestWith databaseId prefix tx (JsDate.isoDay i)) w).2)
      as (w' & t & Hrun & Hall & Hw).
    rewrite Hrun. eexists _, _. split; [reflexivity |].
    rewrite !attempts_app, Hnone, attempts_turn. cbn [app]. split.
    + constructor; [now exists i | assumption].
    + exact Hw.
Qed.

(** Every record of a batch is complete: it names the given database, has
    the status "Requires Audit", a payment method that starts with the
    identity followed by "'s " and a non-empty card name, a non-empty
    title, a non-empty date, and a number without a negative sign. *)
Theorem batch_records_complete (databaseId whoAmI : string) (txs : list Tx.t)
    (w : World) :
  Forall (fun r =>
            parent_database_id r = databaseId /\
            Status_name r = "Requires Audit" /\
            (exists card, Payment_Method_name r = whoAmI ++ "'s " ++ card /\ card <> "") /\
            Expense_content r <> "" /\
            Date_start r <> "" /\
            unsigned (Total_Amount r))
    (attempts (uploadToNotion Date_now Date_parse pages_create databaseId txs whoAmI w).2).
Proof.
  unfold uploadToNotion. rewrite bind_emit.
  destruct (upload_loop_dated databaseId (whoAmI ++ "'s ") txs w) as (w' & t & Hrun & Hall & _).
  rewrite Hrun. cbn [after snd app]. rewrite attempts_log.
  clear Hrun. revert Hall. generalize (attempts t). intros rs Hall.
  induction Hall as [|tx r txs rs (i & ->) _ IH]; [constructor |].
  constructor; [| exact IH]. cbn. repeat split.
  - exists (Js.orElse (Tx.paymentMethod tx) "Unknown Card").
    split; [| now apply orElse_nonempty].
    clear. induction whoAmI as [|c s IHs]; cbn; [reflexivity |].
    cbv [String.append] in *; fold String.append in *. now rewrite IHs.
  - now apply orElse_nonempty.
  - apply isoDay_nonempty.
  - apply Math_abs_unsigned.
Qed.

(** [uploadToNotion] always returns normally, submits exactly one request
    per transaction, and changes the world only through the sink: the
    world it leaves is the one the sink leaves after the submitted
    requests, taken one after the other. *)
Theorem batch_is_sequential (databaseId whoAmI : string) (txs : list Tx.t) (w : World) :
  (uploadToNotion Date_now Date_parse pages_create databaseId txs whoAmI w).1.1 = Normal tt /\
  length (attempts (uploadToNotion Date_now Date_parse pages_create databaseId txs whoAmI w).2) =
    length txs /\
  (uploadToNotion Date_now Date_parse pages_create databaseId txs whoAmI w).1.2 =
    submitAll pages_create
      (attempts (uploadToNotion Date_now Date_parse pages_create databaseId txs whoAmI w).2) w.
Proof.
  unfold uploadToNotion. rewrite bind_emit.
  destruct (upload_loop_dated databaseId (whoAmI ++ "'s ") txs w) as (w' & t & Hrun & Hall & Hw).
  rewrite Hrun. cbn [after fst snd app]. rewrite attempts_log.
  repeat split; [| exact Hw].
  symmetry. exact (Forall2_length _ _ _ Hall).
Qed.

End Batch.

(** ** Whole runs of [validateAndUploadTransactions] and [main] *)

Section Runs.

Context {World : Type}.
Variable Date_now : World -> Z.
Variable Date_parse : string -> option Z.
Variable process_env : World -> Env.
Variable fs_access : string -> World -> bool * World.
Variable csv_stream : string -> World -> list Delivery * World.
Variable pages_create : PageRequest -> World -> CreateOutcome * World.

Lemma tryCatch_catchAll (m : Eff World unit) (w : World) :
  tryCatch m
    (fun error => bind (emit (console_error ("Error: " ++ Js.message error)))
                       (fun _ => process_exit 1)) w =
  catchAll (m w).
Proof. unfold tryCatch, catchAll. now destruct (m w) as [[[[] | e | n |] w1] t1]. Qed.

Ltac fails_none := intros [=].

(** When no check fails, both entry points have printed the entry line,
    probed the path, printed the debugging lines and created the client;
    what remains is to await [parseCSV] and to process its result. *)
Lemma runs_validated (options : Options) (w : World) :
  firstFailing (probe fs_access options w).1.1 options
               (process_env (probe fs_access options w).1.2) = None ->
  exists p label bank,
    csvFilePath options = Some p /\
    paymentMethod options = Some label /\
    parseCSV_bank label = Some bank /\
    Js.includes ALLOWED_USERS
      (Js.or (whoAmI options) (WHO_AM_I (process_env (fs_access p w).2))) = true /\
    validateAndUploadTransactions Date_now Date_parse process_env fs_access
      csv_stream pages_create options w =
      after (console_log "just entered MAIN" :: fs_access_probe p ::
             debugEvents options (process_env (fs_access p w).2) ++
             [new_Client (Js.or (notionApiKey options)
                                (NOTION_API_KEY (process_env (fs_access p w).2)))])%list
        (bind (awaiting (parseCSV csv_stream p (paymentMethod options)))
              (processTransactions Date_now Date_parse pages_create options
                 (Js.or (notionDatabaseId options)
                        (NOTION_DATABASE_ID (process_env (fs_access p w).2)))
                 (Js.or (whoAmI options) (WHO_AM_I (process_env (fs_access p w).2))))
              (fs_access p w).2) /\
    main Date_now Date_parse process_env fs_access csv_stream pages_create options w =
      after [console_log "just entered MAIN"]
        (catchAll
           (after (fs_access_probe p ::
                   debugEvents options (process_env (fs_access p w).2) ++
                   [new_Client (Js.or (notionApiKey options)
                                      (NOTION_API_KEY (process_env (fs_access p w).2)))])%list
              (bind (awaiting (parseCSV csv_stream p (paymentMethod options)))
                    (processTransactions Date_now Date_parse pages_create options
                       (Js.or (notionDatabaseId options)
                              (NOTION_DATABASE_ID (process_env (fs_access p w).2)))
                       (Js.or (whoAmI options) (WHO_AM_I (process_env (fs_access p w).2))))
                    (fs_access p w).2))).
Proof.
  unfold validateAndUploadTransactions, main.
  rewrite !bind_emit, tryCatch_catchAll, bind_probe, bind_exit_probe.
  unfold probe, firstFailing, precedence, holds, debugEvents.
  destruct (csvFilePath options) as [p|] eqn:Hp; cbn [find negb fst snd]; [| fails_none].
  destruct (fs_access p w) as [ok w1] eqn:Hfs; cbn [fst snd].
  destruct ok; cbn [negb]; [| fails_none].
  rewrite !bind_read_env, !bind_emit, !after_after.
  do 5 (rewrite bind_gate, bind_exit_gate, ?truthy_or;
        match goal with |- context [negb ?b] => destruct b eqn:? end;
        cbn [negb]; [| fails_none]).
  intros _.
  match goal with H : Js.includes ALLOWED_PAYMENT_METHODS _ = true |- _ =>
    destruct (allowed_resolves _ H) as (label & bank & Hpm & Hbank) end.
  rewrite !bind_emit, !after_after.
  exists p, label, bank. rewrite Hfs. cbn [snd].
  repeat split; try assumption; reflexivity.
Qed.

Lemma awaiting_rows_end (p label : string) (bank : BankId) (w w2 : World)
    (rows : list (Z * RawRow)) (t : Z) :
  parseCSV_bank label = Some bank ->
  csv_stream p w = ((dataEvents rows ++ [deliver t on_end])%list, w2) ->
  awaiting (parseCSV csv_stream p (Some label)) w =
    (Normal (normalizedRows (BANK_MAPPINGS bank) label rows), w2,
     [console_log ("Using " ++ bankKey bank ++
                   " field mappings for payment method: " ++ label);
      createReadStream p]).
Proof.
  intros Hb Hs. unfold awaiting. rewrite (parseCSV_selected csv_stream p label bank w Hb), Hs.
  cbn [fst snd]. unfold parseCSV_consume.
  now rewrite fold_left_app, handle_rows.
Qed.

Lemma awaiting_rows_error (p label : string) (bank : BankId) (w w2 : World)
    (rows : list (Z * RawRow)) (t : Z) (e : Js.Error) (rest : list Delivery) :
  parseCSV_bank label = Some bank ->
  csv_stream p w = ((dataEvents rows ++ deliver t (on_error e) :: rest)%list, w2) ->
  awaiting (parseCSV csv_stream p (Some label)) w =
    (Throw e, w2,
     [console_log ("Using " ++ bankKey bank ++
                   " field mappings for payment method: " ++ label);
      createReadStream p]).
Proof.
  intros Hb Hs. unfold awaiting. rewrite (parseCSV_selected csv_stream p label bank w Hb), Hs.
  cbn [fst snd]. unfold parseCSV_consume, promiseOf.
  rewrite fold_left_app, handle_rows. cbn [fold_left].
  now rewrite (handle_rejected _ _ e).
Qed.

Lemma awaiting_rows_source_error (p label : string) (bank : BankId) (w w2 : World)
    (rows : list (Z * RawRow)) (t : Z) (e : Js.Error) (rest : list Delivery) :
  parseCSV_bank label = Some bank ->
  csv_stream p w = ((dataEvents rows ++ deliver t (source_error e) :: rest)%list, w2) ->
  awaiting (parseCSV csv_stream p (Some label)) w =
    (Exit 1, w2,
     [console_log ("Using " ++ bankKey bank ++
                   " field mappings for payment method: " ++ label);
      createReadStream p;
      uncaught_exception e]).
Proof.
  intros Hb Hs. unfold awaiting. rewrite (parseCSV_selected csv_stream p label bank w Hb), Hs.
  cbn [fst snd]. unfold parseCSV_consume, promiseOf.
  rewrite fold_left_app, handle_rows. cbn [fold_left].
  now rewrite (handle_aborted _ _ e).
Qed.

(** [await parseCSV(...)] submits nothing to the sink. *)
Lemma awaiting_parse_attempts (p : string) (pm : option string) (w : World) :
  attempts (awaiting (parseCSV csv_stream p pm) w).2 = [].
Proof.
  destruct (awaiting_trace (parseCSV csv_stream p pm) w) as (t0 & -> & Ht0).
  rewrite attempts_app, Ht0, app_nil_r. unfold parseCSV.
  destruct pm as [label|]; [| reflexivity].
  destruct (parseCSV_bank label); [| reflexivity].
  now destruct (csv_stream p w).
Qed.

Lemma bind_ret {A B} (a : A) (k : A -> Eff World B) (w : World) :
  bind (ret a) k w = k a w.
Proof. unfold bind, ret. now destruct (k a w) as [[c w'] t]. Qed.

Lemma forEachFrom_emit {A} (f : nat -> A -> Event) (i : nat) (l : list A) (w : World) :
  forEachFrom i l (fun index x => emit (f index x)) w =
    (Normal tt, w, imap (fun k x => f (i + k) x) l).
Proof.
  revert i. induction l as [|x l IH]; intros i; cbn [forEachFrom imap]; [reflexivity |].
  rewrite bind_emit, IH. cbn. rewrite Nat.add_0_r. do 2 f_equal.
  apply imap_ext. intros k y _. cbn. f_equal. lia.
Qed.

Lemma process_no_transactions (options : Options) (db who : option string) (w : World) :
  processTransactions Date_now Date_parse pages_create options db who [] w =
    (Exit 0, w,
     [console_log ("No transactions found with payment method: " ++
                   Js.show (paymentMethod options))]).
Proof. reflexivity. Qed.

Lemma process_dry_run (options : Options) (db who : option string)
    (txs : list Tx.t) (w : World) :
  txs <> [] -> dryRun options = true ->
  processTransactions Date_now Date_parse pages_create options db who txs w =
    (Normal tt, w,
     ([console_log ("Found " ++ pretty (length txs) ++
                    " transactions with payment method: " ++
                    Js.show (paymentMethod options));
       console_log "🔍 DRY RUN: The following transactions would be uploaded:";
       console_log "------------------------------------------------"] ++
      dryRunLines txs ++
      [console_log "------------------------------------------------";
       console_log ("📊 Total: " ++ pretty (length txs) ++ " transactions")])%list).
Proof.
  intros Hne Hdry. unfold processTransactions. rewrite Hdry.
  destruct txs as [|tx txs]; [contradiction |].
  change (Nat.eqb (length (tx :: txs)) 0) with false. cbv iota.
  rewrite bind_ret, !bind_emit.
  unfold bind at 1. rewrite forEachFrom_emit. rewrite bind_emit.
  unfold emit. cbn [after]. unfold dryRunLines.
  reflexivity.
Qed.

Lemma process_upload (options : Options) (db who : option string)
    (txs : list Tx.t) (w : World) :
  txs <> [] -> dryRun options = false ->
  exists w' t,
    Forall2 (fun tx r => exists i, r = requestWith (Js.show db) (Js.show who ++ "'s ") tx
                                         (JsDate.isoDay i)) txs (attempts t) /\
    w' = submitAll pages_create (attempts t) w /\
    processTransactions Date_now Date_parse pages_create options db who txs w =
      (Normal tt, w',
       ([console_log ("Found " ++ pretty (length txs) ++
                      " transactions with payment method: " ++
                      Js.show (paymentMethod options));
         console_log "Uploading transactions to Notion..."] ++ t ++
        [console_log (newline ++ "🎉 Successfully uploaded " ++
                      pretty (length txs) ++ " transactions to Notion! 🎉")])%list).
Proof.
  intros Hne Hdry.
  destruct (upload_loop_dated Date_now Date_parse pages_create (Js.show db)
              (Js.show who ++ "'s ") txs w) as (w' & t & Hrun & Hall & Hw).
  exists w', t. split; [exact Hall |]. split; [exact Hw |].
  unfold processTransactions. rewrite Hdry.
  destruct txs as [|tx txs]; [contradiction |].
  change (Nat.eqb (length (tx :: txs)) 0) with false. cbv iota.
  rewrite bind_ret, bind_emit. unfold uploadToNotion.
  unfold bind at 1. rewrite bind_emit, Hrun. reflexivity.
Qed.

Lemma attempts_imap {A} (f : nat -> A -> Event) (l : list A) :
  (forall i x, attempts [f i x] = []) -> attempts (imap f l) = [].
Proof.
  revert f. induction l as [|x l IH]; intros f Hf; [reflexivity |].
  cbn [imap]. change (f 0 x :: imap (f ∘ S) l) with ([f 0 x] ++ imap (f ∘ S) l)%list.
  rewrite attempts_app, Hf. cbn [app].
  apply IH. intros i y. apply Hf.
Qed.

Lemma attempts_dryRunLines (txs : list Tx.t) : attempts (dryRunLines txs) = [].
Proof. unfold dryRunLines. now apply attempts_imap. Qed.

Lemma attempts_probe (options : Options) (w : World) :
  attempts (probe fs_access options w).2 = [].
Proof. unfold probe. now destruct (csvFilePath options). Qed.

Lemma attempts_catchAll (r : Completion unit * World * list Event) :
  attempts (catchAll r).2 = attempts r.2.
Proof.
  destruct r as [[[[] | e | n |] w] t]; cbn [catchAll snd]; try reflexivity.
  rewrite attempts_app. apply app_nil_r.
Qed.

Lemma after_snd {A} (t : list Event) (r : Completion A * World * list Event) :
  (after t r).2 = (t ++ r.2)%list.
Proof. now destruct r as [[c w] t']. Qed.

(** In a dry run, what follows the creation of the client submits
    nothing. *)
Lemma dry_run_tail_attempts (options : Options) (p : string) (db who : option string)
    (w : World) :
  dryRun options = true ->
  attempts (bind (awaiting (parseCSV csv_stream p (paymentMethod options)))
                 (processTransactions Date_now Date_parse pages_create options db who)
                 w).2 = [].
Proof.
  intros Hdry. unfold bind.
  pose proof (awaiting_parse_attempts p (paymentMethod options) w) as Hparse.
  destruct (awaiting _ w) as [[[txs | e | n |] w2] t2]; cbn [snd] in *; try assumption.
  rewrite after_snd, attempts_app, Hparse. cbn [app].
  destruct txs as [|tx txs].
  - now rewrite process_no_transactions.
  - rewrite process_dry_run by (assumption || discriminate). cbn [snd].
    rewrite !attempts_app, attempts_dryRunLines. reflexivity.
Qed.

(** A dry run never calls the sink: whatever the options, the environment,
    the file system and the CSV stream, neither [validateAndUploadTransactions]
    nor [main] submits a request when [dryRun] is set. *)
Theorem dry_run_submits_nothing (options : Options) (w : World) :
  dryRun options = true ->
  attempts (validateAndUploadTransactions Date_now Date_parse process_env fs_access
              csv_stream pages_create options w).2 = [] /\
  attempts (main Date_now Date_parse process_env fs_access csv_stream pages_create
              options w).2 = [].
Proof.
  intros Hdry.
  destruct (firstFailing (probe fs_access options w).1.1 options
              (process_env (probe fs_access options w).1.2)) as [c|] eqn:Hf.
  - rewrite (proj1 (validation_run Date_now Date_parse process_env fs_access csv_stream
                      pages_create options w) c Hf).
    rewrite (main_validation_precedence Date_now Date_parse process_env fs_access
               csv_stream pages_create options w c Hf).
    cbn [snd]. rewrite attempts_app.
    assert (H : attempts (eventsUpTo c (probe fs_access options w).2 options
                            (process_env (probe fs_access options w).1.2)) = []).
    { destruct c; unfold eventsUpTo; rewrite attempts_log, ?attempts_app, attempts_probe;
        reflexivity. }
    now rewrite H.
  - destruct (runs_validated options w Hf)
      as (p & label & bank & _ & _ & _ & _ & -> & ->).
    rewrite !after_snd, !attempts_app, attempts_catchAll, !after_snd, !attempts_app.
    rewrite (dry_run_tail_attempts _ _ _ _ _ Hdry). unfold debugEvents.
    split; reflexivity.
Qed.

(** When the CSV file has no line, both entry points tell so and end the
    process with status 0 after the client has been created, with nothing
    submitted to the sink. *)
Theorem no_rows_exit_zero (options : Options) (w w2 : World) (t : Z) :
  firstFailing (probe fs_access options w).1.1 options
               (process_env (probe fs_access options w).1.2) = None ->
  csv_stream (Js.show (csvFilePath options)) (probe fs_access options w).1.2 =
    ([deliver t on_end], w2) ->
  exists trace,
    validateAndUploadTransactions Date_now Date_parse process_env fs_access
      csv_stream pages_create options w = (Exit 0, w2, trace) /\
    main Date_now Date_parse process_env fs_access csv_stream pages_create options w =
      (Exit 0, w2, trace) /\
    last trace = Some (console_log ("No transactions found with payment method: " ++
                                    Js.show (paymentMethod options))) /\
    attempts trace = [].
Proof.
  intros Hf Hs.
  destruct (runs_validated options w Hf)
    as (p & label & bank & Hp & Hpm & Hbank & _ & -> & ->).
  unfold probe in Hs. rewrite Hp in Hs. cbn [Js.show fst snd] in Hs.
  unfold bind.
  replace (awaiting (parseCSV csv_stream p (paymentMethod options)) (fs_access p w).2)
    with (awaiting (parseCSV csv_stream p (Some label)) (fs_access p w).2)
    by now rewrite Hpm.
  rewrite (awaiting_rows_end p label bank _ w2 [] t Hbank Hs).
  change (normalizedRows (BANK_MAPPINGS bank) label []) with (@nil Tx.t).
  rewrite process_no_transactions. cbn [after catchAll].
  eexists. split; [reflexivity |]. split; [reflexivity |]. split.
  - rewrite !app_comm_cons, !app_assoc. apply last_snoc.
  - unfold debugEvents. reflexivity.
Qed.

(** A dry run over a CSV file with lines: both entry points return
    normally, leave the world as the CSV stream left it, and print, after
    the count of transactions, one numbered line per CSV line, in order,
    between two rules, and the total. *)
Theorem dry_run_listing (options : Options) (w w2 : World)
    (rows : list (Z * RawRow)) (t : Z) :
  firstFailing (probe fs_access options w).1.1 options
               (process_env (probe fs_access options w).1.2) = None ->
  dryRun options = true -> rows <> [] ->
  csv_stream (Js.show (csvFilePath options)) (probe fs_access options w).1.2 =
    ((dataEvents rows ++ [deliver t on_end])%list, w2) ->
  exists label bank before,
    paymentMethod options = Some label /\
    parseCSV_bank label = Some bank /\
    validateAndUploadTransactions Date_now Date_parse process_env fs_access
      csv_stream pages_create options w =
      (Normal tt, w2,
       (before ++
        [console_log ("Found " ++ pretty (length rows) ++
                      " transactions with payment method: " ++ label);
         console_log "🔍 DRY RUN: The following transactions would be uploaded:";
         console_log "------------------------------------------------"] ++
        dryRunLines (normalizedRows (BANK_MAPPINGS bank) label rows) ++
        [console_log "------------------------------------------------";
         console_log ("📊 Total: " ++ pretty (length rows) ++ " transactions")])%list) /\
    main Date_now Date_parse process_env fs_access csv_stream pages_create options w =
      validateAndUploadTransactions Date_now Date_parse process_env fs_access
        csv_stream pages_create options w /\
    length (dryRunLines (normalizedRows (BANK_MAPPINGS bank) label rows)) = length rows.
Proof.
  intros Hf Hdry Hne Hs.
  destruct (runs_validated options w Hf)
    as (p & label & bank & Hp & Hpm & Hbank & _ & -> & ->).
  unfold probe in Hs. rewrite Hp in Hs. cbn [Js.show fst snd] in Hs.
  unfold bind.
  replace (awaiting (parseCSV csv_stream p (paymentMethod options)) (fs_access p w).2)
    with (awaiting (parseCSV csv_stream p (Some label)) (fs_access p w).2)
    by now rewrite Hpm.
  rewrite (awaiting_rows_end p label bank _ w2 rows t Hbank Hs).
  assert (Hlen : length (normalizedRows (BANK_MAPPINGS bank) label rows) = length rows)
    by (unfold normalizedRows; apply length_map).
  rewrite process_dry_run; [| | assumption].
  2: { intros Hnil. apply (f_equal length) in Hnil. rewrite Hlen in Hnil.
       destruct rows; [contradiction | discriminate]. }
  rewrite Hlen, Hpm. cbn [after catchAll Js.show].
  exists label, bank. eexists. split; [reflexivity |]. split; [assumption |].
  split; [| split].
  - rewrite !app_comm_cons, !app_assoc. reflexivity.
  - reflexivity.
  - unfold dryRunLines. now rewrite length_imap.
Qed.

(** A run that uploads: when no check fails, the run is not a dry run
    and the CSV stream delivers lines and then its end, both entry points
    return normally; they have submitted exactly one request per CSV line,
    in order, each built from the normalized line for the resolved
    database and identity; the world is the one the sink leaves after
    these requests; and the last line printed announces as many uploaded
    transactions as there are CSV lines, whatever the sink answered. *)
Theorem run_uploads_every_row (options : Options) (w w2 : World)
    (rows : list (Z * RawRow)) (t : Z) :
  firstFailing (probe fs_access options w).1.1 options
               (process_env (probe fs_access options w).1.2) = None ->
  dryRun options = false -> rows <> [] ->
  csv_stream (Js.show (csvFilePath options)) (probe fs_access options w).1.2 =
    ((dataEvents rows ++ [deliver t on_end])%list, w2) ->
  exists label bank w' trace,
    paymentMethod options = Some label /\
    parseCSV_bank label = Some bank /\
    validateAndUploadTransactions Date_now Date_parse process_env fs_access
      csv_stream pages_create options w = (Normal tt, w', trace) /\
    main Date_now Date_parse process_env fs_access csv_stream pages_create options w =
      (Normal tt, w', trace) /\
    Forall2
      (fun tx r =>
         exists i,
           r = requestWith
                 (Js.show (Js.or (notionDatabaseId options)
                                 (NOTION_DATABASE_ID
                                    (process_env (probe fs_access options w).1.2))))
                 (Js.show (Js.or (whoAmI options)
                                 (WHO_AM_I (process_env (probe fs_access options w).1.2)))
                  ++ "'s ")
                 tx (JsDate.isoDay i))
      (normalizedRows (BANK_MAPPINGS bank) label rows) (attempts trace) /\
    w' = submitAll pages_create (attempts trace) w2 /\
    last trace = Some (console_log (newline ++ "🎉 Successfully uploaded " ++
                                    pretty (length rows) ++
                                    " transactions to Notion! 🎉")).
Proof.
  intros Hf Hdry Hne Hs.
  destruct (runs_validated options w Hf)
    as (p & label & bank & Hp & Hpm & Hbank & _ & -> & ->).
  unfold probe in Hs |- *. rewrite Hp in Hs |- *. cbn [Js.show fst snd] in Hs |- *.
  unfold bind.
  replace (awaiting (parseCSV csv_stream p (paymentMethod options)) (fs_access p w).2)
    with (awaiting (parseCSV csv_stream p (Some label)) (fs_access p w).2)
    by now rewrite Hpm.
  rewrite (awaiting_rows_end p label bank _ w2 rows t Hbank Hs).
  assert (Hlen : length (normalizedRows (BANK_MAPPINGS bank) label rows) = length rows)
    by (unfold normalizedRows; apply length_map).
  assert (Hnn : normalizedRows (BANK_MAPPINGS bank) label rows <> []).
  { intros Hnil. apply (f_equal length) in Hnil. rewrite Hlen in Hnil.
    destruct rows; [contradiction | discriminate]. }
  destruct (process_upload options
              (Js.or (notionDatabaseId options)
                     (NOTION_DATABASE_ID (process_env (fs_access p w).2)))
              (Js.or (whoAmI options) (WHO_AM_I (process_env (fs_access p w).2)))
              _ w2 Hnn Hdry) as (w' & tr & Hall & Hw & ->).
  rewrite Hlen. cbn [after catchAll].
  exists label, bank, w'. eexists.
  split; [assumption |]. split; [assumption |].
  split; [reflexivity |]. split; [reflexivity |].
  match goal with |- Forall2 _ _ (attempts ?T) /\ _ =>
    assert (Hatt : attempts T = attempts tr)
      by (rewrite !attempts_app; unfold debugEvents;
          change (attempts tr ++ [] = attempts tr)%list; apply app_nil_r)
  end.
  rewrite Hatt. split; [exact Hall |]. split; [exact Hw |].
  rewrite !app_comm_cons, !app_assoc. apply last_snoc.
Qed.

(** An error of the CSV stream ends the run before anything is submitted:
    [validateAndUploadTransactions] throws that error, and [main] prints
    its message after "Error: " and ends the process with status 1. *)
Theorem stream_error_propagates (options : Options) (w w2 : World)
    (rows : list (Z * RawRow)) (t : Z) (e : Js.Error) (rest : list Delivery) :
  firstFailing (probe fs_access options w).1.1 options
               (process_env (probe fs_access options w).1.2) = None ->
  csv_stream (Js.show (csvFilePath options)) (probe fs_access options w).1.2 =
    ((dataEvents rows ++ deliver t (on_error e) :: rest)%list, w2) ->
  exists trace,
    validateAndUploadTransactions Date_now Date_parse process_env fs_access
      csv_stream pages_create options w = (Throw e, w2, trace) /\
    main Date_now Date_parse process_env fs_access csv_stream pages_create options w =
      (Exit 1, w2, (trace ++ [console_error ("Error: " ++ Js.message e)])%list) /\
    attempts trace = [].
Proof.
  intros Hf Hs.
  destruct (runs_validated options w Hf)
    as (p & label & bank & Hp & Hpm & Hbank & _ & -> & ->).
  unfold probe in Hs. rewrite Hp in Hs. cbn [Js.show fst snd] in Hs.
  unfold bind.
  replace (awaiting (parseCSV csv_stream p (paymentMethod options)) (fs_access p w).2)
    with (awaiting (parseCSV csv_stream p (Some label)) (fs_access p w).2)
    by now rewrite Hpm.
  rewrite (awaiting_rows_error p label bank _ w2 rows t e rest Hbank Hs).
  cbn [after catchAll].
  eexists. split; [reflexivity |]. split; [reflexivity |].
  unfold debugEvents. reflexivity.
Qed.

(** An error of the file read stream is not caught by either entry point:
    when it follows the rows, the awaited promise is never settled, the
    error is an uncaught exception and the process ends with status 1.
    [validateAndUploadTransactions] does not throw it, [main] does not
    print it after "Error: ", and nothing is submitted. *)
Theorem read_error_ends_process (options : Options) (w w2 : World)
    (rows : list (Z * RawRow)) (t : Z) (e : Js.Error) (rest : list Delivery) :
  firstFailing (probe fs_access options w).1.1 options
               (process_env (probe fs_access options w).1.2) = None ->
  csv_stream (Js.show (csvFilePath options)) (probe fs_access options w).1.2 =
    ((dataEvents rows ++ deliver t (source_error e) :: rest)%list, w2) ->
  exists trace,
    validateAndUploadTransactions Date_now Date_parse process_env fs_access
      csv_stream pages_create options w =
      (Exit 1, w2, (trace ++ [uncaught_exception e])%list) /\
    main Date_now Date_parse process_env fs_access csv_stream pages_create options w =
      (Exit 1, w2, (trace ++ [uncaught_exception e])%list) /\
    (forall line, console_error line ∉ trace) /\
    attempts trace = [].
Proof.
  intros Hf Hs.
  destruct (runs_validated options w Hf)
    as (p & label & bank & Hp & Hpm & Hbank & _ & -> & ->).
  unfold probe in Hs. rewrite Hp in Hs. cbn [Js.show fst snd] in Hs.
  unfold bind.
  replace (awaiting (parseCSV csv_stream p (paymentMethod options)) (fs_access p w).2)
    with (awaiting (parseCSV csv_stream p (Some label)) (fs_access p w).2)
    by now rewrite Hpm.
  rewrite (awaiting_rows_source_error p label bank _ w2 rows t e rest Hbank Hs).
  cbn [after catchAll]. unfold debugEvents.
  exists [console_log "just entered MAIN"; fs_access_probe p; console_log "DEBUG START";
          console_log_object
            (Js.or (notionApiKey options) (NOTION_API_KEY (process_env (fs_access p w).2)))
            (Js.or (notionDatabaseId options)
                   (NOTION_DATABASE_ID (process_env (fs_access p w).2)));
          console_log "DEBUG END";
          new_Client (Js.or (notionApiKey options)
                            (NOTION_API_KEY (process_env (fs_access p w).2)));
          console_log ("Using " ++ bankKey bank ++
                       " field mappings for payment method: " ++ label);
          createReadStream p].
  split; [reflexivity |]. split; [reflexivity |]. split; [| reflexivity].
  intros line Hin. repeat (apply elem_of_cons in Hin as [Hin | Hin]; [discriminate |]).
  now apply elem_of_nil in Hin.
Qed.

(** A failing check ends both entry points alike: what
    [validateAndUploadTransactions] throws is what [main] prints after
    "Error: " before it ends the process with status 1; until then the two
    have printed and probed the same, and nothing was submitted. *)
Theorem entry_points_agree_on_failure (options : Options) (w : World) (c : Check) :
  firstFailing (probe fs_access options w).1.1 options
               (process_env (probe fs_access options w).1.2) = Some c ->
  exists trace,
    validateAndUploadTransactions Date_now Date_parse process_env fs_access
      csv_stream pages_create options w =
      (Throw (failure options c), (probe fs_access options w).1.2, trace) /\
    main Date_now Date_parse process_env fs_access csv_stream pages_create options w =
      (Exit 1, (probe fs_access options w).1.2,
       (trace ++ [console_error ("Error: " ++ Js.message (failure options c))])%list) /\
    attempts trace = [].
Proof.
  intros Hf.
  exists (eventsUpTo c (probe fs_access options w).2 options
            (process_env (probe fs_access options w).1.2)).
  split; [| split].
  - exact (proj1 (validation_run Date_now Date_parse process_env fs_access csv_stream
                    pages_create options w) c Hf).
  - exact (main_validation_precedence Date_now Date_parse process_env fs_access
             csv_stream pages_create options w c Hf).
  - destruct c; unfold eventsUpTo; rewrite attempts_log, ?attempts_app, attempts_probe;
      reflexivity.
Qed.

End Runs.

(** ** Amount texts *)

Lemma trimStart_minus (s : string) : JsNum.trimStart (String "-" s) = String "-" s.
Proof. destruct s as [|b [|c s]]; reflexivity. Qed.

Lemma trimStart_plus (s : string) : JsNum.trimStart (String "+" s) = String "+" s.
Proof. destruct s as [|b [|c s]]; reflexivity. Qed.

(** A text that starts with neither white space nor a sign is read as an
    unsigned literal. *)
Lemma readLiteral_unsigned (c : ascii) (r : string) :
  JsNum.trimStart (String c r) = String c r -> c <> "-"%char -> c <> "+"%char ->
  JsNum.readLiteral (String c r) = JsNum.readUnsigned false (String c r).
Proof.
  intros Hws Hm Hp. unfold JsNum.readLiteral. rewrite Hws.
  ascii_cases c; try reflexivity; exfalso; (now apply Hm) || (now apply Hp).
Qed.

(** Rounding treats a decimal and its opposite alike. *)
Lemma Math_abs_roundToDouble (n1 n2 : bool) (a b : Z) :
  JsNum.Math_abs (JsNum.roundToDouble n1 a b) =
  JsNum.Math_abs (JsNum.roundToDouble n2 a b).
Proof.
  unfold JsNum.roundToDouble. destruct (a =? 0)%Z; [reflexivity |].
  destruct (JsNum.scaled a b _) as [x y].
  destruct (JsNum.roundHalfEven x y =? 0)%Z; [reflexivity |].
  destruct (1024 <=? _)%Z; [reflexivity |].
  now destruct (JsNum.oddMantissa 53 _ _).
Qed.

Lemma Math_abs_toNumber (n1 n2 : bool) (m : N) (e : Z) :
  JsNum.Math_abs (JsNum.toNumber (JsNum.Decimal n1 m e)) =
  JsNum.Math_abs (JsNum.toNumber (JsNum.Decimal n2 m e)).
Proof.
  cbn [JsNum.toNumber]. cbv zeta. destruct (Z.of_N m =? 0)%Z; [reflexivity |].
  destruct (309 <=? e)%Z; [reflexivity |].
  destruct (e + Z.log2 (Z.of_N m) + 1 <=? -324)%Z; [reflexivity |].
  destruct (0 <=? e)%Z; apply Math_abs_roundToDouble.
Qed.

Lemma Math_abs_readUnsigned (n1 n2 : bool) (s : string) :
  JsNum.Math_abs (JsNum.toNumber (JsNum.readUnsigned n1 s)) =
  JsNum.Math_abs (JsNum.toNumber (JsNum.readUnsigned n2 s)).
Proof.
  unfold JsNum.readUnsigned. destruct (Js.startsWith s "Infinity"); [reflexivity |].
  destruct (JsNum.readRun 0 0 s) as [[ip ik] r1].
  destruct r1 as [|c r2];
    [destruct (Nat.eqb ik 0); [reflexivity | apply Math_abs_toNumber] |].
  ascii_cases c;
    try (destruct (Nat.eqb ik 0); [reflexivity | apply Math_abs_toNumber]).
  destruct (JsNum.readRun ip 0 r2) as [[m fk] r3].
  destruct (Nat.eqb ik 0 && Nat.eqb fk 0); [reflexivity | apply Math_abs_toNumber].
Qed.

(** The sign of an amount is lost: a text that does not start with white
    space or a sign, and the same text behind a minus or a plus sign, give
    the same number, so that a charge and the refund of the same amount
    are uploaded alike. *)
Theorem amount_sign_ignored (c : ascii) (r : string) :
  JsNum.trimStart (String c r) = String c r -> c <> "-"%char -> c <> "+"%char ->
  amountNumber (Some (String "-" (String c r))) = amountNumber (Some (String c r)) /\
  amountNumber (Some (String "+" (String c r))) = amountNumber (Some (String c r)).
Proof.
  intros Hws Hm Hp. unfold amountNumber, JsNum.parseFloat. cbn [Js.orElse String.eqb].
  rewrite (readLiteral_unsigned c r Hws Hm Hp).
  unfold JsNum.readLiteral. rewrite trimStart_minus, trimStart_plus.
  split; [apply Math_abs_readUnsigned | reflexivity].
Qed.

Lemma readRun_digits (ds : string) (c : ascii) (rest : string) :
  allDigits ds -> isDigit c = false ->
  forall acc k,
    exists v, JsNum.readRun acc k ds = (v, (k + String.length ds)%nat, "") /\
              JsNum.readRun acc k (ds ++ String c rest) =
                (v, (k + String.length ds)%nat, String c rest).
Proof.
  intros Hds Hc. induction ds as [|d ds IH]; intros acc k.
  - exists acc. rewrite Nat.add_0_r. split; [reflexivity |].
    change ("" ++ String c rest) with (String c rest). cbn [JsNum.readRun].
    unfold isDigit in Hc. now rewrite Hc.
  - apply Forall_cons in Hds as [Hd Hds].
    change (String d ds ++ String c rest) with (String d (ds ++ String c rest)).
    cbn [JsNum.readRun String.length]. unfold isDigit in Hd. rewrite Hd.
    destruct (IH Hds (10 * acc + (N_of_ascii d - 48))%N (S k)) as (v & H1 & H2).
    exists v. rewrite H1, H2. now rewrite Nat.add_succ_r.
Qed.

Lemma digit_first (d : ascii) (s : string) :
  isDigit d = true ->
  JsNum.trimStart (String d s) = String d s /\ d <> "-"%char /\ d <> "+"%char /\
  Ascii.eqb d "I" = false.
Proof.
  intros Hd. ascii_cases d; vm_compute in Hd; try discriminate Hd;
    (split; [destruct s as [|b [|c s]]; reflexivity |]);
    repeat split; (reflexivity || discriminate).
Qed.

(** An amount is read up to the first character that cannot continue a
    number: digits followed by such a character (a thousands separator, a
    space, a currency code) give the number of the digits alone, and the
    rest of the text is dropped without a trace. *)
Theorem amount_stops_at_separator (ds rest : string) (c : ascii) :
  ds <> "" -> allDigits ds ->
  isDigit c = false -> c <> "."%char -> c <> "e"%char -> c <> "E"%char ->
  amountNumber (Some (ds ++ String c rest)) = amountNumber (Some ds).
Proof.
  intros Hne Hds Hc Hdot He HE. destruct ds as [|d ds]; [contradiction |].
  pose proof Hds as Hd. apply Forall_cons in Hd as [Hd _].
  destruct (digit_first d ds Hd) as (Hws & Hm & Hp & HI).
  destruct (digit_first d (ds ++ String c rest) Hd) as (Hws' & _).
  destruct (readRun_digits (String d ds) c rest Hds Hc 0%N 0%nat) as (v & H1 & H2).
  unfold amountNumber, JsNum.parseFloat.
  change (String d ds ++ String c rest) with (String d (ds ++ String c rest)) in *.
  cbn [Js.orElse String.eqb]. rewrite !readLiteral_unsigned by assumption.
  unfold JsNum.readUnsigned. cbn [Js.startsWith]. rewrite HI, H1, H2.
  cbn [String.length Nat.add Nat.eqb JsNum.readExponent].
  ascii_cases c; try reflexivity; exfalso;
    (now apply Hdot) || (now apply He) || (now apply HE).
Qed.

(** An amount text that starts with a symbol (a currency sign, a
    parenthesis, a letter other than the I of Infinity), and not with
    white space, is not a number: the record carries [NaN]. *)
Theorem amount_symbol_first (c : ascii) (r : string) :
  JsNum.trimStart (String c r) = String c r -> c <> "-"%char -> c <> "+"%char ->
  isDigit c = false -> c <> "."%char -> c <> "I"%char ->
  amountNumber (Some (String c r)) = JsNum.NaN.
Proof.
  intros Hws Hm Hp Hd Hdot HI. unfold amountNumber, JsNum.parseFloat.
  cbn [Js.orElse String.eqb]. rewrite readLiteral_unsigned by assumption.
  unfold JsNum.readUnsigned. cbn [Js.startsWith JsNum.readRun].
  unfold isDigit in Hd. rewrite Hd.
  ascii_cases c; try reflexivity; exfalso; (now apply Hdot) || (now apply HI).
Qed.

(** ** Dates in the ISO form *)

Section IsoRoundTrip.

Local Open Scope Z_scope.
Import JsDate.

Context {World : Type}.
Variable Date_now : World -> Z.
Variable Date_parse : string -> option Z.

(** A date that the CSV file gives in the form [YYYY-MM-DD] reaches the
    record unchanged, whenever [Date.parse] reads it as the ISO date-only
    form requires (midnight UTC of that calendar date): no warning is
    logged and the record's date is the text of the file. *)
Theorem iso_date_unchanged (databaseId prefix : string) (tx : Tx.t) (s : string)
    (t : Z) (w : World) :
  isYYYYMMDD s = true ->
  parseDateOnly s = Some t ->
  Date_parse s = Some t ->
  Tx.date tx = Some s ->
  formatDateToISO Date_parse (Some s) w = (Normal (Some s), w, []) /\
  pageRequest Date_now Date_parse databaseId prefix tx w =
    (Normal (requestWith databaseId prefix tx s), w, []).
Proof.
  intros Hs Hiso Hp Hd.
  assert (Hne : s <> EmptyString) by (intros ->; discriminate Hs).
  rewrite (formatDateToISO_valid Date_parse s t w Hne Hp).
  rewrite (pageRequest_valid Date_now Date_parse databaseId prefix tx s t w Hd Hne Hp).
  now rewrite (isoDay_parseDateOnly s t Hs Hiso).
Qed.

(** The date part depends on the day of the instant only. *)
Lemma isoDay_Day (t1 t2 : Z) : Day t1 = Day t2 -> isoDay t1 = isoDay t2.
Proof. intros H. rewrite !isoDay_eq. unfold isoDatePart. now rewrite H. Qed.

(** A date text that [Date.parse] reads as midnight of a calendar date
    in a time zone ahead of UTC (as Node reads the forms other than the
    ISO ones, [01/17/2023] for one, east of Greenwich) is uploaded as the
    day before: the record carries the date part of the previous
    midnight (UTC), and nothing is logged. *)
Theorem local_midnight_uploads_previous_day (databaseId prefix : string) (tx : Tx.t)
    (s : string) (y m d ahead : Z) (w : World) :
  Tx.date tx = Some s -> s <> EmptyString ->
  0 < ahead <= msPerDay ->
  Date_parse s = Some (daysFromCivil y m d * msPerDay - ahead) ->
  pageRequest Date_now Date_parse databaseId prefix tx w =
    (Normal (requestWith databaseId prefix tx
               (isoDay ((daysFromCivil y m d - 1) * msPerDay))), w, []).
Proof.
  intros Hd Hs Hahead Hp.
  rewrite (pageRequest_valid Date_now Date_parse databaseId prefix tx s _ w Hd Hs Hp).
  rewrite (isoDay_Day (daysFromCivil y m d * msPerDay - ahead)
             ((daysFromCivil y m d - 1) * msPerDay)); [reflexivity |].
  unfold Day, msPerDay in *. Z.div_mod_to_equations. lia.
Qed.

End IsoRoundTrip.

(** ** Runs of the further properties in the demonstration world *)

(** The four lines of the demonstration file give four filled
    transactions, the last of them by the defaults alone. *)
Lemma parsed_transactions_filled_witness :
  Forall (filled "Chase Freedom")
         (normalizedRows (BANK_MAPPINGS chase) "Chase Freedom" Scenes.rows).
Proof.
  exact (parsed_transactions_filled Demo.csv_stream "chase.csv" "Chase Freedom"
           (Demo.mkWorld 0 []) _ eq_refl).
Defined.

(** The first line of the demonstration file, as a record. *)
Lemma row_to_record_witness :
  pageRequest Demo.Date_now JsDate.parseDateOnly "db-1" "Alli's "
    (parseCSV_normalize (BANK_MAPPINGS chase) "Chase Freedom" 0
       (Demo.chaseRow "2023-01-15" "AMAZON.COM" "-50.99")) (Demo.mkWorld 7 []) =
    (Normal (recordOfRow "db-1" "Alli's " (BANK_MAPPINGS chase) "Chase Freedom"
               (Demo.chaseRow "2023-01-15" "AMAZON.COM" "-50.99") "2023-01-15"),
     Demo.mkWorld 7 [], []).
Proof.
  exact (proj1 (row_to_record Demo.Date_now JsDate.parseDateOnly "db-1" "Alli's "
                  "Chase Freedom" (BANK_MAPPINGS chase) 0
                  (Demo.chaseRow "2023-01-15" "AMAZON.COM" "-50.99") (Demo.mkWorld 7 [])
                  ltac:(discriminate))
               1673740800000%Z eq_refl).
Defined.

(** A dry run over the demonstration file submits nothing. *)
Lemma dry_run_submits_nothing_witness :
  dryRun Scenes.dryOptions = true /\
  attempts (Demo.run Scenes.dryOptions (Demo.mkWorld 0 [])).2 = [].
Proof.
  split; [reflexivity |].
  exact (proj1 (dry_run_submits_nothing Demo.Date_now JsDate.parseDateOnly
                  Demo.process_env Demo.fs_access Demo.csv_stream Demo.pages_create
                  Scenes.dryOptions (Demo.mkWorld 0 []) eq_refl)).
Defined.

(** A run over a file without a line. *)
Lemma no_rows_exit_zero_witness :
  exists trace,
    validateAndUploadTransactions Demo.Date_now JsDate.parseDateOnly Demo.process_env
      Demo.fs_access Scenes.empty_stream Demo.pages_create Demo.options
      (Demo.mkWorld 0 []) = (Exit 0, Demo.mkWorld 0 [], trace) /\
    last trace =
      Some (console_log "No transactions found with payment method: Chase Freedom").
Proof.
  destruct (no_rows_exit_zero Demo.Date_now JsDate.parseDateOnly Demo.process_env
              Demo.fs_access Scenes.empty_stream Demo.pages_create Demo.options
              (Demo.mkWorld 0 []) (Demo.mkWorld 0 []) 0%Z eq_refl eq_refl)
    as (trace & Hv & _ & Hlast & _).
  exists trace. split; [exact Hv | exact Hlast].
Defined.

(** A dry run over the four lines of the demonstration file. *)
Lemma dry_run_listing_witness :
  Demo.csv_stream "chase.csv" (Demo.mkWorld 0 []) =
    ((dataEvents Scenes.rows ++ [deliver 4%Z on_end])%list, Demo.mkWorld 5 []) /\
  exists before,
    Demo.run Scenes.dryOptions (Demo.mkWorld 0 []) =
      (Normal tt, Demo.mkWorld 5 [],
       (before ++
        [console_log "Found 4 transactions with payment method: Chase Freedom";
         console_log "🔍 DRY RUN: The following transactions would be uploaded:";
         console_log "------------------------------------------------"] ++
        dryRunLines (normalizedRows (BANK_MAPPINGS chase) "Chase Freedom" Scenes.rows) ++
        [console_log "------------------------------------------------";
         console_log "📊 Total: 4 transactions"])%list).
Proof.
  split; [reflexivity |].
  destruct (dry_run_listing Demo.Date_now JsDate.parseDateOnly Demo.process_env
              Demo.fs_access Demo.csv_stream Demo.pages_create Scenes.dryOptions
              (Demo.mkWorld 0 []) (Demo.mkWorld 5 []) Scenes.rows 4%Z
              eq_refl eq_refl ltac:(discriminate) eq_refl)
    as (label & bank & before & [= <-] & [= <-] & Hv & _).
  exists before. exact Hv.
Defined.

(** An uploading run over the four lines of the demonstration file: the
    sink declines the second request, and the run still announces four. *)
Lemma run_uploads_every_row_witness :
  exists w' trace,
    Demo.run Demo.options (Demo.mkWorld 0 []) = (Normal tt, w', trace) /\
    w' = submitAll Demo.pages_create (attempts trace) (Demo.mkWorld 5 []) /\
    last trace = Some (console_log (newline ++ "🎉 Successfully uploaded " ++ "4" ++
                                    " transactions to Notion! 🎉")).
Proof.
  destruct (run_uploads_every_row Demo.Date_now JsDate.parseDateOnly Demo.process_env
              Demo.fs_access Demo.csv_stream Demo.pages_create Demo.options
              (Demo.mkWorld 0 []) (Demo.mkWorld 5 []) Scenes.rows 4%Z
              eq_refl eq_refl ltac:(discriminate) eq_refl)
    as (label & bank & w' & trace & _ & _ & Hv & _ & _ & Hw & Hlast).
  exists w', trace. split; [exact Hv |]. split; [exact Hw | exact Hlast].
Defined.

(** A run over a stream that fails after its first line. *)
Lemma stream_error_propagates_witness :
  exists trace,
    validateAndUploadTransactions Demo.Date_now JsDate.parseDateOnly Demo.process_env
      Demo.fs_access Scenes.broken_stream Demo.pages_create Demo.options
      (Demo.mkWorld 0 []) =
      (Throw (Js.mkError "EIO: read error"), Demo.mkWorld 0 [], trace) /\
    main Demo.Date_now JsDate.parseDateOnly Demo.process_env
      Demo.fs_access Scenes.broken_stream Demo.pages_create Demo.options
      (Demo.mkWorld 0 []) =
      (Exit 1, Demo.mkWorld 0 [],
       (trace ++ [console_error "Error: EIO: read error"])%list) /\
    attempts trace = [].
Proof.
  exact (stream_error_propagates Demo.Date_now JsDate.parseDateOnly Demo.process_env
           Demo.fs_access Scenes.broken_stream Demo.pages_create Demo.options
           (Demo.mkWorld 0 []) (Demo.mkWorld 0 [])
           [(0%Z, Demo.chaseRow "2023-01-15" "AMAZON.COM" "-50.99")] 1%Z
           (Js.mkError "EIO: read error") [deliver 2%Z on_end] eq_refl eq_refl).
Defined.

(** A run under an identity that is not allowed. *)
Lemma entry_points_agree_on_failure_witness :
  exists trace,
    Demo.run Scenes.stranger (Demo.mkWorld 0 []) =
      (Throw (Js.mkError "--who-am-i must be one of: Alli, Justin"),
       Demo.mkWorld 0 [], trace) /\
    main Demo.Date_now JsDate.parseDateOnly Demo.process_env Demo.fs_access
      Demo.csv_stream Demo.pages_create Scenes.stranger (Demo.mkWorld 0 []) =
      (Exit 1, Demo.mkWorld 0 [],
       (trace ++ [console_error "Error: --who-am-i must be one of: Alli, Justin"])%list) /\
    attempts trace = [].
Proof.
  exact (entry_points_agree_on_failure Demo.Date_now JsDate.parseDateOnly
           Demo.process_env Demo.fs_access Demo.csv_stream Demo.pages_create
           Scenes.stranger (Demo.mkWorld 0 []) IdentityAllowed eq_refl).
Defined.

(** "-50.99" and "50.99" are uploaded as the same number. *)
Lemma amount_sign_ignored_witness :
  amountNumber (Some "-50.99") = amountNumber (Some "50.99") /\
  amountNumber (Some "+50.99") = amountNumber (Some "50.99").
Proof.
  exact (amount_sign_ignored "5" "0.99" eq_refl ltac:(discriminate) ltac:(discriminate)).
Defined.

(** "1,234.56" is uploaded as 1. *)
Lemma amount_stops_at_separator_witness :
  amountNumber (Some "1,234.56") = amountNumber (Some "1") /\
  amountNumber (Some "1") = JsNum.Finite false 1 0.
Proof.
  split; [| reflexivity].
  exact (amount_stops_at_separator "1" "234.56" "," ltac:(discriminate)
           ltac:(repeat constructor) eq_refl
           ltac:(discriminate) ltac:(discriminate) ltac:(discriminate)).
Defined.

(** "$12.00" is uploaded as [NaN]. *)
Lemma amount_symbol_first_witness : amountNumber (Some "$12.00") = JsNum.NaN.
Proof.
  exact (amount_symbol_first "$" "12.00" eq_refl ltac:(discriminate) ltac:(discriminate)
           eq_refl ltac:(discriminate) ltac:(discriminate)).
Defined.

(** The date "2023-01-15" of the first demonstration line reaches its
    record as it is. *)
Lemma iso_date_unchanged_witness :
  JsDate.parseDateOnly "2023-01-15" = Some 1673740800000%Z /\
  pageRequest Demo.Date_now JsDate.parseDateOnly "db-1" "Alli's " Demo.amazon
    (Demo.mkWorld 7 []) =
    (Normal (requestWith "db-1" "Alli's " Demo.amazon "2023-01-15"),
     Demo.mkWorld 7 [], []).
Proof.
  split; [reflexivity |].
  exact (proj2 (iso_date_unchanged Demo.Date_now JsDate.parseDateOnly "db-1" "Alli's "
                  Demo.amazon "2023-01-15" 1673740800000%Z (Demo.mkWorld 7 [])
                  eq_refl eq_refl eq_refl eq_refl)).
Defined.

(** A run on a path that names a directory: the process ends on the
    uncaught exception, and no error line is printed. *)
Lemma read_error_ends_process_witness :
  exists trace,
    validateAndUploadTransactions Demo.Date_now JsDate.parseDateOnly Demo.process_env
      Scenes.fs_access_directory Scenes.directory_stream Demo.pages_create
      Scenes.directoryOptions (Demo.mkWorld 0 []) =
      (Exit 1, Demo.mkWorld 0 [],
       (trace ++ [uncaught_exception
                    (Js.mkError "EISDIR: illegal operation on a directory, read")])%list) /\
    (forall line, console_error line ∉ trace) /\
    attempts trace = [].
Proof.
  destruct (read_error_ends_process Demo.Date_now JsDate.parseDateOnly Demo.process_env
              Scenes.fs_access_directory Scenes.directory_stream Demo.pages_create
              Scenes.directoryOptions (Demo.mkWorld 0 []) (Demo.mkWorld 0 []) [] 0%Z
              (Js.mkError "EISDIR: illegal operation on a directory, read") []
              eq_refl eq_refl)
    as (trace & Hv & _ & Hquiet & Hnone).
  exists trace. split; [exact Hv |]. split; [exact Hquiet | exact Hnone].
Defined.

(** Nine hours ahead of UTC, the date "01/17/2023" of the third
    demonstration line is uploaded as 16 January 2023. *)
Lemma local_midnight_uploads_previous_day_witness :
  Scenes.parseNineHoursAhead "01/17/2023" =
    Some (JsDate.daysFromCivil 2023 1 17 * JsDate.msPerDay - 9 * 3600000)%Z /\
  pageRequest Demo.Date_now Scenes.parseNineHoursAhead "db-1" "Alli's " Demo.netflix
    (Demo.mkWorld 0 []) =
    (Normal (requestWith "db-1" "Alli's " Demo.netflix "2023-01-16"),
     Demo.mkWorld 0 [], []).
Proof.
  split; [reflexivity |].
  exact (local_midnight_uploads_previous_day Demo.Date_now Scenes.parseNineHoursAhead
           "db-1" "Alli's " Demo.netflix "01/17/2023" 2023%Z 1%Z 17%Z (9 * 3600000)%Z
           (Demo.mkWorld 0 []) eq_refl ltac:(discriminate)
           ltac:(unfold JsDate.msPerDay; lia) eq_refl).
Defined.
